(** * ThinShellDemonsMetric: a shallow embedding of
    [include/itkThinShellDemonsMetric.hxx] and its verification.

    The metric object is a record; its member functions are computations in a
    small state-and-exception monad whose outcomes are a return, a thrown
    [ExceptionObject], or undefined behaviour.  The metric is a template
    over the mesh types, whose point type is declared outside these
    sources; the coordinates and the [double] of the distances and sums are
    modelled at one scalar type, kept abstract behind the [NumericTraits]
    class, which has an IEEE binary64 instance and an exact instance over
    [Z].  Structural properties are proved for every instance; properties of
    order and sign are proved for binary64 from the specification of the
    primitive floating-point operations. *)

From Stdlib Require Import ZArith Lia List Bool String.
From Stdlib Require Import Floats Numbers.Cyclic.Int63.Uint63.
From stdpp Require Import base option list gmap.

Local Open Scope Z_scope.

(** ** Scalars *)

(** The arithmetic the metric performs on coordinates and distances:
    [NumericTraits< double >::max()], the zero the accumulators start from,
    [+], [-], [*], the comparison [<] of the nearest-point scan, and the
    conversion of an integer literal such as [-2]. *)
Class NumericTraits (D : Type) := {
  ZeroValue : D;
  nt_max : D;
  nt_of_int : Z -> D;
  nt_add : D -> D -> D;
  nt_sub : D -> D -> D;
  nt_mul : D -> D -> D;
  nt_lt : D -> D -> bool
}.

Declare Scope nt_scope.
Delimit Scope nt_scope with D.
Infix "+" := nt_add : nt_scope.
Infix "-" := nt_sub : nt_scope.
Infix "*" := nt_mul : nt_scope.
Infix "<?" := nt_lt : nt_scope.

(** Conversion of an [int] to [double] (exact below 2^53). *)
Definition double_of_int (z : Z) : float :=
  if z <? 0 then PrimFloat.opp (PrimFloat.of_uint63 (Uint63.of_Z (- z)))
  else PrimFloat.of_uint63 (Uint63.of_Z z).

(** IEEE 754 binary64, the kernel's primitive floats: the [double] of
    [minimumDistance], [dist] and [functionValue], taken for the coordinates
    as well. *)
#[export] Instance double_traits : NumericTraits float := {
  ZeroValue := PrimFloat.zero;
  nt_max := 0x1.fffffffffffffp+1023%float;
  nt_of_int := double_of_int;
  nt_add := PrimFloat.add;
  nt_sub := PrimFloat.sub;
  nt_mul := PrimFloat.mul;
  nt_lt := PrimFloat.ltb
}.

(** Exact integer arithmetic; [nt_max] is the integer value of [DBL_MAX]. *)
#[export] Instance exact_traits : NumericTraits Z := {
  ZeroValue := 0;
  nt_max := 2 ^ 1024 - 2 ^ 971;
  nt_of_int := fun z => z;
  nt_add := Z.add;
  nt_sub := Z.sub;
  nt_mul := Z.mul;
  nt_lt := Z.ltb
}.

(** ** Outcomes of a member function *)

(** A call returns a value, throws the [ExceptionObject] that
    [itkExceptionMacro] builds (the message is kept), or does what C++ leaves
    undefined: an index outside a [vnl_vector], [find(id)->second] on a key
    a [std::map] lacks, a null smart pointer dereferenced, a signed [int]
    overflow.  A return and a throw carry the state of the objects at that
    moment. *)
Inductive outcome (S A : Type) : Type :=
| Returns (a : A) (s : S)
| Throws (msg : string) (s : S)
| Undefined.
Arguments Returns {S A} a s.
Arguments Throws {S A} msg s.
Arguments Undefined {S A}.

Definition comp (S A : Type) : Type := S -> outcome S A.

Definition ret {S A} (a : A) : comp S A := fun s => Returns a s.

Definition bind {S A B} (m : comp S A) (k : A -> comp S B) : comp S B :=
  fun s =>
    match m s with
    | Returns a s' => k a s'
    | Throws msg s' => Throws msg s'
    | Undefined => Undefined
    end.

Definition get {S} : comp S S := fun s => Returns s s.
Definition put {S} (s : S) : comp S unit := fun _ => Returns tt s.
Definition itkExceptionMacro {S A} (msg : string) : comp S A :=
  fun s => Throws msg s.
Definition undefined {S A} : comp S A := fun _ => Undefined.

Notation "x <- m ;; k" := (bind m (fun x => k))
  (at level 100, m at next level, right associativity).
Notation "m ;;; k" := (bind m (fun _ => k))
  (at level 100, right associativity).

(** ** The [int] of the vertex counters *)

Definition INT_MAX : Z := 2 ^ 31 - 1.
Definition INT_MIN : Z := - 2 ^ 31.

(** A signed operation whose mathematical result does not fit is undefined. *)
Definition int_result {S} (z : Z) : comp S Z :=
  if (INT_MIN <=? z) && (z <=? INT_MAX) then ret z else undefined.
Definition int_add {S} (a b : Z) : comp S Z := int_result (a + b).
Definition int_mul {S} (a b : Z) : comp S Z := int_result (a * b).

(** ** Geometry: the three-dimensional [itk::Point] and [itk::Vector] *)

Section Geometry.
Context {D : Type} `{NumericTraits D}.

Record Point : Type := mkPoint { p0 : D; p1 : D; p2 : D }.
Record Vector : Type := mkVector { v0 : D; v1 : D; v2 : D }.

(** [Point::CastFrom] between points of one coordinate type copies the
    components. *)
Definition CastFrom (pa : Point) : Point :=
  mkPoint (p0 pa) (p1 pa) (p2 pa).

(** [Point::operator+(const Vector &)]. *)
Definition Point_plus (p : Point) (vec : Vector) : Point :=
  mkPoint (p0 p + v0 vec)%D (p1 p + v1 vec)%D (p2 p + v2 vec)%D.

(** [Point::operator-(const Point &)]. *)
Definition Point_minus (p q : Point) : Vector :=
  mkVector (p0 p - p0 q)%D (p1 p - p1 q)%D (p2 p - p2 q)%D.

(** [this->SquaredEuclideanDistanceTo(pa)]: the accumulator starts at zero
    and adds the square of each component's difference in turn. *)
Definition SquaredEuclideanDistanceTo (this pa : Point) : D :=
  let sum := ZeroValue in
  let difference := (p0 this - p0 pa)%D in
  let sum := (sum + difference * difference)%D in
  let difference := (p1 this - p1 pa)%D in
  let sum := (sum + difference * difference)%D in
  let difference := (p2 this - p2 pa)%D in
  let sum := (sum + difference * difference)%D in
  sum.
End Geometry.
Arguments Point D : clear implicits.
Arguments Vector D : clear implicits.

(** ** The objects the metric holds *)

Section Metric.
Context {D : Type} `{NumericTraits D}.

(** A transform: the parameters it stores and the point map its class
    computes from them. *)
Record Transform : Type := mkTransform {
  m_Parameters : list D;
  m_Map : list D -> Point D -> Point D
}.
Definition TransformPoint (t : Transform) (p : Point D) : Point D :=
  m_Map t (m_Parameters t) p.
Definition SetParameters (t : Transform) (parameters : list D) : Transform :=
  mkTransform parameters (m_Map t).

(** The pipeline filter a mesh is the output of.  Its [Update()] either
    regenerates the points of its output, or fails: then it throws an
    [ExceptionObject] (the test driver catches the readers' one around its
    own calls of [Update()]), and the output holds whatever points the
    failed run left in it. *)
Inductive Source : Type :=
| Regenerates (points : list (Point D))
| Fails (msg : string) (points : list (Point D)).

(** A mesh: its points container in traversal order and, when the mesh is
    the output of a pipeline filter, that filter.  The container cannot hold
    so many points that [GetNumberOfPoints() * 3] wraps around in
    [unsigned long], so sizes are plain naturals. *)
Record Mesh : Type := mkMesh {
  GetPoints : list (Point D);
  GetSource : option Source
}.
Definition GetNumberOfPoints (m : Mesh) : nat := length (GetPoints m).

(** [source->Update()] on the filter of the mesh [m]: the mesh afterwards,
    and the message of the exception when one is thrown. *)
Definition Update (source : Source) (m : Mesh) : Mesh * option string :=
  match source with
  | Regenerates points => (mkMesh points (GetSource m), None)
  | Fails msg points => (mkMesh points (GetSource m), Some msg)
  end.

(** [if ( mesh->GetSource() ) mesh->GetSource()->Update();], lines 56-65:
    a mesh with a source is updated by it, one without is left alone. *)
Definition UpdateSource (m : Mesh) : Mesh * option string :=
  match GetSource m with
  | Some source => Update source m
  | None => (m, None)
  end.

Record ThinShellDemonsMetric : Type := mkMetric {
  m_Transform : option Transform;
  m_FixedMesh : option Mesh;
  m_MovingMesh : option Mesh;
  targetMap : gmap Z (Point D);
  m_TargetPositionComputed : bool
}.

(** The constructor: smart pointers null, the map empty, the flag false. *)
Definition New : ThinShellDemonsMetric :=
  mkMetric None None None ∅ false.

Definition set_Transform (t : option Transform) (s : ThinShellDemonsMetric) :=
  mkMetric t (m_FixedMesh s) (m_MovingMesh s) (targetMap s)
           (m_TargetPositionComputed s).
Definition set_FixedMesh (m : option Mesh) (s : ThinShellDemonsMetric) :=
  mkMetric (m_Transform s) m (m_MovingMesh s) (targetMap s)
           (m_TargetPositionComputed s).
Definition set_MovingMesh (m : option Mesh) (s : ThinShellDemonsMetric) :=
  mkMetric (m_Transform s) (m_FixedMesh s) m (targetMap s)
           (m_TargetPositionComputed s).
Definition set_targetMap (tm : gmap Z (Point D)) (s : ThinShellDemonsMetric) :=
  mkMetric (m_Transform s) (m_FixedMesh s) (m_MovingMesh s) tm
           (m_TargetPositionComputed s).
Definition set_TargetPositionComputed (b : bool) (s : ThinShellDemonsMetric) :=
  mkMetric (m_Transform s) (m_FixedMesh s) (m_MovingMesh s) (targetMap s) b.

Definition M (A : Type) : Type := comp ThinShellDemonsMetric A.

(** An exception thrown inside a call that does not catch it leaves the
    caller too. *)
Definition propagate (thrown : option string) : M unit :=
  match thrown with
  | Some msg => itkExceptionMacro msg
  | None => ret tt
  end.

(** Storage that is read before anything was written to it: a
    default-constructed [InputPointType] (one per vertex visited) and the
    elements of a freshly allocated [DerivativeType]. *)
Variable indeterminate_point : Z -> Point D.
Variable indeterminate_double : nat -> D.

(** *** [ComputeTargetPosition] *)

(** The inner [while] over the fixed points, lines 114-125: the candidate
    and its distance are replaced only when [dist < minimumDistance]. *)
Fixpoint closest_scan (transformedPoint : Point D) (fixedPoints : list (Point D))
         (targetPoint : Point D) (minimumDistance : D) : Point D * D :=
  match fixedPoints with
  | [] => (targetPoint, minimumDistance)
  | value :: rest =>
      let dist := SquaredEuclideanDistanceTo value transformedPoint in
      if (dist <? minimumDistance)%D
      then closest_scan transformedPoint rest (CastFrom value) dist
      else closest_scan transformedPoint rest targetPoint minimumDistance
  end.

(** [this->m_Transform->...]: a null pointer dereferenced is undefined. *)
Definition deref_Transform : M Transform :=
  s <- get ;;
  match m_Transform s with
  | Some t => ret t
  | None => undefined
  end.

(** [targetMap[identifier] = targetPoint]. *)
Definition targetMap_assign (identifier : Z) (targetPoint : Point D) : M unit :=
  s <- get ;;
  put (set_targetMap (<[identifier := targetPoint]> (targetMap s)) s).

(** The outer [while] over the moving points, lines 96-132. *)
Fixpoint ComputeTargetPosition_loop (fixedMesh : Mesh)
         (points : list (Point D)) (identifier : Z) : M unit :=
  match points with
  | [] => ret tt
  | value :: rest =>
      let inputPoint := CastFrom value in
      transform <- deref_Transform ;;
      let transformedPoint := TransformPoint transform inputPoint in
      let targetPoint := indeterminate_point identifier in
      let minimumDistance := nt_max in
      let closestPoint := false in
      let '(targetPoint, minimumDistance) :=
        if negb closestPoint
        then closest_scan transformedPoint (GetPoints fixedMesh)
                          targetPoint minimumDistance
        else (targetPoint, minimumDistance) in
      targetMap_assign identifier targetPoint ;;;
      identifier <- int_add identifier 1 ;;
      ComputeTargetPosition_loop fixedMesh rest identifier
  end.

Definition ComputeTargetPosition : M unit :=
  s <- get ;;
  match m_FixedMesh s with
  | None => itkExceptionMacro "Fixed point set has not been assigned"
  | Some fixedMesh =>
      match m_MovingMesh s with
      | None => itkExceptionMacro "Moving point set has not been assigned"
      | Some movingMesh =>
          (* targetMap.Initialize() empties the container *)
          put (set_targetMap ∅ s) ;;;
          let identifier := 0 in
          ComputeTargetPosition_loop fixedMesh (GetPoints movingMesh) identifier ;;;
          s <- get ;;
          put (set_TargetPositionComputed true s)
      end
  end.

(** *** [Initialize] *)

Definition Initialize : M unit :=
  s <- get ;;
  match m_Transform s with
  | None => itkExceptionMacro "Transform is not present"
  | Some _ =>
      match m_MovingMesh s with
      | None => itkExceptionMacro "MovingMesh is not present"
      | Some movingMesh =>
          match m_FixedMesh s with
          | None => itkExceptionMacro "FixedMesh is not present"
          | Some fixedMesh =>
              (* if the mesh is provided by a source, update the source *)
              let '(movingMesh, thrown) := UpdateSource movingMesh in
              put (set_MovingMesh (Some movingMesh) s) ;;;
              propagate thrown ;;;
              let '(fixedMesh, thrown) := UpdateSource fixedMesh in
              s <- get ;;
              put (set_FixedMesh (Some fixedMesh) s) ;;;
              propagate thrown ;;;
              ComputeTargetPosition
          end
      end
  end.

(** *** The evaluators *)

(** Modelled from the spec: the inherited [SetTransformParameters] (declared
    in the metric's base class, which is not part of the sources at hand).
    The spec has the evaluator cache "the supplied parameters into the
    transform's state (a setter call)" and lists a missing transform among
    the configuration errors re-checked at evaluator entry. *)
Definition SetTransformParameters (parameters : list D) : M unit :=
  s <- get ;;
  match m_Transform s with
  | None => itkExceptionMacro "Transform has not been assigned"
  | Some t => put (set_Transform (Some (SetParameters t parameters)) s)
  end.

(** [parameters[i]]: [vnl_vector::operator[]] does not check its index,
    and a negative [int] converts to an index past every vector. *)
Definition vnl_get (v : list D) (i : Z) : M D :=
  if i <? 0 then undefined else
  match v !! Z.to_nat i with
  | Some a => ret a
  | None => undefined
  end.

(** [derivative[i] = a]. *)
Definition vnl_put (v : list D) (i : Z) (a : D) : M (list D) :=
  if i <? 0 then undefined else
  if decide (Z.to_nat i < length v)%nat then ret (<[Z.to_nat i := a]> v)
  else undefined.

(** [targetMap.ElementAt(identifier)] in a [const] member function: the
    container's [const] overload, [find(id)->second]. *)
Definition ElementAt (identifier : Z) : M (Point D) :=
  s <- get ;;
  match targetMap s !! identifier with
  | Some p => ret p
  | None => undefined
  end.

(** The three reads [parameters[identifier*3 + k]], lines 171-173 and
    228-230. *)
Definition read_vec (parameters : list D) (identifier : Z) : M (Vector D) :=
  i <- int_mul identifier 3 ;;
  a0 <- vnl_get parameters i ;;
  i <- int_mul identifier 3 ;;
  i <- int_add i 1 ;;
  a1 <- vnl_get parameters i ;;
  i <- int_mul identifier 3 ;;
  i <- int_add i 2 ;;
  a2 <- vnl_get parameters i ;;
  ret (mkVector a0 a1 a2).

(** The [while] of [GetValue], lines 165-183. *)
Fixpoint GetValue_loop (parameters : list D) (points : list (Point D))
         (identifier : Z) (functionValue : D) : M D :=
  match points with
  | [] => ret functionValue
  | value :: rest =>
      let inputPoint := CastFrom value in
      vec <- read_vec parameters identifier ;;
      let transformedPoint := Point_plus inputPoint vec in
      targetPoint <- ElementAt identifier ;;
      let dist := SquaredEuclideanDistanceTo targetPoint transformedPoint in
      let functionValue := (functionValue + dist)%D in
      identifier <- int_add identifier 1 ;;
      GetValue_loop parameters rest identifier functionValue
  end.

Definition GetValue (parameters : list D) : M D :=
  s <- get ;;
  match m_FixedMesh s with
  | None => itkExceptionMacro "Fixed point set has not been assigned"
  | Some fixedMesh =>
      match m_MovingMesh s with
      | None => itkExceptionMacro "Moving point set has not been assigned"
      | Some movingMesh =>
          SetTransformParameters parameters ;;;
          let identifier := 0 in
          let functionValue := ZeroValue in
          GetValue_loop parameters (GetPoints movingMesh) identifier functionValue
      end
  end.

(** [DerivativeType(n)]: [n] elements, none of them written yet. *)
Definition DerivativeType (n : nat) : list D :=
  map indeterminate_double (seq 0 n).

(** [memset(v.data_block(), 0, n * sizeof(double))]: the first [n] elements
    become [0.0]. *)
Definition memset_zero (v : list D) (n : nat) : list D :=
  replicate (Nat.min n (length v)) ZeroValue ++ drop n v.

(** The [while] of [GetDerivative], lines 223-242. *)
Fixpoint GetDerivative_loop (parameters : list D) (points : list (Point D))
         (identifier : Z) (derivative : list D) : M (list D) :=
  match points with
  | [] => ret derivative
  | value :: rest =>
      let inputPoint := CastFrom value in
      vec <- read_vec parameters identifier ;;
      let transformedPoint := Point_plus inputPoint vec in
      targetPoint <- ElementAt identifier ;;
      let distVec := Point_minus targetPoint inputPoint in
      i <- int_mul identifier 3 ;;
      derivative <- vnl_put derivative i (nt_of_int (-2) * v0 distVec)%D ;;
      i <- int_mul identifier 3 ;;
      i <- int_add i 1 ;;
      derivative <- vnl_put derivative i (nt_of_int (-2) * v1 distVec)%D ;;
      i <- int_mul identifier 3 ;;
      i <- int_add i 2 ;;
      derivative <- vnl_put derivative i (nt_of_int (-2) * v2 distVec)%D ;;
      identifier <- int_add identifier 1 ;;
      GetDerivative_loop parameters rest identifier derivative
  end.

(** [derivative] is passed by reference: the list returned is its content
    when the call returns. *)
Definition GetDerivative (parameters : list D) (derivative : list D) : M (list D) :=
  s <- get ;;
  match m_FixedMesh s with
  | None => itkExceptionMacro "Fixed point set has not been assigned"
  | Some fixedMesh =>
      match m_MovingMesh s with
      | None => itkExceptionMacro "Moving point set has not been assigned"
      | Some movingMesh =>
          let derivative :=
            if decide (length derivative ≠ (GetNumberOfPoints fixedMesh * 3)%nat)
            then DerivativeType (GetNumberOfPoints fixedMesh * 3)
            else derivative in
          let derivative :=
            memset_zero derivative (GetNumberOfPoints fixedMesh * 3) in
          let identifier := 0 in
          GetDerivative_loop parameters (GetPoints movingMesh) identifier derivative
      end
  end.

Definition GetValueAndDerivative (parameters : list D) (derivative : list D)
  : M (D * list D) :=
  value <- GetValue parameters ;;
  derivative <- GetDerivative parameters derivative ;;
  ret (value, derivative).

End Metric.
Arguments Transform D : clear implicits.
Arguments Source D : clear implicits.
Arguments Mesh D : clear implicits.
Arguments ThinShellDemonsMetric D : clear implicits.

(** * Vocabulary of the statements *)

(** The state an outcome carries, when it carries one. *)
Definition final_state {S A} (o : outcome S A) : option S :=
  match o with
  | Returns _ s => Some s
  | Throws _ s => Some s
  | Undefined => None
  end.

(** A computation that only reads the state and never throws: on every state
    it returns with the state untouched, or its behaviour is undefined. *)
Definition reads_only {S A} (m : comp S A) : Prop :=
  forall s, (exists a, m s = Returns a s) \/ m s = Undefined.

Section Vocabulary.
Context {D : Type} `{NumericTraits D}.
Variable indeterminate_point : Z -> Point D.
Variable indeterminate_double : nat -> D.

(** The target the scan leaves for the vertex [value] visited as number
    [identifier]. *)
Definition closest (transform : Transform D) (fixedMesh : Mesh D)
           (identifier : Z) (value : Point D) : Point D :=
  fst (closest_scan (TransformPoint transform (CastFrom value))
                    (GetPoints fixedMesh)
                    (indeterminate_point identifier) nt_max).

(** The assignments [targetMap[identifier] = targetPoint] of one run of the
    outer loop, in order. *)
Fixpoint insert_targets (transform : Transform D) (fixedMesh : Mesh D)
         (points : list (Point D)) (identifier : Z)
         (m : gmap Z (Point D)) : gmap Z (Point D) :=
  match points with
  | [] => m
  | value :: rest =>
      insert_targets transform fixedMesh rest (identifier + 1)
                     (<[identifier := closest transform fixedMesh identifier value]> m)
  end.

(** The state [ComputeTargetPosition] leaves when it returns. *)
Definition targets_computed (transform : Transform D) (fixedMesh movingMesh : Mesh D)
           (s : ThinShellDemonsMetric D) : ThinShellDemonsMetric D :=
  set_TargetPositionComputed true
    (set_targetMap
       (insert_targets transform fixedMesh (GetPoints movingMesh) 0 ∅) s).

(** The meshes after the two pipeline updates of [Initialize]. *)
Definition sources_updated (fixedMesh movingMesh : Mesh D)
           (s : ThinShellDemonsMetric D) : ThinShellDemonsMetric D :=
  set_FixedMesh (Some (fst (UpdateSource fixedMesh)))
                (set_MovingMesh (Some (fst (UpdateSource movingMesh))) s).

(** The three writes of one turn: [derivative[3i + k] = -2 * distVec[k]]. *)
Definition write_gradient (derivative : list D) (identifier : Z)
           (t value : Point D) : list D :=
  <[Z.to_nat (identifier * 3 + 2) := (nt_of_int (-2) * (p2 t - p2 value))%D]>
    (<[Z.to_nat (identifier * 3 + 1) := (nt_of_int (-2) * (p1 t - p1 value))%D]>
       (<[Z.to_nat (identifier * 3) := (nt_of_int (-2) * (p0 t - p0 value))%D]>
          derivative)).

(** Two outcomes of one shape: both return (whatever the values) in one
    state, or both are undefined. *)
Definition same_shape {A B} (o1 : outcome (ThinShellDemonsMetric D) A)
           (o2 : outcome (ThinShellDemonsMetric D) B) : Prop :=
  match o1, o2 with
  | Returns _ s1, Returns _ s2 => s1 = s2
  | Undefined, Undefined => True
  | _, _ => False
  end.

(** [fixedPoints[k] = f] is the first nearest fixed point of [p]: no fixed
    point is strictly nearer, and [f] is strictly nearer than every fixed
    point met before it whose distance can be compared at all. *)
Definition first_minimizer (comparable : D -> Prop) (p : Point D)
           (fixedPoints : list (Point D)) (k : nat) (f : Point D) : Prop :=
  fixedPoints !! k = Some f /\
  (forall (j : nat) (g : Point D),
      fixedPoints !! j = Some g ->
      (SquaredEuclideanDistanceTo g p <? SquaredEuclideanDistanceTo f p)%D = false) /\
  (forall (j : nat) (g : Point D),
      (j < k)%nat -> fixedPoints !! j = Some g ->
      comparable (SquaredEuclideanDistanceTo g p) ->
      (SquaredEuclideanDistanceTo f p <? SquaredEuclideanDistanceTo g p)%D = true).

(** The calls an optimizer makes after [Initialize]. *)
Inductive call : Type :=
| call_GetValue (parameters : list D)
| call_GetDerivative (parameters derivative : list D).

(** The metric after one call, when the call's behaviour is defined (a
    throw leaves the metric usable). *)
Definition after_call (c : call) (s : ThinShellDemonsMetric D)
  : option (ThinShellDemonsMetric D) :=
  match c with
  | call_GetValue parameters => final_state (GetValue parameters s)
  | call_GetDerivative parameters derivative =>
      final_state (GetDerivative indeterminate_double parameters derivative s)
  end.

Fixpoint after_calls (calls : list call) (s : ThinShellDemonsMetric D)
  : option (ThinShellDemonsMetric D) :=
  match calls with
  | [] => Some s
  | c :: rest =>
      match after_call c s with
      | Some s' => after_calls rest s'
      | None => None
      end
  end.

(** Two outcomes that differ at most in the state they carry: both return
    one value, both throw one message, or both are undefined. *)
Definition same_result {A} (o1 o2 : outcome (ThinShellDemonsMetric D) A)
           (s1 s2 : ThinShellDemonsMetric D) : Prop :=
  (exists a, o1 = Returns a s1 /\ o2 = Returns a s2) \/
  (exists msg, o1 = Throws msg s1 /\ o2 = Throws msg s2) \/
  (o1 = Undefined /\ o2 = Undefined).

(** A computation that reads nothing of the metric but its target map, and
    leaves the metric alone. *)
Definition reads_targetMap_only {A} (m : M A) : Prop :=
  forall s1 s2 : ThinShellDemonsMetric D,
    targetMap s1 = targetMap s2 -> same_result (m s1) (m s2) s1 s2.

(** A property that the three coordinates of a point have. *)
Definition Point_all (P : D -> Prop) (p : Point D) : Prop :=
  P (p0 p) /\ P (p1 p) /\ P (p2 p).

(** The transformed vertex [v] has a fixed point strictly below the scan's
    initial bound. *)
Definition has_point_below_bound (transform : Transform D) (fixedMesh : Mesh D)
           (v : Point D) : Prop :=
  exists (j : nat) (g : Point D),
    GetPoints fixedMesh !! j = Some g /\
    (SquaredEuclideanDistanceTo g (TransformPoint transform v) <? nt_max)%D = true.

End Vocabulary.

(** ** IEEE binary64 through its specification [spec_float] *)

(** A [double] that can be compared: any but NaN. *)
Definition comparable_double (x : float) : Prop := is_nan x = false.

(** Every value is comparable in exact arithmetic. *)
Definition comparable_exact (x : Z) : Prop := True.

(** A [double] that is not negative: [0 <= x], or [x] is NaN. *)
Definition nonneg_or_nan (x : float) : Prop :=
  (0 <=? x)%float = true \/ is_nan x = true.

Definition sf_is_nan (x : spec_float) : bool :=
  match x with
  | S754_nan => true
  | _ => false
  end.

Definition sf_nonneg (x : spec_float) : bool :=
  match x with
  | S754_zero _ => true
  | S754_infinity s => negb s
  | S754_finite s _ _ => negb s
  | S754_nan => false
  end.

Definition sf_nonneg_or_nan (x : spec_float) : bool :=
  match x with
  | S754_nan => true
  | _ => sf_nonneg x
  end.

Definition sf_finite (x : spec_float) : bool :=
  match x with
  | S754_zero _ | S754_finite _ _ _ => true
  | _ => false
  end.

(** A point whose coordinates are finite: neither NaN nor an infinity. *)
Definition finite_point (p : Point float) : Prop :=
  Point_all (fun x => is_finite x = true) p.

(** A key whose lexicographic order is the order [SFcompare] computes. *)
Definition sf_key (x : spec_float) : Z * Z * Z :=
  match x with
  | S754_nan => (0, 0, 0)
  | S754_zero _ => (0, 0, 0)
  | S754_infinity true => (-2, 0, 0)
  | S754_infinity false => (2, 0, 0)
  | S754_finite true m e => (-1, - e, - Z.pos m)
  | S754_finite false m e => (1, e, Z.pos m)
  end.

Definition lex_lt (a b : Z * Z * Z) : Prop :=
  let '(a1, a2, a3) := a in
  let '(b1, b2, b3) := b in
  a1 < b1 \/ (a1 = b1 /\ (a2 < b2 \/ (a2 = b2 /\ a3 < b3))).

(** * The spec's test scenario *)

(** Fixed mesh [A = (0,0,0)], [B = (10,0,0)]; moving mesh with the single
    vertex [(1,0,0)]; identity transform.  The coordinates are small
    integers, so the scenario exists in every [NumericTraits] instance. *)
Section Scenario.
Context {D : Type} `{NumericTraits D}.

Definition point_of_ints (a b c : Z) : Point D :=
  mkPoint (nt_of_int a) (nt_of_int b) (nt_of_int c).

Definition identity_transform : Transform D :=
  mkTransform [] (fun _ p => p).

Definition fixed_AB : Mesh D :=
  mkMesh [point_of_ints 0 0 0; point_of_ints 10 0 0] None.

Definition moving_1 : Mesh D :=
  mkMesh [point_of_ints 1 0 0] None.

Definition never_assigned_point : Z -> Point D :=
  fun _ => point_of_ints 7 7 7.

Definition never_assigned_double : nat -> D :=
  fun _ => nt_of_int 9.

(** The metric as the registration driver configures it. *)
Definition configured : ThinShellDemonsMetric D :=
  mkMetric (Some identity_transform) (Some fixed_AB) (Some moving_1) ∅ false.

(** The metric after [Initialize]. *)
Definition initialized : ThinShellDemonsMetric D :=
  mkMetric (Some identity_transform) (Some fixed_AB) (Some moving_1)
           {[ 0 := point_of_ints 0 0 0 ]} true.

(** Two moving vertices over a fixed mesh of one point, targets in place. *)
Definition fixed_A : Mesh D :=
  mkMesh [point_of_ints 0 0 0] None.

Definition moving_2 : Mesh D :=
  mkMesh [point_of_ints 1 0 0; point_of_ints 11 0 0] None.

Definition initialized_two_on_one : ThinShellDemonsMetric D :=
  mkMetric (Some identity_transform) (Some fixed_A) (Some moving_2)
           {[ 0 := point_of_ints 0 0 0; 1 := point_of_ints 0 0 0 ]} true.

(** Two fixed points at the same distance from the moving vertex. *)
Definition fixed_tie : Mesh D :=
  mkMesh [point_of_ints 0 0 0; point_of_ints 2 0 0] None.

Definition configured_tie : ThinShellDemonsMetric D :=
  mkMetric (Some identity_transform) (Some fixed_tie) (Some moving_1) ∅ false.

Definition initialized_tie : ThinShellDemonsMetric D :=
  mkMetric (Some identity_transform) (Some fixed_tie) (Some moving_1)
           {[ 0 := point_of_ints 0 0 0 ]} true.

(** A fixed mesh that is present and has no points. *)
Definition fixed_empty : Mesh D := mkMesh [] None.

Definition configured_empty_fixed : ThinShellDemonsMetric D :=
  mkMetric (Some identity_transform) (Some fixed_empty) (Some moving_1) ∅ false.

Definition initialized_empty_fixed : ThinShellDemonsMetric D :=
  mkMetric (Some identity_transform) (Some fixed_empty) (Some moving_1)
           {[ 0 := never_assigned_point 0 ]} true.

(** A moving mesh that is present and has no points, in a metric whose
    transform was never set. *)
Definition moving_empty : Mesh D := mkMesh [] None.

Definition empty_moving_no_transform : ThinShellDemonsMetric D :=
  mkMetric None (Some fixed_AB) (Some moving_empty) ∅ false.

(** A moving mesh whose reader fails, as on a file that cannot be opened,
    and leaves the mesh without points; and one that has not been read yet,
    whose reader will deliver the vertex [(1,0,0)]. *)
Definition moving_unreadable : Mesh D :=
  mkMesh [point_of_ints 1 0 0] (Some (Fails "Could not open movingMesh.vtk" [])).

Definition moving_unread : Mesh D :=
  mkMesh [] (Some (Regenerates [point_of_ints 1 0 0])).

Definition moving_read : Mesh D :=
  mkMesh [point_of_ints 1 0 0] (Some (Regenerates [point_of_ints 1 0 0])).

(** A transform that sends every point to the origin. *)
Definition collapsing_transform : Transform D :=
  mkTransform [] (fun _ _ => point_of_ints 0 0 0).

(** The initialized metric with its transform taken away, its flag
    cleared, and the fixed mesh replaced by another of two points. *)
Definition fixed_CD : Mesh D :=
  mkMesh [point_of_ints 5 5 5; point_of_ints 6 6 6] None.

Definition initialized_no_transform : ThinShellDemonsMetric D :=
  set_Transform None
    (set_FixedMesh (Some fixed_CD)
       (set_TargetPositionComputed false initialized)).

(** The initialized metric with another transform and a fixed mesh of one
    point. *)
Definition initialized_collapsing : ThinShellDemonsMetric D :=
  set_Transform (Some collapsing_transform)
    (set_FixedMesh (Some fixed_A) initialized).

End Scenario.

(** A fixed mesh whose single point is so far from the origin that its
    squared distance overflows [double]. *)
Definition far_point : Point float := mkPoint 0x1p+700%float 0%float 0%float.

Definition fixed_far : Mesh float := mkMesh [far_point] None.

Definition moving_origin : Mesh float :=
  mkMesh [mkPoint 0%float 0%float 0%float] None.

Definition configured_far : ThinShellDemonsMetric float :=
  mkMetric (Some identity_transform) (Some fixed_far) (Some moving_origin) ∅ false.

Definition initialized_far : ThinShellDemonsMetric float :=
  mkMetric (Some identity_transform) (Some fixed_far) (Some moving_origin)
           {[ 0 := never_assigned_point 0 ]} true.

(** A moving vertex with an infinite coordinate, its target at the
    origin. *)
Definition moving_at_infinity : Mesh float :=
  mkMesh [mkPoint infinity 0%float 0%float] None.

Definition vertex_at_infinity : ThinShellDemonsMetric float :=
  mkMetric (Some identity_transform) (Some fixed_A) (Some moving_at_infinity)
           {[ 0 := point_of_ints 0 0 0 ]} true.

(** * Verification *)

(** ** The monad *)

Ltac munfold :=
  unfold bind, ret, get, put, undefined, itkExceptionMacro in *.

Section MonadFacts.
Context {S A B : Type}.

Lemma bind_Returns (m : comp S A) (k : A -> comp S B) (s s' : S) (b : B) :
  bind m k s = Returns b s' ->
  exists a s1, m s = Returns a s1 /\ k a s1 = Returns b s'.
Proof.
  unfold bind. destruct (m s) as [a s1|msg s1|]; intros Heq; try discriminate.
  exists a, s1. auto.
Qed.

Lemma bind_Throws (m : comp S A) (k : A -> comp S B) (s s' : S) (msg : string) :
  bind m k s = Throws msg s' ->
  m s = Throws msg s' \/ exists a s1, m s = Returns a s1 /\ k a s1 = Throws msg s'.
Proof.
  unfold bind. destruct (m s) as [a s1|msg1 s1|]; intros Heq; try discriminate.
  - right. exists a, s1. auto.
  - left. inversion Heq; subst. reflexivity.
Qed.

Lemma bind_of_Returns (m : comp S A) (k : A -> comp S B) (s s1 : S) (a : A) :
  m s = Returns a s1 -> bind m k s = k a s1.
Proof. unfold bind. intros ->. reflexivity. Qed.

Lemma bind_of_Undefined (m : comp S A) (k : A -> comp S B) (s : S) :
  m s = Undefined -> bind m k s = Undefined.
Proof. unfold bind. intros ->. reflexivity. Qed.
End MonadFacts.

Lemma reads_only_ret {S A} (a : A) : reads_only (@ret S A a).
Proof. intros s. left. exists a. reflexivity. Qed.

Lemma reads_only_undefined {S A} : reads_only (@undefined S A).
Proof. intros s. right. reflexivity. Qed.

Lemma reads_only_get {S} : reads_only (@get S).
Proof. intros s. left. exists s. reflexivity. Qed.

Lemma reads_only_bind {S A B} (m : comp S A) (k : A -> comp S B) :
  reads_only m -> (forall a, reads_only (k a)) -> reads_only (bind m k).
Proof.
  intros Hm Hk s. destruct (Hm s) as [[a Ha]|Hu].
  - rewrite (bind_of_Returns _ _ _ _ _ Ha). apply Hk.
  - right. apply bind_of_Undefined. exact Hu.
Qed.

Lemma reads_only_final_state {S A} (m : comp S A) (s s' : S) :
  reads_only m -> final_state (m s) = Some s' -> s' = s.
Proof.
  intros Hm Hfin. destruct (Hm s) as [[a Ha]|Hu].
  - rewrite Ha in Hfin. simpl in Hfin. congruence.
  - rewrite Hu in Hfin. discriminate.
Qed.

Lemma reads_only_Returns {S A} (m : comp S A) (s s' : S) (a : A) :
  reads_only m -> m s = Returns a s' -> s' = s.
Proof.
  intros Hm Heq. apply (reads_only_final_state m); [exact Hm|].
  rewrite Heq. reflexivity.
Qed.

Lemma reads_only_no_throw {S A} (m : comp S A) (s s' : S) (msg : string) :
  reads_only m -> m s <> Throws msg s'.
Proof.
  intros Hm Heq. destruct (Hm s) as [[a Ha]|Hu]; congruence.
Qed.

Create HintDb reads discriminated.
#[export] Hint Resolve reads_only_ret reads_only_undefined reads_only_get
  reads_only_bind : reads.

Section IntFacts.
Context {S : Type}.

Lemma int_result_in_range (z : Z) (s : S) :
  INT_MIN <= z <= INT_MAX -> int_result z s = Returns z s.
Proof.
  intros [Hlo Hhi]. unfold int_result.
  apply Z.leb_le in Hlo. apply Z.leb_le in Hhi.
  rewrite Hlo, Hhi. reflexivity.
Qed.

Lemma int_result_Returns (z r : Z) (s s' : S) :
  int_result z s = Returns r s' -> r = z /\ s' = s /\ INT_MIN <= z <= INT_MAX.
Proof.
  unfold int_result.
  destruct (INT_MIN <=? z) eqn:Hlo; destruct (z <=? INT_MAX) eqn:Hhi;
    simpl; munfold; intros Heq; try discriminate.
  inversion Heq; subst.
  apply Z.leb_le in Hlo. apply Z.leb_le in Hhi. auto.
Qed.

Lemma int_result_no_throw (z : Z) (s s' : S) (msg : string) :
  int_result z s <> Throws msg s'.
Proof.
  unfold int_result.
  destruct ((INT_MIN <=? z) && (z <=? INT_MAX)); munfold; discriminate.
Qed.
End IntFacts.

Lemma reads_only_int_result {S} (z : Z) : reads_only (@int_result S z).
Proof.
  unfold int_result.
  destruct ((INT_MIN <=? z) && (z <=? INT_MAX)); auto with reads.
Qed.

Lemma reads_only_int_add {S} (a b : Z) : reads_only (@int_add S a b).
Proof. apply reads_only_int_result. Qed.

Lemma reads_only_int_mul {S} (a b : Z) : reads_only (@int_mul S a b).
Proof. apply reads_only_int_result. Qed.

#[export] Hint Resolve reads_only_int_result reads_only_int_add
  reads_only_int_mul : reads.

Lemma INT_MAX_value : INT_MAX = 2147483647.
Proof. reflexivity. Qed.

Lemma INT_MIN_value : INT_MIN = -2147483648.
Proof. reflexivity. Qed.

(** ** [ComputeTargetPosition] and [Initialize] *)

Section Correspondence.
Context {D : Type} `{NumericTraits D}.
Variable indeterminate_point : Z -> Point D.

Lemma set_targetMap_twice (m m' : gmap Z (Point D)) (s : ThinShellDemonsMetric D) :
  set_targetMap m' (set_targetMap m s) = set_targetMap m' s.
Proof. reflexivity. Qed.

Lemma ComputeTargetPosition_loop_nil (fixedMesh : Mesh D) (identifier : Z)
      (s : ThinShellDemonsMetric D) :
  ComputeTargetPosition_loop indeterminate_point fixedMesh [] identifier s
  = Returns tt s.
Proof. reflexivity. Qed.

(** One turn of the outer loop. *)
Lemma ComputeTargetPosition_loop_cons (transform : Transform D)
      (fixedMesh : Mesh D) (value : Point D) (rest : list (Point D))
      (identifier : Z) (s : ThinShellDemonsMetric D) :
  m_Transform s = Some transform ->
  ComputeTargetPosition_loop indeterminate_point fixedMesh (value :: rest)
                             identifier s
  = bind (int_add identifier 1)
         (ComputeTargetPosition_loop indeterminate_point fixedMesh rest)
         (set_targetMap
            (<[identifier := closest indeterminate_point transform fixedMesh
                                  identifier value]>
               (targetMap s)) s).
Proof.
  intros Htr.
  cbn [ComputeTargetPosition_loop].
  unfold bind at 1. unfold deref_Transform.
  unfold bind at 1. unfold get. rewrite Htr. unfold ret at 1.
  cbn [negb]. unfold closest.
  destruct (closest_scan _ _ _ _) as [targetPoint minimumDistance].
  cbn [fst].
  unfold bind at 1. unfold targetMap_assign, bind at 1, get, put.
  reflexivity.
Qed.

Lemma ComputeTargetPosition_loop_runs (transform : Transform D)
      (fixedMesh : Mesh D) (points : list (Point D)) :
  forall (identifier : Z) (s : ThinShellDemonsMetric D),
    m_Transform s = Some transform ->
    0 <= identifier ->
    identifier + Z.of_nat (length points) <= INT_MAX ->
    ComputeTargetPosition_loop indeterminate_point fixedMesh points identifier s
    = Returns tt
        (set_targetMap
           (insert_targets indeterminate_point transform fixedMesh points
                           identifier (targetMap s)) s).
Proof.
  induction points as [|value rest IH]; intros identifier s Htr Hid Hmax.
  - simpl. destruct s; reflexivity.
  - simpl length in Hmax.
    rewrite (ComputeTargetPosition_loop_cons transform) by exact Htr.
    unfold int_add.
    rewrite (bind_of_Returns _ _ _ _ _
               (int_result_in_range (identifier + 1) _
                  ltac:(unfold INT_MIN; lia))).
    rewrite IH; [reflexivity | exact Htr | lia | simpl; lia].
Qed.

(** Lookups in the map the loop builds. *)
Lemma insert_targets_lookup_other (transform : Transform D) (fixedMesh : Mesh D)
      (points : list (Point D)) :
  forall (identifier : Z) (m : gmap Z (Point D)) (k : Z),
    k < identifier \/ identifier + Z.of_nat (length points) <= k ->
    insert_targets indeterminate_point transform fixedMesh points identifier m
      !! k
    = m !! k.
Proof.
  induction points as [|value rest IH]; intros identifier m k Hk; simpl.
  - reflexivity.
  - rewrite IH by (simpl length in Hk; lia).
    apply lookup_insert_ne. simpl length in Hk. lia.
Qed.

Lemma insert_targets_lookup (transform : Transform D) (fixedMesh : Mesh D)
      (points : list (Point D)) :
  forall (identifier : Z) (m : gmap Z (Point D)) (i : nat) (value : Point D),
    points !! i = Some value ->
    insert_targets indeterminate_point transform fixedMesh points identifier m
      !! (identifier + Z.of_nat i)
    = Some (closest indeterminate_point transform fixedMesh
                    (identifier + Z.of_nat i) value).
Proof.
  induction points as [|value0 rest IH]; intros identifier m i value Hi.
  - discriminate.
  - destruct i as [|i]; simpl in Hi.
    + inversion Hi; subst. simpl.
      rewrite insert_targets_lookup_other by lia.
      replace (identifier + Z.of_nat 0) with identifier by lia.
      apply lookup_insert_eq.
    + simpl insert_targets.
      replace (identifier + Z.of_nat (S i)) with (identifier + 1 + Z.of_nat i) by lia.
      apply IH. exact Hi.
Qed.

Lemma insert_targets_size (transform : Transform D) (fixedMesh : Mesh D)
      (points : list (Point D)) :
  forall (identifier : Z) (m : gmap Z (Point D)),
    (forall k, identifier <= k -> m !! k = None) ->
    size (insert_targets indeterminate_point transform fixedMesh points identifier m)
    = (size m + length points)%nat.
Proof.
  induction points as [|value rest IH]; intros identifier m Hfresh; simpl.
  - lia.
  - rewrite IH.
    + rewrite map_size_insert_None by (apply Hfresh; lia). lia.
    + intros k Hk. rewrite lookup_insert_ne by lia. apply Hfresh. lia.
Qed.

Lemma ComputeTargetPosition_loop_cases (transform : Transform D)
      (fixedMesh : Mesh D) (points : list (Point D)) :
  forall (identifier : Z) (s : ThinShellDemonsMetric D),
    m_Transform s = Some transform ->
    ComputeTargetPosition_loop indeterminate_point fixedMesh points identifier s
    = Returns tt
        (set_targetMap
           (insert_targets indeterminate_point transform fixedMesh points
                           identifier (targetMap s)) s)
    \/ ComputeTargetPosition_loop indeterminate_point fixedMesh points identifier s
       = Undefined.
Proof.
  induction points as [|value rest IH]; intros identifier s Htr.
  - left. simpl. destruct s; reflexivity.
  - rewrite (ComputeTargetPosition_loop_cons transform) by exact Htr.
    cbn [insert_targets].
    destruct (reads_only_int_add identifier 1
                (set_targetMap
                   (<[identifier := closest indeterminate_point transform fixedMesh
                                  identifier value]>
                      (targetMap s)) s)) as [[z Hz]|Hu].
    + rewrite (bind_of_Returns _ _ _ _ _ Hz).
      apply int_result_Returns in Hz. destruct Hz as [-> _].
      destruct (IH (identifier + 1)
                   (set_targetMap
                      (<[identifier := closest indeterminate_point transform fixedMesh
                                  identifier value]>
                         (targetMap s)) s) Htr) as [Hr|Hu].
      * left. rewrite Hr. reflexivity.
      * right. exact Hu.
    + right. apply bind_of_Undefined. exact Hu.
Qed.

Lemma ComputeTargetPosition_present (fixedMesh movingMesh : Mesh D)
      (s : ThinShellDemonsMetric D) :
  m_FixedMesh s = Some fixedMesh ->
  m_MovingMesh s = Some movingMesh ->
  ComputeTargetPosition indeterminate_point s
  = bind (ComputeTargetPosition_loop indeterminate_point fixedMesh
            (GetPoints movingMesh) 0)
         (fun _ => s <- get ;; put (set_TargetPositionComputed true s))
         (set_targetMap ∅ s).
Proof.
  intros Hfix Hmov.
  unfold ComputeTargetPosition. unfold bind at 1. unfold get at 1.
  rewrite Hfix, Hmov. reflexivity.
Qed.

Lemma ComputeTargetPosition_cases (transform : Transform D)
      (fixedMesh movingMesh : Mesh D) (s : ThinShellDemonsMetric D) :
  m_Transform s = Some transform ->
  m_FixedMesh s = Some fixedMesh ->
  m_MovingMesh s = Some movingMesh ->
  ComputeTargetPosition indeterminate_point s
  = Returns tt (targets_computed indeterminate_point transform fixedMesh movingMesh s)
  \/ ComputeTargetPosition indeterminate_point s = Undefined.
Proof.
  intros Htr Hfix Hmov.
  rewrite (ComputeTargetPosition_present fixedMesh movingMesh) by assumption.
  destruct (ComputeTargetPosition_loop_cases transform fixedMesh
              (GetPoints movingMesh) 0 (set_targetMap ∅ s) Htr) as [Hr|Hu].
  - left. rewrite (bind_of_Returns _ _ _ _ _ Hr). reflexivity.
  - right. apply bind_of_Undefined. exact Hu.
Qed.

Lemma ComputeTargetPosition_runs (transform : Transform D)
      (fixedMesh movingMesh : Mesh D) (s : ThinShellDemonsMetric D) :
  m_Transform s = Some transform ->
  m_FixedMesh s = Some fixedMesh ->
  m_MovingMesh s = Some movingMesh ->
  Z.of_nat (GetNumberOfPoints movingMesh) <= INT_MAX ->
  ComputeTargetPosition indeterminate_point s
  = Returns tt (targets_computed indeterminate_point transform fixedMesh movingMesh s).
Proof.
  intros Htr Hfix Hmov Hmax.
  rewrite (ComputeTargetPosition_present fixedMesh movingMesh) by assumption.
  rewrite (bind_of_Returns _ _ _ _ _
             (ComputeTargetPosition_loop_runs transform fixedMesh
                (GetPoints movingMesh) 0 (set_targetMap ∅ s) Htr
                ltac:(lia) ltac:(unfold GetNumberOfPoints in Hmax; lia))).
  reflexivity.
Qed.

Lemma Initialize_present (transform : Transform D) (fixedMesh movingMesh : Mesh D)
      (s : ThinShellDemonsMetric D) :
  m_Transform s = Some transform ->
  m_FixedMesh s = Some fixedMesh ->
  m_MovingMesh s = Some movingMesh ->
  Initialize indeterminate_point s
  = match snd (UpdateSource movingMesh) with
    | Some msg =>
        Throws msg (set_MovingMesh (Some (fst (UpdateSource movingMesh))) s)
    | None =>
        match snd (UpdateSource fixedMesh) with
        | Some msg => Throws msg (sources_updated fixedMesh movingMesh s)
        | None =>
            ComputeTargetPosition indeterminate_point
              (sources_updated fixedMesh movingMesh s)
        end
    end.
Proof.
  intros Htr Hfix Hmov. unfold Initialize.
  unfold bind at 1. unfold get at 1. rewrite Htr, Hmov, Hfix.
  unfold sources_updated.
  destruct (UpdateSource movingMesh) as [movingMesh' [msg|]];
    destruct (UpdateSource fixedMesh) as [fixedMesh' [msg'|]]; reflexivity.
Qed.

Lemma Initialize_updated (transform : Transform D) (fixedMesh movingMesh : Mesh D)
      (s : ThinShellDemonsMetric D) :
  m_Transform s = Some transform ->
  m_FixedMesh s = Some fixedMesh ->
  m_MovingMesh s = Some movingMesh ->
  snd (UpdateSource movingMesh) = None ->
  snd (UpdateSource fixedMesh) = None ->
  Initialize indeterminate_point s
  = ComputeTargetPosition indeterminate_point
      (sources_updated fixedMesh movingMesh s).
Proof.
  intros Htr Hfix Hmov Hm Hf.
  rewrite (Initialize_present transform fixedMesh movingMesh) by assumption.
  rewrite Hm, Hf. reflexivity.
Qed.

Lemma Initialize_Returns (s s' : ThinShellDemonsMetric D) (u : unit) :
  Initialize indeterminate_point s = Returns u s' ->
  exists transform fixedMesh movingMesh,
    m_Transform s = Some transform /\
    m_FixedMesh s = Some fixedMesh /\
    m_MovingMesh s = Some movingMesh /\
    snd (UpdateSource movingMesh) = None /\
    snd (UpdateSource fixedMesh) = None /\
    s' = targets_computed indeterminate_point transform
           (fst (UpdateSource fixedMesh)) (fst (UpdateSource movingMesh))
           (sources_updated fixedMesh movingMesh s).
Proof.
  intros Hinit.
  destruct (m_Transform s) as [transform|] eqn:Htr;
    [|unfold Initialize, bind, get, itkExceptionMacro in Hinit;
      rewrite Htr in Hinit; discriminate].
  destruct (m_MovingMesh s) as [movingMesh|] eqn:Hmov;
    [|unfold Initialize, bind, get, itkExceptionMacro in Hinit;
      rewrite Htr, Hmov in Hinit; discriminate].
  destruct (m_FixedMesh s) as [fixedMesh|] eqn:Hfix;
    [|unfold Initialize, bind, get, itkExceptionMacro in Hinit;
      rewrite Htr, Hmov, Hfix in Hinit; discriminate].
  exists transform, fixedMesh, movingMesh.
  rewrite (Initialize_present transform fixedMesh movingMesh) in Hinit by assumption.
  destruct (snd (UpdateSource movingMesh)) as [msg|]; [discriminate|].
  destruct (snd (UpdateSource fixedMesh)) as [msg|]; [discriminate|].
  destruct (ComputeTargetPosition_cases transform (fst (UpdateSource fixedMesh))
              (fst (UpdateSource movingMesh))
              (sources_updated fixedMesh movingMesh s))
    as [Hr|Hu]; try reflexivity.
  - exact Htr.
  - rewrite Hr in Hinit. inversion Hinit. auto 10.
  - rewrite Hu in Hinit. discriminate.
Qed.

End Correspondence.

(** ** [GetValue] and [GetDerivative] *)

Section Evaluators.
Context {D : Type} `{NumericTraits D}.
Variable indeterminate_double : nat -> D.

(** *** What the evaluators leave untouched *)

Lemma reads_only_vnl_get (v : list D) (i : Z) :
  reads_only (vnl_get (D:=D) v i).
Proof.
  unfold vnl_get. destruct (i <? 0); [auto with reads|].
  destruct (v !! Z.to_nat i); auto with reads.
Qed.

Lemma reads_only_vnl_put (v : list D) (i : Z) (a : D) :
  reads_only (vnl_put (D:=D) v i a).
Proof.
  unfold vnl_put. destruct (i <? 0); [auto with reads|].
  destruct (decide (Z.to_nat i < length v)%nat); auto with reads.
Qed.

Lemma reads_only_ElementAt (identifier : Z) :
  reads_only (ElementAt (D:=D) identifier).
Proof.
  unfold ElementAt. apply reads_only_bind; [apply reads_only_get|].
  intros s. destruct (targetMap s !! identifier); auto with reads.
Qed.

#[local] Hint Resolve reads_only_vnl_get reads_only_vnl_put
  reads_only_ElementAt : reads.

Lemma reads_only_read_vec (parameters : list D) (identifier : Z) :
  reads_only (read_vec (D:=D) parameters identifier).
Proof. unfold read_vec. auto 20 with reads. Qed.

#[local] Hint Resolve reads_only_read_vec : reads.

Lemma reads_only_GetValue_loop (parameters : list D) (points : list (Point D)) :
  forall (identifier : Z) (functionValue : D),
    reads_only (GetValue_loop parameters points identifier functionValue).
Proof.
  induction points as [|value rest IH]; intros identifier functionValue; simpl.
  - auto with reads.
  - auto 10 with reads.
Qed.

Lemma reads_only_GetDerivative_loop (parameters : list D)
      (points : list (Point D)) :
  forall (identifier : Z) (derivative : list D),
    reads_only (GetDerivative_loop parameters points identifier derivative).
Proof.
  induction points as [|value rest IH]; intros identifier derivative; simpl.
  - auto with reads.
  - auto 30 with reads.
Qed.

(** [GetValue] touches nothing but the transform's stored parameters. *)
Lemma GetValue_frame (parameters : list D) (s s' : ThinShellDemonsMetric D) :
  final_state (GetValue parameters s) = Some s' ->
  m_FixedMesh s' = m_FixedMesh s /\
  m_MovingMesh s' = m_MovingMesh s /\
  targetMap s' = targetMap s /\
  m_TargetPositionComputed s' = m_TargetPositionComputed s.
Proof.
  unfold GetValue. unfold bind at 1. unfold get at 1.
  destruct (m_FixedMesh s) as [fixedMesh|] eqn:Hfix;
    [|simpl; intros Heq; inversion Heq; subst; auto].
  destruct (m_MovingMesh s) as [movingMesh|] eqn:Hmov;
    [|simpl; intros Heq; inversion Heq; subst; auto].
  unfold bind at 1. unfold SetTransformParameters.
  unfold bind at 1. unfold get at 1.
  destruct (m_Transform s) as [t|] eqn:Htr;
    [|simpl; intros Heq; inversion Heq; subst; auto].
  unfold put. intros Hfin.
  apply reads_only_final_state in Hfin;
    [|apply reads_only_GetValue_loop].
  subst s'. simpl. auto.
Qed.

(** [GetDerivative] touches nothing of the metric. *)
Lemma GetDerivative_frame (parameters derivative : list D)
      (s s' : ThinShellDemonsMetric D) :
  final_state (GetDerivative indeterminate_double parameters derivative s) = Some s' ->
  s' = s.
Proof.
  unfold GetDerivative. unfold bind at 1. unfold get at 1.
  destruct (m_FixedMesh s) as [fixedMesh|] eqn:Hfix;
    [|simpl; congruence].
  destruct (m_MovingMesh s) as [movingMesh|] eqn:Hmov;
    [|simpl; congruence].
  intros Hfin.
  apply reads_only_final_state in Hfin;
    [exact Hfin | apply reads_only_GetDerivative_loop].
Qed.

(** *** The primitive steps *)

Lemma bind_Returns_reads {A B} (m : M A) (k : A -> M B)
      (s s' : ThinShellDemonsMetric D) (b : B) :
  reads_only m -> bind m k s = Returns b s' ->
  exists a, m s = Returns a s /\ k a s = Returns b s'.
Proof.
  intros Hm Hb. apply bind_Returns in Hb. destruct Hb as (a & s1 & Ha & Hk).
  pose proof (reads_only_Returns _ _ _ _ Hm Ha). subst s1. eauto.
Qed.

Lemma vnl_get_Some (v : list D) (i : Z) (a : D) (s : ThinShellDemonsMetric D) :
  0 <= i -> v !! Z.to_nat i = Some a -> vnl_get v i s = Returns a s.
Proof.
  intros Hi Hlk. unfold vnl_get.
  destruct (i <? 0) eqn:Hneg; [apply Z.ltb_lt in Hneg; lia|].
  rewrite Hlk. reflexivity.
Qed.

Lemma vnl_get_Returns (v : list D) (i : Z) (a : D) (s s' : ThinShellDemonsMetric D) :
  vnl_get v i s = Returns a s' -> 0 <= i /\ v !! Z.to_nat i = Some a.
Proof.
  unfold vnl_get. destruct (i <? 0) eqn:Hneg; [discriminate|].
  apply Z.ltb_ge in Hneg.
  destruct (v !! Z.to_nat i); munfold; intros Heq; inversion Heq; subst; auto.
Qed.

Lemma vnl_put_in_range (v : list D) (i : Z) (a : D) (s : ThinShellDemonsMetric D) :
  0 <= i -> (Z.to_nat i < length v)%nat ->
  vnl_put v i a s = Returns (<[Z.to_nat i := a]> v) s.
Proof.
  intros Hi Hlt. unfold vnl_put.
  destruct (i <? 0) eqn:Hneg; [apply Z.ltb_lt in Hneg; lia|].
  destruct (decide (Z.to_nat i < length v)%nat); [reflexivity|contradiction].
Qed.

Lemma vnl_put_Returns (v v' : list D) (i : Z) (a : D)
      (s s' : ThinShellDemonsMetric D) :
  vnl_put v i a s = Returns v' s' ->
  0 <= i /\ (Z.to_nat i < length v)%nat /\ v' = <[Z.to_nat i := a]> v.
Proof.
  unfold vnl_put. destruct (i <? 0) eqn:Hneg; [discriminate|].
  apply Z.ltb_ge in Hneg.
  destruct (decide (Z.to_nat i < length v)%nat);
    munfold; intros Heq; inversion Heq; subst; auto.
Qed.

Lemma ElementAt_Some (identifier : Z) (t : Point D) (s : ThinShellDemonsMetric D) :
  targetMap s !! identifier = Some t -> ElementAt identifier s = Returns t s.
Proof. intros Hlk. unfold ElementAt, bind, get. rewrite Hlk. reflexivity. Qed.

Lemma ElementAt_Returns (identifier : Z) (t : Point D)
      (s s' : ThinShellDemonsMetric D) :
  ElementAt identifier s = Returns t s' -> targetMap s !! identifier = Some t.
Proof.
  unfold ElementAt, bind, get.
  destruct (targetMap s !! identifier); munfold; intros Heq;
    inversion Heq; subst; auto.
Qed.

Lemma int_mul_Returns (a b r : Z) (s s' : ThinShellDemonsMetric D) :
  int_mul a b s = Returns r s' -> r = a * b /\ INT_MIN <= a * b <= INT_MAX.
Proof. intros Hr. apply int_result_Returns in Hr. tauto. Qed.

Lemma int_add_Returns (a b r : Z) (s s' : ThinShellDemonsMetric D) :
  int_add a b s = Returns r s' -> r = a + b /\ INT_MIN <= a + b <= INT_MAX.
Proof. intros Hr. apply int_result_Returns in Hr. tauto. Qed.

Lemma read_vec_runs (parameters : list D) (identifier : Z) (a0 a1 a2 : D)
      (s : ThinShellDemonsMetric D) :
  0 <= identifier -> identifier * 3 + 2 <= INT_MAX ->
  parameters !! Z.to_nat (identifier * 3) = Some a0 ->
  parameters !! Z.to_nat (identifier * 3 + 1) = Some a1 ->
  parameters !! Z.to_nat (identifier * 3 + 2) = Some a2 ->
  read_vec parameters identifier s = Returns (mkVector a0 a1 a2) s.
Proof.
  intros Hid Hmax H0 H1 H2. unfold read_vec, int_mul, int_add.
  repeat first
    [ erewrite bind_of_Returns
        by (apply int_result_in_range; unfold INT_MIN; lia)
    | erewrite bind_of_Returns
        by (apply vnl_get_Some; [lia | eassumption]) ].
  reflexivity.
Qed.

Lemma read_vec_Returns (parameters : list D) (identifier : Z) (vec : Vector D)
      (s s' : ThinShellDemonsMetric D) :
  read_vec parameters identifier s = Returns vec s' ->
  0 <= identifier * 3 /\ identifier * 3 + 2 <= INT_MAX /\
  parameters !! Z.to_nat (identifier * 3) = Some (v0 vec) /\
  parameters !! Z.to_nat (identifier * 3 + 1) = Some (v1 vec) /\
  parameters !! Z.to_nat (identifier * 3 + 2) = Some (v2 vec).
Proof.
  unfold read_vec. intros Hr.
  apply bind_Returns_reads in Hr; [|auto with reads].
  destruct Hr as (i0 & Hi0 & Hr). apply int_mul_Returns in Hi0. destruct Hi0 as [-> _].
  apply bind_Returns_reads in Hr; [|auto with reads].
  destruct Hr as (a0 & Ha0 & Hr). apply vnl_get_Returns in Ha0.
  apply bind_Returns_reads in Hr; [|auto with reads].
  destruct Hr as (i1 & Hi1 & Hr). apply int_mul_Returns in Hi1. destruct Hi1 as [-> _].
  apply bind_Returns_reads in Hr; [|auto with reads].
  destruct Hr as (i1' & Hi1 & Hr). apply int_add_Returns in Hi1. destruct Hi1 as [-> _].
  apply bind_Returns_reads in Hr; [|auto with reads].
  destruct Hr as (a1 & Ha1 & Hr). apply vnl_get_Returns in Ha1.
  apply bind_Returns_reads in Hr; [|auto with reads].
  destruct Hr as (i2 & Hi2 & Hr). apply int_mul_Returns in Hi2. destruct Hi2 as [-> _].
  apply bind_Returns_reads in Hr; [|auto with reads].
  destruct Hr as (i2' & Hi2 & Hr). apply int_add_Returns in Hi2.
  destruct Hi2 as [-> Hrange].
  apply bind_Returns_reads in Hr; [|auto with reads].
  destruct Hr as (a2 & Ha2 & Hr). apply vnl_get_Returns in Ha2.
  unfold ret in Hr. inversion Hr; subst. simpl. intuition lia.
Qed.

(** *** The loop of [GetValue] *)

Lemma GetValue_loop_cons (parameters : list D) (value : Point D)
      (rest : list (Point D)) (identifier : Z) (functionValue : D)
      (vec : Vector D) (t : Point D) (s : ThinShellDemonsMetric D) :
  read_vec parameters identifier s = Returns vec s ->
  targetMap s !! identifier = Some t ->
  INT_MIN <= identifier + 1 <= INT_MAX ->
  GetValue_loop parameters (value :: rest) identifier functionValue s
  = GetValue_loop parameters rest (identifier + 1)
      (functionValue + SquaredEuclideanDistanceTo t (Point_plus value vec))%D s.
Proof.
  intros Hvec Ht Hrange. cbn [GetValue_loop].
  rewrite (bind_of_Returns _ _ _ _ _ Hvec).
  rewrite (bind_of_Returns _ _ _ _ _ (ElementAt_Some _ _ _ Ht)).
  unfold int_add.
  rewrite (bind_of_Returns _ _ _ _ _ (int_result_in_range _ _ Hrange)).
  reflexivity.
Qed.

Lemma GetValue_loop_cons_Returns (parameters : list D) (value : Point D)
      (rest : list (Point D)) (identifier : Z) (functionValue r : D)
      (s s' : ThinShellDemonsMetric D) :
  GetValue_loop parameters (value :: rest) identifier functionValue s
  = Returns r s' ->
  exists vec t,
    read_vec parameters identifier s = Returns vec s /\
    targetMap s !! identifier = Some t /\
    GetValue_loop parameters rest (identifier + 1)
      (functionValue + SquaredEuclideanDistanceTo t (Point_plus value vec))%D s
    = Returns r s'.
Proof.
  cbn [GetValue_loop]. intros Hr.
  apply bind_Returns_reads in Hr; [|apply reads_only_read_vec].
  destruct Hr as (vec & Hvec & Hr).
  apply bind_Returns_reads in Hr; [|apply reads_only_ElementAt].
  destruct Hr as (t & Ht & Hr). apply ElementAt_Returns in Ht.
  apply bind_Returns_reads in Hr; [|apply reads_only_int_add].
  destruct Hr as (i & Hi & Hr). apply int_add_Returns in Hi. destruct Hi as [-> _].
  exists vec, t. auto.
Qed.

(** The squared distances the loop adds up, vertex by vertex. *)
Lemma GetValue_loop_runs (parameters : list D) (points : list (Point D)) :
  forall (identifier : Z) (functionValue : D) (s : ThinShellDemonsMetric D),
    0 <= identifier ->
    (identifier + Z.of_nat (length points)) * 3 <= INT_MAX + 1 ->
    (Z.to_nat ((identifier + Z.of_nat (length points)) * 3) <= length parameters)%nat ->
    (forall i, (i < length points)%nat ->
               is_Some (targetMap s !! (identifier + Z.of_nat i))) ->
    exists dists : list D,
      GetValue_loop parameters points identifier functionValue s
      = Returns (fold_left nt_add dists functionValue) s /\
      length dists = length points /\
      forall (i : nat) (value t : Point D) (a0 a1 a2 : D),
        points !! i = Some value ->
        targetMap s !! (identifier + Z.of_nat i) = Some t ->
        parameters !! Z.to_nat ((identifier + Z.of_nat i) * 3) = Some a0 ->
        parameters !! Z.to_nat ((identifier + Z.of_nat i) * 3 + 1) = Some a1 ->
        parameters !! Z.to_nat ((identifier + Z.of_nat i) * 3 + 2) = Some a2 ->
        dists !! i
        = Some (SquaredEuclideanDistanceTo t
                  (Point_plus value (mkVector a0 a1 a2))).
Proof.
  induction points as [|value rest IH];
    intros identifier functionValue s Hid Hmax Hlen Htargets.
  - exists []. repeat split. intros i value t a0 a1 a2 Hi. discriminate.
  - simpl length in *.
    destruct (Htargets 0%nat ltac:(lia)) as [t Ht].
    replace (identifier + Z.of_nat 0) with identifier in Ht by lia.
    destruct (lookup_lt_is_Some_2 parameters (Z.to_nat (identifier * 3)))
      as [a0 Ha0]; [lia|].
    destruct (lookup_lt_is_Some_2 parameters (Z.to_nat (identifier * 3 + 1)))
      as [a1 Ha1]; [lia|].
    destruct (lookup_lt_is_Some_2 parameters (Z.to_nat (identifier * 3 + 2)))
      as [a2 Ha2]; [lia|].
    pose proof (read_vec_runs parameters identifier a0 a1 a2 s Hid
                  ltac:(lia) Ha0 Ha1 Ha2) as Hvec.
    rewrite (GetValue_loop_cons _ _ _ _ _ _ _ _ Hvec Ht)
      by (unfold INT_MIN; lia).
    destruct (IH (identifier + 1)
                 (functionValue
                  + SquaredEuclideanDistanceTo t
                      (Point_plus value (mkVector a0 a1 a2)))%D s)
      as (dists & Hrun & Hdl & Hdists).
    + lia.
    + lia.
    + lia.
    + intros i Hi.
      replace (identifier + 1 + Z.of_nat i) with (identifier + Z.of_nat (S i)) by lia.
      apply Htargets. lia.
    + exists (SquaredEuclideanDistanceTo t (Point_plus value (mkVector a0 a1 a2))
              :: dists).
      split; [exact Hrun|]. split; [simpl; lia|].
      intros i value' t' b0 b1 b2 Hi Ht' Hb0 Hb1 Hb2.
      destruct i as [|i].
      * simpl in Hi. inversion Hi; subst value'.
        replace (identifier + Z.of_nat 0) with identifier in * by lia.
        simpl. congruence.
      * simpl in Hi. simpl.
        replace (identifier + Z.of_nat (S i)) with (identifier + 1 + Z.of_nat i)
          in * by lia.
        eapply Hdists; eauto.
Qed.

(** *** The loop of [GetDerivative] *)

Lemma length_write_gradient (derivative : list D) (identifier : Z)
      (t value : Point D) :
  length (write_gradient derivative identifier t value) = length derivative.
Proof. unfold write_gradient. rewrite !length_insert. reflexivity. Qed.

Lemma write_gradient_lookup_other (derivative : list D) (identifier : Z)
      (t value : Point D) (j : nat) :
  0 <= identifier ->
  (j < Z.to_nat (identifier * 3))%nat \/ (Z.to_nat ((identifier + 1) * 3) <= j)%nat ->
  write_gradient derivative identifier t value !! j = derivative !! j.
Proof.
  intros Hid Hj. unfold write_gradient.
  rewrite !list_lookup_insert_ne by lia. reflexivity.
Qed.

Lemma write_gradient_lookup (derivative : list D) (identifier : Z)
      (t value : Point D) :
  0 <= identifier ->
  (Z.to_nat (identifier * 3 + 2) < length derivative)%nat ->
  write_gradient derivative identifier t value !! Z.to_nat (identifier * 3)
  = Some (nt_of_int (-2) * (p0 t - p0 value))%D /\
  write_gradient derivative identifier t value !! Z.to_nat (identifier * 3 + 1)
  = Some (nt_of_int (-2) * (p1 t - p1 value))%D /\
  write_gradient derivative identifier t value !! Z.to_nat (identifier * 3 + 2)
  = Some (nt_of_int (-2) * (p2 t - p2 value))%D.
Proof.
  intros Hid Hlen. unfold write_gradient. repeat split.
  - rewrite !list_lookup_insert_ne by lia.
    apply list_lookup_insert_eq. lia.
  - rewrite list_lookup_insert_ne by lia.
    apply list_lookup_insert_eq. rewrite length_insert. lia.
  - apply list_lookup_insert_eq. rewrite !length_insert. lia.
Qed.

Lemma GetDerivative_loop_cons (parameters : list D) (value : Point D)
      (rest : list (Point D)) (identifier : Z) (derivative : list D)
      (vec : Vector D) (t : Point D) (s : ThinShellDemonsMetric D) :
  read_vec parameters identifier s = Returns vec s ->
  targetMap s !! identifier = Some t ->
  0 <= identifier -> identifier * 3 + 2 <= INT_MAX ->
  (Z.to_nat (identifier * 3 + 2) < length derivative)%nat ->
  GetDerivative_loop parameters (value :: rest) identifier derivative s
  = GetDerivative_loop parameters rest (identifier + 1)
      (write_gradient derivative identifier t value) s.
Proof.
  intros Hvec Ht Hid Hmax Hlen. cbn [GetDerivative_loop].
  rewrite (bind_of_Returns _ _ _ _ _ Hvec).
  rewrite (bind_of_Returns _ _ _ _ _ (ElementAt_Some _ _ _ Ht)).
  unfold int_mul, int_add.
  repeat first
    [ erewrite bind_of_Returns
        by (apply int_result_in_range; unfold INT_MIN; lia)
    | erewrite bind_of_Returns
        by (apply vnl_put_in_range; rewrite ?length_insert; lia) ].
  reflexivity.
Qed.

Lemma GetDerivative_loop_cons_Returns (parameters : list D) (value : Point D)
      (rest : list (Point D)) (identifier : Z) (derivative r : list D)
      (s s' : ThinShellDemonsMetric D) :
  GetDerivative_loop parameters (value :: rest) identifier derivative s
  = Returns r s' ->
  exists vec t,
    read_vec parameters identifier s = Returns vec s /\
    targetMap s !! identifier = Some t /\
    0 <= identifier * 3 /\
    (Z.to_nat (identifier * 3 + 2) < length derivative)%nat /\
    GetDerivative_loop parameters rest (identifier + 1)
      (write_gradient derivative identifier t value) s
    = Returns r s'.
Proof.
  cbn [GetDerivative_loop]. intros Hr.
  apply bind_Returns_reads in Hr; [|apply reads_only_read_vec].
  destruct Hr as (vec & Hvec & Hr).
  apply bind_Returns_reads in Hr; [|apply reads_only_ElementAt].
  destruct Hr as (t & Ht & Hr). apply ElementAt_Returns in Ht.
  apply bind_Returns_reads in Hr; [|apply reads_only_int_mul].
  destruct Hr as (i0 & Hi0 & Hr). apply int_mul_Returns in Hi0. destruct Hi0 as [-> _].
  apply bind_Returns_reads in Hr; [|apply reads_only_vnl_put].
  destruct Hr as (d1 & Hd1 & Hr). apply vnl_put_Returns in Hd1.
  destruct Hd1 as (Hpos & _ & ->).
  apply bind_Returns_reads in Hr; [|apply reads_only_int_mul].
  destruct Hr as (i1 & Hi1 & Hr). apply int_mul_Returns in Hi1. destruct Hi1 as [-> _].
  apply bind_Returns_reads in Hr; [|apply reads_only_int_add].
  destruct Hr as (i1' & Hi1 & Hr). apply int_add_Returns in Hi1. destruct Hi1 as [-> _].
  apply bind_Returns_reads in Hr; [|apply reads_only_vnl_put].
  destruct Hr as (d2 & Hd2 & Hr). apply vnl_put_Returns in Hd2.
  destruct Hd2 as (_ & _ & ->).
  apply bind_Returns_reads in Hr; [|apply reads_only_int_mul].
  destruct Hr as (i2 & Hi2 & Hr). apply int_mul_Returns in Hi2. destruct Hi2 as [-> _].
  apply bind_Returns_reads in Hr; [|apply reads_only_int_add].
  destruct Hr as (i2' & Hi2 & Hr). apply int_add_Returns in Hi2. destruct Hi2 as [-> _].
  apply bind_Returns_reads in Hr; [|apply reads_only_vnl_put].
  destruct Hr as (d3 & Hd3 & Hr). apply vnl_put_Returns in Hd3.
  destruct Hd3 as (_ & Hlen & ->). rewrite !length_insert in Hlen.
  apply bind_Returns_reads in Hr; [|apply reads_only_int_add].
  destruct Hr as (i3 & Hi3 & Hr). apply int_add_Returns in Hi3. destruct Hi3 as [-> _].
  exists vec, t. repeat split; auto.
Qed.

(** What the loop has written when it returns: the length is kept, the
    elements outside the vertices' slots are kept, and each vertex's slot
    holds [-2 * (t - p0)]. *)
Lemma GetDerivative_loop_Returns (parameters : list D) (points : list (Point D)) :
  forall (identifier : Z) (derivative r : list D) (s s' : ThinShellDemonsMetric D),
    0 <= identifier ->
    GetDerivative_loop parameters points identifier derivative s = Returns r s' ->
    length r = length derivative /\
    (forall j : nat,
        (j < Z.to_nat (identifier * 3))%nat \/
        (Z.to_nat ((identifier + Z.of_nat (length points)) * 3) <= j)%nat ->
        r !! j = derivative !! j) /\
    (forall (i : nat) (value t : Point D),
        points !! i = Some value ->
        targetMap s !! (identifier + Z.of_nat i) = Some t ->
        r !! Z.to_nat ((identifier + Z.of_nat i) * 3)
        = Some (nt_of_int (-2) * (p0 t - p0 value))%D /\
        r !! Z.to_nat ((identifier + Z.of_nat i) * 3 + 1)
        = Some (nt_of_int (-2) * (p1 t - p1 value))%D /\
        r !! Z.to_nat ((identifier + Z.of_nat i) * 3 + 2)
        = Some (nt_of_int (-2) * (p2 t - p2 value))%D).
Proof.
  induction points as [|value rest IH];
    intros identifier derivative r s s' Hid Hr.
  - simpl in Hr. unfold ret in Hr. inversion Hr; subst.
    split; [reflexivity|]. split; [reflexivity|].
    intros i value t Hi. discriminate.
  - apply GetDerivative_loop_cons_Returns in Hr.
    destruct Hr as (vec & t0 & _ & Ht0 & _ & Hlen & Hr).
    apply IH in Hr; [|lia].
    destruct Hr as (Hrl & Hother & Hslots).
    rewrite length_write_gradient in Hrl.
    split; [exact Hrl|]. split.
    + intros j Hj. simpl length in Hj.
      rewrite Hother by lia.
      apply write_gradient_lookup_other; lia.
    + intros i value' t Hi Ht. destruct i as [|i].
      * simpl in Hi. inversion Hi; subst value'.
        replace (identifier + Z.of_nat 0) with identifier in * by lia.
        assert (t = t0) by congruence. subst t0.
        rewrite !Hother by lia.
        apply write_gradient_lookup; assumption.
      * simpl in Hi.
        replace (identifier + Z.of_nat (S i)) with (identifier + 1 + Z.of_nat i)
          in * by lia.
        apply Hslots; assumption.
Qed.

Lemma GetDerivative_loop_runs (parameters : list D) (points : list (Point D)) :
  forall (identifier : Z) (derivative : list D) (s : ThinShellDemonsMetric D),
    0 <= identifier ->
    (identifier + Z.of_nat (length points)) * 3 <= INT_MAX + 1 ->
    (Z.to_nat ((identifier + Z.of_nat (length points)) * 3) <= length parameters)%nat ->
    (Z.to_nat ((identifier + Z.of_nat (length points)) * 3) <= length derivative)%nat ->
    (forall i, (i < length points)%nat ->
               is_Some (targetMap s !! (identifier + Z.of_nat i))) ->
    exists r, GetDerivative_loop parameters points identifier derivative s
              = Returns r s.
Proof.
  induction points as [|value rest IH];
    intros identifier derivative s Hid Hmax Hlen Hdlen Htargets.
  - exists derivative. reflexivity.
  - simpl length in *.
    destruct (Htargets 0%nat ltac:(lia)) as [t Ht].
    replace (identifier + Z.of_nat 0) with identifier in Ht by lia.
    destruct (lookup_lt_is_Some_2 parameters (Z.to_nat (identifier * 3)))
      as [a0 Ha0]; [lia|].
    destruct (lookup_lt_is_Some_2 parameters (Z.to_nat (identifier * 3 + 1)))
      as [a1 Ha1]; [lia|].
    destruct (lookup_lt_is_Some_2 parameters (Z.to_nat (identifier * 3 + 2)))
      as [a2 Ha2]; [lia|].
    pose proof (read_vec_runs parameters identifier a0 a1 a2 s Hid
                  ltac:(lia) Ha0 Ha1 Ha2) as Hvec.
    rewrite (GetDerivative_loop_cons _ _ _ _ _ _ _ _ Hvec Ht) by lia.
    apply IH.
    + lia.
    + lia.
    + lia.
    + rewrite length_write_gradient. lia.
    + intros i Hi.
      replace (identifier + 1 + Z.of_nat i) with (identifier + Z.of_nat (S i)) by lia.
      apply Htargets. lia.
Qed.

(** *** The buffer [GetDerivative] starts its loop with *)

Lemma length_DerivativeType (n : nat) :
  length (DerivativeType indeterminate_double n) = n.
Proof. unfold DerivativeType. rewrite length_map, length_seq. reflexivity. Qed.

Lemma memset_zero_whole (v : list D) (n : nat) :
  length v = n -> memset_zero v n = replicate n ZeroValue.
Proof.
  intros Hlen. unfold memset_zero.
  rewrite drop_ge by lia. rewrite Hlen, Nat.min_id. apply app_nil_r.
Qed.

Lemma GetDerivative_present (fixedMesh movingMesh : Mesh D)
      (parameters derivative : list D) (s : ThinShellDemonsMetric D) :
  m_FixedMesh s = Some fixedMesh ->
  m_MovingMesh s = Some movingMesh ->
  GetDerivative indeterminate_double parameters derivative s
  = GetDerivative_loop parameters (GetPoints movingMesh) 0
      (replicate (GetNumberOfPoints fixedMesh * 3) ZeroValue) s.
Proof.
  intros Hfix Hmov. unfold GetDerivative. unfold bind at 1. unfold get at 1.
  rewrite Hfix, Hmov.
  rewrite memset_zero_whole; [reflexivity|].
  destruct (decide (length derivative ≠ (GetNumberOfPoints fixedMesh * 3)%nat))
    as [Hne|Heq].
  - apply length_DerivativeType.
  - destruct (decide (length derivative = (GetNumberOfPoints fixedMesh * 3)%nat));
      [assumption|contradiction].
Qed.

(** *** Computations that differ only in the values they read *)

Lemma same_shape_bind {A1 A2 B1 B2} (m1 : M A1) (m2 : M A2)
      (k1 : A1 -> M B1) (k2 : A2 -> M B2) (s : ThinShellDemonsMetric D) :
  same_shape (m1 s) (m2 s) ->
  (forall a1 a2 s', same_shape (k1 a1 s') (k2 a2 s')) ->
  same_shape (bind m1 k1 s) (bind m2 k2 s).
Proof.
  unfold bind, same_shape at 1.
  destruct (m1 s) as [a1 s1|msg1 s1|], (m2 s) as [a2 s2|msg2 s2|];
    try contradiction; intros Hs Hk.
  - subst. apply Hk.
  - exact I.
Qed.

Lemma same_shape_bind_same {A B1 B2} (m : M A)
      (k1 : A -> M B1) (k2 : A -> M B2) (s : ThinShellDemonsMetric D) :
  reads_only m ->
  (forall a s', same_shape (k1 a s') (k2 a s')) ->
  same_shape (bind m k1 s) (bind m k2 s).
Proof.
  intros Hm Hk. destruct (Hm s) as [[a Ha]|Hu].
  - rewrite !(bind_of_Returns _ _ _ _ _ Ha). apply Hk.
  - rewrite !(bind_of_Undefined _ _ _ Hu). exact I.
Qed.

Lemma same_shape_vnl_get (v1 v2 : list D) (i : Z) (s : ThinShellDemonsMetric D) :
  length v1 = length v2 -> same_shape (vnl_get v1 i s) (vnl_get v2 i s).
Proof.
  intros Hlen. unfold vnl_get. destruct (i <? 0); [exact I|].
  destruct (v1 !! Z.to_nat i) as [a1|] eqn:H1;
    destruct (v2 !! Z.to_nat i) as [a2|] eqn:H2; simpl; try reflexivity.
  - apply lookup_lt_Some in H1. apply lookup_ge_None in H2. lia.
  - apply lookup_lt_Some in H2. apply lookup_ge_None in H1. lia.
Qed.

Lemma same_shape_read_vec (p1 p2 : list D) (identifier : Z)
      (s : ThinShellDemonsMetric D) :
  length p1 = length p2 ->
  same_shape (read_vec p1 identifier s) (read_vec p2 identifier s).
Proof.
  intros Hlen. unfold read_vec.
  repeat first
    [ apply same_shape_bind_same; [auto with reads|]; intros ? ?
    | apply same_shape_bind; [apply same_shape_vnl_get; exact Hlen|]; intros ? ? ? ].
  reflexivity.
Qed.

Lemma bind_same_shape_ignore {A1 A2 B} (m1 : M A1) (m2 : M A2) (k1 k2 : M B)
      (s : ThinShellDemonsMetric D) :
  same_shape (m1 s) (m2 s) ->
  (forall s', k1 s' = k2 s') ->
  bind m1 (fun _ => k1) s = bind m2 (fun _ => k2) s.
Proof.
  unfold bind, same_shape.
  destruct (m1 s) as [a1 s1|msg1 s1|], (m2 s) as [a2 s2|msg2 s2|];
    try contradiction; intros Hs Hk.
  - subst. apply Hk.
  - reflexivity.
Qed.

Lemma bind_ext {A B} (m : M A) (k1 k2 : A -> M B) (s : ThinShellDemonsMetric D) :
  (forall a s', k1 a s' = k2 a s') -> bind m k1 s = bind m k2 s.
Proof.
  intros Hk. unfold bind. destruct (m s) as [a s1|msg s1|]; auto.
Qed.

(** The loop of [GetDerivative] reads the parameters and drops them: with
    parameter vectors of one length it behaves the same. *)
Lemma GetDerivative_loop_parameters (p1 p2 : list D) (points : list (Point D)) :
  length p1 = length p2 ->
  forall (identifier : Z) (derivative : list D) (s : ThinShellDemonsMetric D),
    GetDerivative_loop p1 points identifier derivative s
    = GetDerivative_loop p2 points identifier derivative s.
Proof.
  intros Hlen. induction points as [|value rest IH];
    intros identifier derivative s; [reflexivity|].
  cbn [GetDerivative_loop].
  apply bind_same_shape_ignore; [apply same_shape_read_vec; exact Hlen|].
  intros s1.
  repeat (apply bind_ext; intros ? ?).
  apply IH.
Qed.

End Evaluators.

Lemma CastFrom_id {D : Type} (p : Point D) : CastFrom p = p.
Proof. destruct p; reflexivity. Qed.

(** ** The nearest-point scan, for any comparison that orders the values
    it can compare *)

Section Scan.
Context {D : Type} `{NumericTraits D}.
Variable comparable : D -> Prop.
Hypothesis nt_lt_irrefl : forall a : D, (a <? a)%D = false.
Hypothesis nt_lt_trans : forall a b c : D,
    (a <? b)%D = true -> (b <? c)%D = true -> (a <? c)%D = true.
Hypothesis nt_lt_cotrans : forall a b c : D,
    comparable c -> (a <? b)%D = true ->
    (a <? c)%D = true \/ (c <? b)%D = true.

Lemma nt_lt_asym (a b : D) : (a <? b)%D = true -> (b <? a)%D = false.
Proof.
  intros Hab. destruct (b <? a)%D eqn:Hba; [|reflexivity].
  pose proof (nt_lt_trans _ _ _ Hab Hba) as Haa.
  rewrite nt_lt_irrefl in Haa. discriminate.
Qed.

(** The scan from a candidate [t0] at distance bound [m0]: either no fixed
    point is below the bound and the candidate stays, or the scan ends on
    the first nearest fixed point, which is below the bound. *)
Lemma closest_scan_spec (p : Point D) (fixedPoints : list (Point D)) :
  forall (t0 : Point D) (m0 : D),
    ((forall (j : nat) (g : Point D),
         fixedPoints !! j = Some g ->
         (SquaredEuclideanDistanceTo g p <? m0)%D = false) /\
     closest_scan p fixedPoints t0 m0 = (t0, m0))
    \/
    (exists (k : nat) (f : Point D),
        first_minimizer comparable p fixedPoints k f /\
        (SquaredEuclideanDistanceTo f p <? m0)%D = true /\
        closest_scan p fixedPoints t0 m0 = (f, SquaredEuclideanDistanceTo f p)).
Proof.
  induction fixedPoints as [|f0 rest IH]; intros t0 m0.
  - left. split; [|reflexivity]. intros j g Hj. discriminate.
  - cbn [closest_scan].
    destruct (SquaredEuclideanDistanceTo f0 p <? m0)%D eqn:Hlt.
    + right. rewrite CastFrom_id.
      destruct (IH f0 (SquaredEuclideanDistanceTo f0 p))
        as [[Hnone Hscan]|(k & f & (Hk & Hmin & Hfirst) & Hbelow & Hscan)].
      * exists 0%nat, f0. split; [|split; [exact Hlt|exact Hscan]].
        split; [reflexivity|]. split.
        -- intros [|j] g Hj; simpl in Hj.
           ++ inversion Hj; subst. apply nt_lt_irrefl.
           ++ eapply Hnone; eauto.
        -- intros j g Hj. lia.
      * exists (S k), f. split; [|split; [|exact Hscan]].
        -- split; [exact Hk|]. split.
           ++ intros [|j] g Hj; simpl in Hj.
              ** inversion Hj; subst. apply nt_lt_asym. exact Hbelow.
              ** eapply Hmin; eauto.
           ++ intros [|j] g Hjk Hj Hcmp; simpl in Hj.
              ** inversion Hj; subst. exact Hbelow.
              ** eapply Hfirst; [|exact Hj|exact Hcmp]. lia.
        -- eapply nt_lt_trans; eauto.
    + destruct (IH t0 m0)
        as [[Hnone Hscan]|(k & f & (Hk & Hmin & Hfirst) & Hbelow & Hscan)].
      * left. split; [|exact Hscan].
        intros [|j] g Hj; simpl in Hj.
        -- inversion Hj; subst. exact Hlt.
        -- eapply Hnone; eauto.
      * right. exists (S k), f. split; [|split; [exact Hbelow|exact Hscan]].
        split; [exact Hk|]. split.
        -- intros [|j] g Hj; simpl in Hj.
           ++ inversion Hj; subst.
              destruct (SquaredEuclideanDistanceTo g p
                        <? SquaredEuclideanDistanceTo f p)%D eqn:Hgf;
                [|reflexivity].
              rewrite (nt_lt_trans _ _ _ Hgf Hbelow) in Hlt. discriminate.
           ++ eapply Hmin; eauto.
        -- intros [|j] g Hjk Hj Hcmp; simpl in Hj.
           ++ inversion Hj; subst.
              destruct (nt_lt_cotrans _ _ (SquaredEuclideanDistanceTo g p)
                          Hcmp Hbelow) as [Hfg|Hgm]; [exact Hfg|].
              rewrite Hgm in Hlt. discriminate.
           ++ eapply Hfirst; [|exact Hj|exact Hcmp]. lia.
Qed.

Variable indeterminate_point : Z -> Point D.

(** [ComputeTargetPosition] stores the first nearest fixed point for every
    moving vertex that has a fixed point below the initial bound. *)
Lemma ComputeTargetPosition_first_minimizer_ordered
      (s : ThinShellDemonsMetric D) (transform : Transform D)
      (fixedMesh movingMesh : Mesh D) :
  m_Transform s = Some transform ->
  m_FixedMesh s = Some fixedMesh ->
  m_MovingMesh s = Some movingMesh ->
  Z.of_nat (GetNumberOfPoints movingMesh) <= INT_MAX ->
  exists s' : ThinShellDemonsMetric D,
    ComputeTargetPosition indeterminate_point s = Returns tt s' /\
    forall (i : nat) (v : Point D),
      GetPoints movingMesh !! i = Some v ->
      (exists (j : nat) (g : Point D),
          GetPoints fixedMesh !! j = Some g /\
          (SquaredEuclideanDistanceTo g (TransformPoint transform v) <? nt_max)%D
          = true) ->
      exists (k : nat) (f : Point D),
        first_minimizer comparable (TransformPoint transform v)
                        (GetPoints fixedMesh) k f /\
        targetMap s' !! Z.of_nat i = Some f.
Proof.
  intros Htr Hfix Hmov Hmax.
  exists (targets_computed indeterminate_point transform fixedMesh movingMesh s).
  split; [apply ComputeTargetPosition_runs; assumption|].
  intros i v Hv (j & g & Hg & Hbelow). simpl.
  pose proof (insert_targets_lookup indeterminate_point transform fixedMesh
                _ 0 ∅ _ _ Hv) as Hlk.
  replace (0 + Z.of_nat i) with (Z.of_nat i) in Hlk by lia.
  rewrite Hlk. unfold closest. rewrite CastFrom_id.
  destruct (closest_scan_spec (TransformPoint transform v) (GetPoints fixedMesh)
              (indeterminate_point (Z.of_nat i)) nt_max)
    as [[Hnone _]|(k & f & Hfirst & _ & Hscan)].
  - rewrite (Hnone j g Hg) in Hbelow. discriminate.
  - exists k, f. split; [exact Hfirst|]. rewrite Hscan. reflexivity.
Qed.

End Scan.

(** ** The sum of [GetValue], for any property that zero and squares have
    and that sums keep *)

Section Sign.
Context {D : Type} `{NumericTraits D}.
Variable P : D -> Prop.
Hypothesis P_zero : P ZeroValue.
Hypothesis P_square : forall a : D, P (a * a)%D.
Hypothesis P_add : forall a b : D, P a -> P b -> P (a + b)%D.

Lemma SquaredEuclideanDistanceTo_kept (p q : Point D) :
  P (SquaredEuclideanDistanceTo p q).
Proof.
  unfold SquaredEuclideanDistanceTo.
  repeat apply P_add; first [apply P_zero | apply P_square].
Qed.

Lemma GetValue_loop_kept (parameters : list D) (points : list (Point D)) :
  forall (identifier : Z) (functionValue r : D) (s s' : ThinShellDemonsMetric D),
    P functionValue ->
    GetValue_loop parameters points identifier functionValue s = Returns r s' ->
    P r.
Proof.
  induction points as [|value rest IH];
    intros identifier functionValue r s s' Hacc Hr.
  - simpl in Hr. unfold ret in Hr. inversion Hr; subst. exact Hacc.
  - apply GetValue_loop_cons_Returns in Hr.
    destruct Hr as (vec & t & _ & _ & Hr).
    eapply IH; [|exact Hr].
    apply P_add; [exact Hacc|apply SquaredEuclideanDistanceTo_kept].
Qed.

Lemma GetValue_kept (s s' : ThinShellDemonsMetric D)
      (parameters : list D) (value : D) :
  GetValue parameters s = Returns value s' -> P value.
Proof.
  unfold GetValue. unfold bind at 1. unfold get at 1.
  destruct (m_FixedMesh s) as [fixedMesh|]; [|discriminate].
  destruct (m_MovingMesh s) as [movingMesh|]; [|discriminate].
  intros Hr. apply bind_Returns in Hr. destruct Hr as (u & s1 & _ & Hr).
  eapply GetValue_loop_kept; [|exact Hr]. apply P_zero.
Qed.

End Sign.

(** ** The sum of [GetValue] on inputs that keep the arithmetic away from
    NaN *)

Section SignOfNumbers.
Context {D : Type} `{NumericTraits D}.
Variables Fin Num Pos : D -> Prop.
Hypothesis Num_add : forall a b : D, Fin a -> Num b -> Num (a + b)%D.
Hypothesis Num_sub : forall a b : D, Fin a -> Num b -> Num (a - b)%D.
Hypothesis Pos_square : forall a : D, Num a -> Pos (a * a)%D.
Hypothesis Pos_zero : Pos ZeroValue.
Hypothesis Pos_add : forall a b : D, Pos a -> Pos b -> Pos (a + b)%D.

Lemma SquaredEuclideanDistanceTo_Pos (t q : Point D) :
  Point_all Fin t -> Point_all Num q -> Pos (SquaredEuclideanDistanceTo t q).
Proof.
  intros (Ht0 & Ht1 & Ht2) (Hq0 & Hq1 & Hq2).
  unfold SquaredEuclideanDistanceTo.
  repeat apply Pos_add; try apply Pos_zero; apply Pos_square, Num_sub;
    assumption.
Qed.

Lemma GetValue_loop_Pos (parameters : list D) (points : list (Point D)) :
  forall (identifier : Z) (functionValue r : D) (s s' : ThinShellDemonsMetric D),
    Pos functionValue ->
    (forall (j : nat) (a : D), parameters !! j = Some a -> Num a) ->
    (forall (i : nat) (v : Point D), points !! i = Some v -> Point_all Fin v) ->
    (forall (k : Z) (t : Point D), targetMap s !! k = Some t -> Point_all Fin t) ->
    GetValue_loop parameters points identifier functionValue s = Returns r s' ->
    Pos r.
Proof.
  induction points as [|value rest IH];
    intros identifier functionValue r s s' Hacc Hpar Hpts Htgt Hr.
  - simpl in Hr. unfold ret in Hr. inversion Hr; subst. exact Hacc.
  - apply GetValue_loop_cons_Returns in Hr.
    destruct Hr as (vec & t & Hvec & Ht & Hr).
    apply read_vec_Returns in Hvec.
    destruct Hvec as (_ & _ & Hv0 & Hv1 & Hv2).
    destruct (Hpts 0%nat value eq_refl) as (Hp0 & Hp1 & Hp2).
    eapply IH; [| exact Hpar | | exact Htgt | exact Hr].
    + apply Pos_add; [exact Hacc|].
      apply SquaredEuclideanDistanceTo_Pos; [exact (Htgt _ _ Ht)|].
      repeat split; simpl; apply Num_add; eauto.
    + intros i v Hv. exact (Hpts (S i) v Hv).
Qed.

Lemma GetValue_Pos (s s' : ThinShellDemonsMetric D) (movingMesh : Mesh D)
      (parameters : list D) (value : D) :
  GetValue parameters s = Returns value s' ->
  m_MovingMesh s = Some movingMesh ->
  (forall (j : nat) (a : D), parameters !! j = Some a -> Num a) ->
  (forall (i : nat) (v : Point D),
      GetPoints movingMesh !! i = Some v -> Point_all Fin v) ->
  (forall (k : Z) (t : Point D), targetMap s !! k = Some t -> Point_all Fin t) ->
  Pos value.
Proof.
  unfold GetValue. unfold bind at 1. unfold get at 1.
  destruct (m_FixedMesh s) as [fixedMesh|]; [|discriminate].
  destruct (m_MovingMesh s) as [movingMesh'|]; [|discriminate].
  intros Hr Hmov Hpar Hpts Htgt. inversion Hmov; subst movingMesh'.
  apply bind_Returns in Hr. destruct Hr as (u & s1 & Hset & Hr).
  assert (Hmap : targetMap s1 = targetMap s).
  { unfold SetTransformParameters, bind, get, put, itkExceptionMacro in Hset.
    destruct (m_Transform s); inversion Hset; reflexivity. }
  eapply GetValue_loop_Pos; [apply Pos_zero | exact Hpar | exact Hpts | | exact Hr].
  rewrite Hmap. exact Htgt.
Qed.

End SignOfNumbers.

(** ** IEEE binary64: signs and order, from the specification of the
    primitive operations *)

Lemma shr_1_nonneg (mrs : shr_record) : 0 <= shr_m mrs -> 0 <= shr_m (shr_1 mrs).
Proof.
  destruct mrs as [m r s]. simpl.
  destruct m as [|p|p]; simpl; try lia; destruct p; simpl; lia.
Qed.

Lemma iter_pos_shr_1_nonneg (p : positive) :
  forall mrs, 0 <= shr_m mrs -> 0 <= shr_m (SpecFloat.iter_pos shr_1 p mrs).
Proof.
  induction p as [p IH|p IH|]; intros mrs Hm; simpl.
  - apply IH, IH, shr_1_nonneg, Hm.
  - apply IH, IH, Hm.
  - apply shr_1_nonneg, Hm.
Qed.

Lemma shr_fexp_nonneg (m e : Z) (l : location) :
  0 <= m -> 0 <= shr_m (fst (shr_fexp prec emax m e l)).
Proof.
  intros Hm. unfold shr_fexp, shr.
  assert (Hrec : 0 <= shr_m (shr_record_of_loc m l))
    by (destruct l as [|[]]; simpl; exact Hm).
  destruct (fexp prec emax (Zdigits2 m + e) - e) as [|p|p]; simpl; try exact Hrec.
  apply iter_pos_shr_1_nonneg, Hrec.
Qed.

Lemma round_nearest_even_nonneg (m : Z) (l : location) :
  0 <= m -> 0 <= round_nearest_even m l.
Proof.
  intros Hm. unfold round_nearest_even.
  destruct l as [|[]]; try lia. destruct (Z.even m); lia.
Qed.

(** Rounding a non-negative mantissa under the sign [false] gives a zero, a
    positive number or [+infinity], never NaN. *)
Lemma binary_round_aux_nonneg (mx ex : Z) (lx : location) :
  0 <= mx -> sf_nonneg (binary_round_aux prec emax false mx ex lx) = true.
Proof.
  intros Hm. unfold binary_round_aux.
  pose proof (shr_fexp_nonneg mx ex lx Hm) as H1.
  destruct (shr_fexp prec emax mx ex lx) as [mrs' e']. simpl in H1.
  pose proof (shr_fexp_nonneg
                (round_nearest_even (shr_m mrs') (loc_of_shr_record mrs')) e'
                loc_Exact (round_nearest_even_nonneg _ _ H1)) as H2.
  destruct (shr_fexp prec emax _ e' loc_Exact) as [mrs'' e'']. simpl in H2.
  destruct (shr_m mrs'') as [|m|m].
  - reflexivity.
  - destruct (e'' <=? emax - prec); reflexivity.
  - lia.
Qed.

Lemma SFmul_self_nonneg_or_nan (x : spec_float) :
  sf_nonneg_or_nan (SF64mul x x) = true.
Proof.
  destruct x as [s|s| |s m e]; simpl; try reflexivity.
  - rewrite xorb_nilpotent. reflexivity.
  - pose proof (binary_round_aux_nonneg (Z.pos (m * m)) (e + e) loc_Exact
                  ltac:(lia)) as Hround.
    unfold SF64mul, SFmul. rewrite xorb_nilpotent.
    destruct (binary_round_aux _ _ _ _ _ _); simpl in *; auto.
Qed.

Lemma SFadd_nonneg_or_nan (a b : spec_float) :
  sf_nonneg_or_nan a = true -> sf_nonneg_or_nan b = true ->
  sf_nonneg_or_nan (SF64add a b) = true.
Proof.
  destruct a as [sa|sa| |sa ma ea]; destruct b as [sb|sb| |sb mb eb];
    simpl; intros Ha Hb; try reflexivity;
    try (destruct sa; try discriminate); try (destruct sb; try discriminate);
    try reflexivity.
  unfold SF64add, SFadd, binary_normalize, cond_Zopp.
  destruct (shl_align ma ea (Z.min ea eb)) as [ma' ea'].
  destruct (shl_align mb eb (Z.min ea eb)) as [mb' eb']. simpl.
  unfold binary_round.
  destruct (shl_align _ _ _) as [mz ez].
  pose proof (binary_round_aux_nonneg (Z.pos mz) ez loc_Exact ltac:(lia)) as Hround.
  destruct (binary_round_aux _ _ _ _ _ _); simpl in *; auto.
Qed.

Lemma is_nan_spec (x : float) : is_nan x = sf_is_nan (Prim2SF x).
Proof.
  unfold is_nan. rewrite FloatAxioms.eqb_spec. unfold SFeqb.
  destruct (Prim2SF x) as [s|s| |s m e]; simpl; try reflexivity.
  - destruct s; reflexivity.
  - destruct s; rewrite Z.compare_refl, Pos.compare_cont_refl; reflexivity.
Qed.

Lemma nonneg_or_nan_spec (x : float) :
  nonneg_or_nan x <-> sf_nonneg_or_nan (Prim2SF x) = true.
Proof.
  unfold nonneg_or_nan. rewrite is_nan_spec, FloatAxioms.leb_spec.
  replace (Prim2SF 0) with (S754_zero false) by reflexivity.
  destruct (Prim2SF x) as [s|s| |s m e]; simpl; unfold SFleb; simpl;
    try destruct s; simpl; intuition discriminate.
Qed.

Lemma nonneg_or_nan_zero : nonneg_or_nan (ZeroValue (D:=float)).
Proof. left. reflexivity. Qed.

Lemma nonneg_or_nan_square (a : float) : nonneg_or_nan (a * a)%D.
Proof.
  apply nonneg_or_nan_spec. simpl. rewrite FloatAxioms.mul_spec.
  apply SFmul_self_nonneg_or_nan.
Qed.

Lemma nonneg_or_nan_add (a b : float) :
  nonneg_or_nan a -> nonneg_or_nan b -> nonneg_or_nan (a + b)%D.
Proof.
  rewrite !nonneg_or_nan_spec. simpl. rewrite FloatAxioms.add_spec.
  apply SFadd_nonneg_or_nan.
Qed.

Lemma SFltb_lex (x y : spec_float) :
  SFltb x y = true <->
  sf_is_nan x = false /\ sf_is_nan y = false /\ lex_lt (sf_key x) (sf_key y).
Proof.
  unfold SFltb.
  destruct x as [sx|sx| |sx mx ex]; destruct y as [sy|sy| |sy my ey]; simpl;
    try (split; [discriminate | intros (? & ? & ?); discriminate]);
    try destruct sx; try destruct sy; simpl;
    try (split; [intros _; repeat split; lia | reflexivity]);
    try (split; [discriminate | intros (_ & _ & ?); lia]).
  - rewrite Pos.compare_cont_spec. simpl.
    destruct (Z.compare_spec ex ey); destruct (Pos.compare_spec mx my); simpl;
      (split; [try discriminate; intros _; repeat split; lia
              | intros (_ & _ & ?); try reflexivity; lia]).
  - rewrite Pos.compare_cont_spec. simpl.
    destruct (Z.compare_spec ex ey); destruct (Pos.compare_spec mx my); simpl;
      (split; [try discriminate; intros _; repeat split; lia
              | intros (_ & _ & ?); try reflexivity; lia]).
Qed.

Lemma lex_lt_irrefl (a : Z * Z * Z) : ~ lex_lt a a.
Proof. destruct a as [[a1 a2] a3]. simpl. lia. Qed.

Lemma lex_lt_trans (a b c : Z * Z * Z) : lex_lt a b -> lex_lt b c -> lex_lt a c.
Proof.
  destruct a as [[a1 a2] a3], b as [[b1 b2] b3], c as [[c1 c2] c3]. simpl. lia.
Qed.

Lemma lex_lt_cotrans (a b c : Z * Z * Z) :
  lex_lt a b -> lex_lt a c \/ lex_lt c b.
Proof.
  destruct a as [[a1 a2] a3], b as [[b1 b2] b3], c as [[c1 c2] c3]. simpl. lia.
Qed.

Lemma double_lt_irrefl (a : float) : (a <? a)%D = false.
Proof.
  simpl. destruct (a <? a)%float eqn:E; [|reflexivity].
  rewrite FloatAxioms.ltb_spec in E. apply SFltb_lex in E. destruct E as (_ & _ & E).
  apply lex_lt_irrefl in E. contradiction.
Qed.

Lemma double_lt_trans (a b c : float) :
  (a <? b)%D = true -> (b <? c)%D = true -> (a <? c)%D = true.
Proof.
  simpl. rewrite !FloatAxioms.ltb_spec, !SFltb_lex.
  intros (Ha & Hb & Hab) (_ & Hc & Hbc).
  repeat split; auto. eapply lex_lt_trans; eauto.
Qed.

Lemma double_lt_cotrans (a b c : float) :
  comparable_double c ->
  (a <? b)%D = true -> (a <? c)%D = true \/ (c <? b)%D = true.
Proof.
  unfold comparable_double. simpl.
  rewrite is_nan_spec, !FloatAxioms.ltb_spec, !SFltb_lex. intros Hc (Ha & Hb & Hab).
  destruct (lex_lt_cotrans _ _ (sf_key (Prim2SF c)) Hab); [left|right];
    repeat split; auto.
Qed.

Lemma exact_lt_cotrans (a b c : Z) :
  comparable_exact c ->
  (a <? b)%D = true -> (a <? c)%D = true \/ (c <? b)%D = true.
Proof. simpl. rewrite !Z.ltb_lt. lia. Qed.

Lemma exact_lt_trans (a b c : Z) :
  (a <? b)%D = true -> (b <? c)%D = true -> (a <? c)%D = true.
Proof. simpl. rewrite !Z.ltb_lt. lia. Qed.

Lemma exact_nonneg_square (a : Z) : 0 <= (a * a)%D.
Proof. simpl. nia. Qed.

Lemma exact_nonneg_add (a b : Z) : 0 <= a -> 0 <= b -> 0 <= (a + b)%D.
Proof. simpl. lia. Qed.

(** *** Finite operands: no NaN arises, and squares and their sums are
    [>= 0] *)

Lemma binary_round_aux_not_nan (sx : bool) (mx ex : Z) (lx : location) :
  0 <= mx -> sf_is_nan (binary_round_aux prec emax sx mx ex lx) = false.
Proof.
  intros Hm. unfold binary_round_aux.
  pose proof (shr_fexp_nonneg mx ex lx Hm) as H1.
  destruct (shr_fexp prec emax mx ex lx) as [mrs' e']. simpl in H1.
  pose proof (shr_fexp_nonneg
                (round_nearest_even (shr_m mrs') (loc_of_shr_record mrs')) e'
                loc_Exact (round_nearest_even_nonneg _ _ H1)) as H2.
  destruct (shr_fexp prec emax _ e' loc_Exact) as [mrs'' e'']. simpl in H2.
  destruct (shr_m mrs'') as [|m|m].
  - reflexivity.
  - destruct (e'' <=? emax - prec); reflexivity.
  - lia.
Qed.

Lemma binary_normalize_not_nan (m e : Z) (szero : bool) :
  sf_is_nan (binary_normalize prec emax m e szero) = false.
Proof.
  unfold binary_normalize, binary_round.
  destruct m as [|p|p]; [reflexivity| |];
    destruct (shl_align _ _ _) as [mz ez];
    apply binary_round_aux_not_nan; lia.
Qed.

Lemma SFadd_finite_not_nan (x y : spec_float) :
  sf_finite x = true -> sf_is_nan y = false ->
  sf_is_nan (SF64add x y) = false.
Proof.
  destruct x as [sx|sx| |sx mx ex]; destruct y as [sy|sy| |sy my ey];
    simpl; intros Hx Hy; try discriminate; try reflexivity.
  - destruct sx, sy; reflexivity.
  - apply binary_normalize_not_nan.
Qed.

Lemma SFsub_finite_not_nan (x y : spec_float) :
  sf_finite x = true -> sf_is_nan y = false ->
  sf_is_nan (SF64sub x y) = false.
Proof.
  destruct x as [sx|sx| |sx mx ex]; destruct y as [sy|sy| |sy my ey];
    simpl; intros Hx Hy; try discriminate; try reflexivity.
  - destruct sx, sy; reflexivity.
  - apply binary_normalize_not_nan.
Qed.

Lemma SFmul_self_nonneg (x : spec_float) :
  sf_is_nan x = false -> sf_nonneg (SF64mul x x) = true.
Proof.
  destruct x as [s|s| |s m e]; simpl; intros Hx; try discriminate.
  - reflexivity.
  - rewrite xorb_nilpotent. reflexivity.
  - unfold SF64mul, SFmul. rewrite xorb_nilpotent.
    apply binary_round_aux_nonneg. lia.
Qed.

Lemma SFadd_nonneg (a b : spec_float) :
  sf_nonneg a = true -> sf_nonneg b = true -> sf_nonneg (SF64add a b) = true.
Proof.
  destruct a as [sa|sa| |sa ma ea]; destruct b as [sb|sb| |sb mb eb];
    simpl; intros Ha Hb; try discriminate; try reflexivity;
    try (destruct sa; try discriminate); try (destruct sb; try discriminate);
    try reflexivity.
  unfold SF64add, SFadd, binary_normalize, cond_Zopp.
  destruct (shl_align ma ea (Z.min ea eb)) as [ma' ea'].
  destruct (shl_align mb eb (Z.min ea eb)) as [mb' eb']. simpl.
  unfold binary_round.
  destruct (shl_align _ _ _) as [mz ez].
  apply binary_round_aux_nonneg. lia.
Qed.

Lemma is_finite_spec (x : float) : is_finite x = sf_finite (Prim2SF x).
Proof.
  unfold is_finite, is_infinity.
  rewrite is_nan_spec, FloatAxioms.eqb_spec, FloatAxioms.abs_spec.
  replace (Prim2SF infinity) with (S754_infinity false) by reflexivity.
  destruct (Prim2SF x) as [s|s| |s m e]; reflexivity.
Qed.

Lemma nonneg_spec (x : float) :
  (0 <=? x)%float = sf_nonneg (Prim2SF x).
Proof.
  rewrite FloatAxioms.leb_spec.
  replace (Prim2SF 0) with (S754_zero false) by reflexivity.
  destruct (Prim2SF x) as [s|s| |s m e]; try destruct s; reflexivity.
Qed.

Lemma SFcompare_antisym (x y : spec_float) :
  SFcompare y x = option_map CompOpp (SFcompare x y).
Proof.
  destruct x as [sx|sx| |sx mx ex]; destruct y as [sy|sy| |sy my ey];
    simpl; try reflexivity;
    try (destruct sx; reflexivity); try (destruct sy; reflexivity);
    try (destruct sx, sy; reflexivity).
  assert (Hm : Pos.compare_cont Eq my mx = CompOpp (Pos.compare_cont Eq mx my))
    by (rewrite Pos.compare_cont_antisym; reflexivity).
  destruct sx, sy; simpl; try reflexivity;
    rewrite (Z.compare_antisym ex ey), Hm;
    destruct (ex ?= ey); simpl; try reflexivity;
    destruct (Pos.compare_cont Eq mx my); reflexivity.
Qed.

Lemma double_not_lt_le (a b : float) :
  is_nan a = false -> is_nan b = false ->
  (b <? a)%float = false -> (a <=? b)%float = true.
Proof.
  rewrite !is_nan_spec, FloatAxioms.ltb_spec, FloatAxioms.leb_spec.
  unfold SFltb, SFleb. rewrite (SFcompare_antisym (Prim2SF a) (Prim2SF b)).
  destruct (SFcompare (Prim2SF a) (Prim2SF b)) as [[| |]|] eqn:Hc; simpl;
    try congruence.
  destruct (Prim2SF a) as [sa|sa| |sa ma ea];
    destruct (Prim2SF b) as [sb|sb| |sb mb eb]; simpl in *; discriminate.
Qed.

Lemma double_add_number (a b : float) :
  is_finite a = true -> is_nan b = false -> is_nan (a + b)%D = false.
Proof.
  simpl. rewrite is_finite_spec, !is_nan_spec, FloatAxioms.add_spec.
  apply SFadd_finite_not_nan.
Qed.

Lemma double_sub_number (a b : float) :
  is_finite a = true -> is_nan b = false -> is_nan (a - b)%D = false.
Proof.
  simpl. rewrite is_finite_spec, !is_nan_spec, FloatAxioms.sub_spec.
  apply SFsub_finite_not_nan.
Qed.

Lemma double_square_nonneg (a : float) :
  is_nan a = false -> (0 <=? a * a)%float = true.
Proof.
  rewrite is_nan_spec, nonneg_spec, FloatAxioms.mul_spec.
  apply SFmul_self_nonneg.
Qed.

Lemma double_add_nonneg (a b : float) :
  (0 <=? a)%float = true -> (0 <=? b)%float = true ->
  (0 <=? a + b)%float = true.
Proof.
  rewrite !nonneg_spec, FloatAxioms.add_spec. apply SFadd_nonneg.
Qed.


(** ** Calls an optimizer makes after [Initialize] *)

Section Calls.
Context {D : Type} `{NumericTraits D}.
Variable indeterminate_double : nat -> D.

Lemma after_call_targetMap (c : call) (s s' : ThinShellDemonsMetric D) :
  after_call indeterminate_double c s = Some s' -> targetMap s' = targetMap s.
Proof.
  destruct c as [parameters|parameters derivative]; simpl; intros Hfin.
  - apply GetValue_frame in Hfin. tauto.
  - apply GetDerivative_frame in Hfin. subst. reflexivity.
Qed.

Lemma after_calls_targetMap (calls : list call) :
  forall s s' : ThinShellDemonsMetric D,
    after_calls indeterminate_double calls s = Some s' -> targetMap s' = targetMap s.
Proof.
  induction calls as [|c rest IH]; simpl; intros s s' Hfin.
  - congruence.
  - destruct (after_call indeterminate_double c s) as [s1|] eqn:Hc; [|discriminate].
    rewrite (IH _ _ Hfin). eapply after_call_targetMap; eauto.
Qed.

End Calls.

(** * Properties of the metric, for every arithmetic *)

Section Claims.
Context {D : Type} `{NumericTraits D}.
Variable indeterminate_point : Z -> Point D.
Variable indeterminate_double : nat -> D.

(** C6.  With the transform, the fixed mesh or the moving mesh unset,
    [Initialize] throws and the metric is as it was: the target map is not
    modified and a targets-computed flag that was false is still false. *)
Theorem Initialize_unset_throws (s : ThinShellDemonsMetric D) :
  m_Transform s = None \/ m_FixedMesh s = None \/ m_MovingMesh s = None ->
  exists msg s',
    Initialize indeterminate_point s = Throws msg s' /\
    s' = s /\
    targetMap s' = targetMap s /\
    (m_TargetPositionComputed s = false -> m_TargetPositionComputed s' = false).
Proof.
  intros Hunset. unfold Initialize. unfold bind at 1. unfold get at 1.
  destruct (m_Transform s) as [transform|].
  - destruct (m_MovingMesh s) as [movingMesh|].
    + destruct (m_FixedMesh s) as [fixedMesh|].
      * destruct Hunset as [Hu|[Hu|Hu]]; discriminate.
      * eexists _, s. unfold itkExceptionMacro. auto.
    + eexists _, s. unfold itkExceptionMacro. auto.
  - eexists _, s. unfold itkExceptionMacro. auto.
Qed.

(** C7.  When [Initialize] returns, the target map has exactly as many
    entries as the moving mesh has points, its keys are the identifiers
    [0 .. N-1], and whatever calls of [GetValue] and [GetDerivative] follow,
    the map stays the very same. *)
Theorem target_map_entries (s s' : ThinShellDemonsMetric D) :
  Initialize indeterminate_point s = Returns tt s' ->
  exists movingMesh,
    m_MovingMesh s' = Some movingMesh /\
    size (targetMap s') = GetNumberOfPoints movingMesh /\
    (forall k : Z,
        is_Some (targetMap s' !! k)
        <-> 0 <= k < Z.of_nat (GetNumberOfPoints movingMesh)) /\
    (forall (calls : list call) (s'' : ThinShellDemonsMetric D),
        after_calls indeterminate_double calls s' = Some s'' ->
        targetMap s'' = targetMap s').
Proof.
  intros Hinit.
  apply Initialize_Returns in Hinit.
  destruct Hinit
    as (transform & fixedMesh & movingMesh & Htr & Hfix & Hmov & _ & _ & ->).
  exists (fst (UpdateSource movingMesh)). split; [reflexivity|]. split; [|split].
  - simpl. rewrite insert_targets_size.
    + rewrite map_size_empty. reflexivity.
    + intros k _. apply lookup_empty.
  - intros k. simpl. unfold GetNumberOfPoints. split.
    + intros Hsome.
      destruct (decide (0 <= k
                        < Z.of_nat (length (GetPoints
                                              (fst (UpdateSource movingMesh))))))
        as [Hin|Hout]; [exact Hin|].
      rewrite insert_targets_lookup_other in Hsome by lia.
      rewrite lookup_empty in Hsome. destruct Hsome as [x Hx]. discriminate.
    + intros Hin.
      destruct (lookup_lt_is_Some_2 (GetPoints (fst (UpdateSource movingMesh)))
                  (Z.to_nat k))
        as [value Hvalue]; [lia|].
      pose proof (insert_targets_lookup indeterminate_point transform
                    (fst (UpdateSource fixedMesh)) _ 0 ∅ _ _ Hvalue) as Hlk.
      replace (0 + Z.of_nat (Z.to_nat k)) with k in Hlk by lia.
      rewrite Hlk. eauto.
  - intros calls s''. apply after_calls_targetMap.
Qed.

(** C3.  With the meshes and the transform present, [3 * N] parameters and
    a target for every moving vertex, [GetValue] returns the sum, taken in
    vertex order from zero, of the squared Euclidean distances between
    [t = targetMap[i]] and the displaced position [p + d], where [p] is the
    vertex and [d = (parameters[3i], parameters[3i+1], parameters[3i+2])]:
    the term of vertex [i] is
    [(t.x - (p.x + d.x))^2 + (t.y - (p.y + d.y))^2 + (t.z - (p.z + d.z))^2],
    accumulated from zero in this order. *)
Theorem GetValue_sum (s : ThinShellDemonsMetric D) (transform : Transform D)
        (fixedMesh movingMesh : Mesh D) (parameters : list D) :
  m_Transform s = Some transform ->
  m_FixedMesh s = Some fixedMesh ->
  m_MovingMesh s = Some movingMesh ->
  length parameters = (3 * GetNumberOfPoints movingMesh)%nat ->
  (forall i, (i < GetNumberOfPoints movingMesh)%nat ->
             is_Some (targetMap s !! Z.of_nat i)) ->
  3 * Z.of_nat (GetNumberOfPoints movingMesh) <= INT_MAX + 1 ->
  exists dists : list D,
    GetValue parameters s
    = Returns (fold_left nt_add dists ZeroValue)
              (set_Transform (Some (SetParameters transform parameters)) s) /\
    length dists = GetNumberOfPoints movingMesh /\
    forall (i : nat) (p t : Point D) (d0 d1 d2 : D),
      GetPoints movingMesh !! i = Some p ->
      targetMap s !! Z.of_nat i = Some t ->
      parameters !! (3 * i)%nat = Some d0 ->
      parameters !! (3 * i + 1)%nat = Some d1 ->
      parameters !! (3 * i + 2)%nat = Some d2 ->
      dists !! i
      = Some (ZeroValue
              + (p0 t - (p0 p + d0)) * (p0 t - (p0 p + d0))
              + (p1 t - (p1 p + d1)) * (p1 t - (p1 p + d1))
              + (p2 t - (p2 p + d2)) * (p2 t - (p2 p + d2)))%D.
Proof.
  intros Htr Hfix Hmov Hlen Htargets Hmax.
  unfold GetNumberOfPoints in *.
  destruct (GetValue_loop_runs parameters (GetPoints movingMesh) 0 ZeroValue
              (set_Transform (Some (SetParameters transform parameters)) s))
    as (dists & Hrun & Hdl & Hdists).
  - lia.
  - lia.
  - lia.
  - intros i Hi. simpl. replace (0 + Z.of_nat i) with (Z.of_nat i) by lia.
    apply Htargets. exact Hi.
  - exists dists. split; [|split; [exact Hdl|]].
    + unfold GetValue. unfold bind at 1. unfold get at 1.
      rewrite Hfix, Hmov. unfold bind at 1.
      unfold SetTransformParameters, bind at 1, get at 1. rewrite Htr.
      unfold put. exact Hrun.
    + intros i p t d0 d1 d2 Hp Ht H0 H1 H2.
      change (ZeroValue
              + (p0 t - (p0 p + d0)) * (p0 t - (p0 p + d0))
              + (p1 t - (p1 p + d1)) * (p1 t - (p1 p + d1))
              + (p2 t - (p2 p + d2)) * (p2 t - (p2 p + d2)))%D
        with (SquaredEuclideanDistanceTo t (Point_plus p (mkVector d0 d1 d2))).
      apply (Hdists i p t d0 d1 d2 Hp); simpl.
      * replace (0 + Z.of_nat i) with (Z.of_nat i) by lia. exact Ht.
      * replace (Z.to_nat ((0 + Z.of_nat i) * 3)) with (3 * i)%nat by lia.
        exact H0.
      * replace (Z.to_nat ((0 + Z.of_nat i) * 3 + 1)) with (3 * i + 1)%nat by lia.
        exact H1.
      * replace (Z.to_nat ((0 + Z.of_nat i) * 3 + 2)) with (3 * i + 2)%nat by lia.
        exact H2.
Qed.

(** When [GetDerivative] returns, the buffer has three elements per point
    of the FIXED mesh (line 209 sizes it from [fixedMesh]), and every element
    past the moving vertices' slots is zero. *)
Lemma GetDerivative_length (s s' : ThinShellDemonsMetric D)
      (fixedMesh movingMesh : Mesh D) (parameters derivative r : list D) :
  m_FixedMesh s = Some fixedMesh ->
  m_MovingMesh s = Some movingMesh ->
  GetDerivative indeterminate_double parameters derivative s = Returns r s' ->
  length r = (3 * GetNumberOfPoints fixedMesh)%nat /\
  forall j : nat,
    (3 * GetNumberOfPoints movingMesh <= j < 3 * GetNumberOfPoints fixedMesh)%nat ->
    r !! j = Some ZeroValue.
Proof.
  intros Hfix Hmov Hr.
  rewrite (GetDerivative_present _ fixedMesh movingMesh) in Hr by assumption.
  apply GetDerivative_loop_Returns in Hr; [|lia].
  destruct Hr as (Hlen & Hother & _).
  rewrite length_replicate in Hlen. split; [lia|].
  intros j Hj. unfold GetNumberOfPoints in *.
  rewrite Hother by lia.
  apply lookup_replicate_2. lia.
Qed.

(** [GetDerivative] returns whenever the meshes are present, there are
    [3 * N] parameters and a target for every moving vertex, and the moving
    mesh has no more points than the fixed mesh (the buffer's size). *)
Lemma GetDerivative_defined (s : ThinShellDemonsMetric D)
      (fixedMesh movingMesh : Mesh D) (parameters derivative : list D) :
  m_FixedMesh s = Some fixedMesh ->
  m_MovingMesh s = Some movingMesh ->
  length parameters = (3 * GetNumberOfPoints movingMesh)%nat ->
  (forall i, (i < GetNumberOfPoints movingMesh)%nat ->
             is_Some (targetMap s !! Z.of_nat i)) ->
  3 * Z.of_nat (GetNumberOfPoints movingMesh) <= INT_MAX + 1 ->
  (GetNumberOfPoints movingMesh <= GetNumberOfPoints fixedMesh)%nat ->
  exists r, GetDerivative indeterminate_double parameters derivative s = Returns r s.
Proof.
  intros Hfix Hmov Hlen Htargets Hmax Hle.
  rewrite (GetDerivative_present _ fixedMesh movingMesh) by assumption.
  unfold GetNumberOfPoints in *.
  apply GetDerivative_loop_runs.
  - lia.
  - lia.
  - lia.
  - rewrite length_replicate. lia.
  - intros i Hi. replace (0 + Z.of_nat i) with (Z.of_nat i) by lia.
    apply Htargets. exact Hi.
Qed.

(** Whenever [GetDerivative] returns, the slot of every moving vertex
    [i] holds [-2 * (t - p0)] componentwise, with [t = targetMap[i]] and [p0]
    the vertex's nominal position: the displacement read from the
    parameters does not enter.  And it does return under the evaluator's
    preconditions, as long as the buffer (sized from the fixed mesh) has room
    for the moving vertices. *)
Theorem GetDerivative_slots (s : ThinShellDemonsMetric D) (movingMesh : Mesh D)
        (parameters derivative : list D) :
  m_MovingMesh s = Some movingMesh ->
  (forall (r : list D) (s' : ThinShellDemonsMetric D),
      GetDerivative indeterminate_double parameters derivative s = Returns r s' ->
      forall (i : nat) (p t : Point D),
        GetPoints movingMesh !! i = Some p ->
        targetMap s !! Z.of_nat i = Some t ->
        r !! (3 * i)%nat = Some (nt_of_int (-2) * (p0 t - p0 p))%D /\
        r !! (3 * i + 1)%nat = Some (nt_of_int (-2) * (p1 t - p1 p))%D /\
        r !! (3 * i + 2)%nat = Some (nt_of_int (-2) * (p2 t - p2 p))%D) /\
  (forall fixedMesh : Mesh D,
      m_FixedMesh s = Some fixedMesh ->
      length parameters = (3 * GetNumberOfPoints movingMesh)%nat ->
      (forall i, (i < GetNumberOfPoints movingMesh)%nat ->
                 is_Some (targetMap s !! Z.of_nat i)) ->
      3 * Z.of_nat (GetNumberOfPoints movingMesh) <= INT_MAX + 1 ->
      (GetNumberOfPoints movingMesh <= GetNumberOfPoints fixedMesh)%nat ->
      exists r, GetDerivative indeterminate_double parameters derivative s
                = Returns r s).
Proof.
  intros Hmov. split.
  - intros r s' Hr i p t Hp Ht.
    destruct (m_FixedMesh s) as [fixedMesh|] eqn:Hfix.
    + rewrite (GetDerivative_present _ fixedMesh movingMesh) in Hr by assumption.
      apply GetDerivative_loop_Returns in Hr; [|lia].
      destruct Hr as (_ & _ & Hslots).
      specialize (Hslots i p t Hp).
      replace (0 + Z.of_nat i) with (Z.of_nat i) in Hslots by lia.
      specialize (Hslots Ht).
      replace (Z.to_nat (Z.of_nat i * 3)) with (3 * i)%nat in Hslots by lia.
      replace (Z.to_nat (Z.of_nat i * 3 + 1)) with (3 * i + 1)%nat in Hslots by lia.
      replace (Z.to_nat (Z.of_nat i * 3 + 2)) with (3 * i + 2)%nat in Hslots by lia.
      exact Hslots.
    + unfold GetDerivative, bind, get, itkExceptionMacro in Hr.
      rewrite Hfix in Hr. discriminate.
  - intros fixedMesh Hfix. apply GetDerivative_defined; assumption.
Qed.

(** C9.  Two parameter vectors of the required length give the same
    outcome of [GetDerivative], derivative vector included: what is read
    from the parameters never reaches the output. *)
Theorem GetDerivative_ignores_parameters (s : ThinShellDemonsMetric D)
        (movingMesh : Mesh D) (parameters1 parameters2 derivative : list D) :
  m_MovingMesh s = Some movingMesh ->
  length parameters1 = (3 * GetNumberOfPoints movingMesh)%nat ->
  length parameters2 = (3 * GetNumberOfPoints movingMesh)%nat ->
  GetDerivative indeterminate_double parameters1 derivative s
  = GetDerivative indeterminate_double parameters2 derivative s.
Proof.
  intros Hmov Hlen1 Hlen2.
  destruct (m_FixedMesh s) as [fixedMesh|] eqn:Hfix.
  - rewrite !(GetDerivative_present _ fixedMesh movingMesh) by assumption.
    apply GetDerivative_loop_parameters. congruence.
  - unfold GetDerivative, bind, get. rewrite Hfix. reflexivity.
Qed.

(** C10.  With a fixed mesh that is present but has no points, the inner
    scan never assigns [targetPoint]: [ComputeTargetPosition] returns without
    an error, the flag is set, and the entry stored for every moving vertex
    is the never-assigned point of that turn of the loop. *)
Theorem ComputeTargetPosition_empty_fixed_mesh (s : ThinShellDemonsMetric D)
        (transform : Transform D) (fixedMesh movingMesh : Mesh D) :
  m_Transform s = Some transform ->
  m_FixedMesh s = Some fixedMesh ->
  GetPoints fixedMesh = [] ->
  m_MovingMesh s = Some movingMesh ->
  GetPoints movingMesh <> [] ->
  Z.of_nat (GetNumberOfPoints movingMesh) <= INT_MAX ->
  exists s' : ThinShellDemonsMetric D,
    ComputeTargetPosition indeterminate_point s = Returns tt s' /\
    m_TargetPositionComputed s' = true /\
    forall i : nat,
      (i < GetNumberOfPoints movingMesh)%nat ->
      targetMap s' !! Z.of_nat i = Some (indeterminate_point (Z.of_nat i)).
Proof.
  intros Htr Hfix Hempty Hmov _ Hmax.
  exists (targets_computed indeterminate_point transform fixedMesh movingMesh s).
  split; [apply ComputeTargetPosition_runs; assumption|].
  split; [reflexivity|].
  intros i Hi. unfold GetNumberOfPoints in Hi.
  destruct (lookup_lt_is_Some_2 (GetPoints movingMesh) i Hi) as [value Hvalue].
  simpl.
  pose proof (insert_targets_lookup indeterminate_point transform fixedMesh
                _ 0 ∅ _ _ Hvalue) as Hlk.
  replace (0 + Z.of_nat i) with (Z.of_nat i) in Hlk by lia.
  rewrite Hlk. unfold closest. rewrite Hempty. reflexivity.
Qed.

(** C5, as the code has it.  Both evaluators re-check the configuration
    on entry.  [GetValue] throws when the transform, the fixed mesh or the
    moving mesh is absent.  [GetDerivative] throws when the fixed mesh or
    the moving mesh is absent, but never looks at the transform: with both
    meshes present it throws nothing, whatever the transform pointer
    holds. *)
Theorem evaluators_recheck_configuration (s : ThinShellDemonsMetric D)
        (parameters derivative : list D) :
  (m_Transform s = None \/ m_FixedMesh s = None \/ m_MovingMesh s = None ->
   exists msg, GetValue parameters s = Throws msg s) /\
  (m_FixedMesh s = None \/ m_MovingMesh s = None ->
   exists msg, GetDerivative indeterminate_double parameters derivative s
               = Throws msg s) /\
  (m_FixedMesh s <> None -> m_MovingMesh s <> None ->
   forall msg s',
     GetDerivative indeterminate_double parameters derivative s <> Throws msg s').
Proof.
  split; [|split].
  - intros Hunset.
    unfold GetValue, SetTransformParameters, bind, get, itkExceptionMacro.
    destruct (m_FixedMesh s) as [fixedMesh|]; [|eauto].
    destruct (m_MovingMesh s) as [movingMesh|]; [|eauto].
    destruct (m_Transform s) as [transform|]; [|eauto].
    destruct Hunset as [Hu|[Hu|Hu]]; discriminate.
  - intros Hunset. unfold GetDerivative, bind, get, itkExceptionMacro.
    destruct (m_FixedMesh s) as [fixedMesh|]; [|eauto].
    destruct (m_MovingMesh s) as [movingMesh|]; [|eauto].
    destruct Hunset; discriminate.
  - intros Hfix Hmov msg s'.
    destruct (m_FixedMesh s) as [fixedMesh|] eqn:Hf; [|contradiction].
    destruct (m_MovingMesh s) as [movingMesh|] eqn:Hm; [|contradiction].
    rewrite (GetDerivative_present _ fixedMesh movingMesh) by assumption.
    apply reads_only_no_throw, reads_only_GetDerivative_loop.
Qed.

End Claims.

(** * Properties of order and sign, on IEEE binary64 *)

(** C4, as the code has it.  For every moving vertex [v] with some fixed
    point closer to the transformed [v] than the initial bound
    [NumericTraits<double>::max()] (so the fixed mesh is not empty),
    [ComputeTargetPosition] stores as target the first nearest fixed point
    [f].  The squared distance of [f] is itself below the bound, hence a
    number and not NaN; no fixed point is strictly nearer ([<]); [f] is at
    most as far as every fixed point whose distance is not NaN; and [f] is
    strictly nearer than every such point met before it, so among equally
    near points the first in traversal order is kept. *)
Theorem ComputeTargetPosition_first_minimizer
        (indeterminate_point : Z -> Point float)
        (s : ThinShellDemonsMetric float) (transform : Transform float)
        (fixedMesh movingMesh : Mesh float) :
  m_Transform s = Some transform ->
  m_FixedMesh s = Some fixedMesh ->
  m_MovingMesh s = Some movingMesh ->
  Z.of_nat (GetNumberOfPoints movingMesh) <= INT_MAX ->
  exists s' : ThinShellDemonsMetric float,
    ComputeTargetPosition indeterminate_point s = Returns tt s' /\
    forall (i : nat) (v : Point float),
      GetPoints movingMesh !! i = Some v ->
      (exists (j : nat) (g : Point float),
          GetPoints fixedMesh !! j = Some g /\
          (SquaredEuclideanDistanceTo g (TransformPoint transform v) <? nt_max)%D
          = true) ->
      exists (k : nat) (f : Point float),
        targetMap s' !! Z.of_nat i = Some f /\
        first_minimizer comparable_double (TransformPoint transform v)
                        (GetPoints fixedMesh) k f /\
        (SquaredEuclideanDistanceTo f (TransformPoint transform v) <? nt_max)%D
        = true /\
        is_nan (SquaredEuclideanDistanceTo f (TransformPoint transform v))
        = false /\
        (forall (j : nat) (g : Point float),
            GetPoints fixedMesh !! j = Some g ->
            is_nan (SquaredEuclideanDistanceTo g (TransformPoint transform v))
            = false ->
            (SquaredEuclideanDistanceTo f (TransformPoint transform v)
             <=? SquaredEuclideanDistanceTo g (TransformPoint transform v))%float
            = true).
Proof.
  intros Htr Hfix Hmov Hmax.
  exists (targets_computed indeterminate_point transform fixedMesh movingMesh s).
  split; [apply ComputeTargetPosition_runs; assumption|].
  intros i v Hv (j & g & Hg & Hlt). simpl.
  pose proof (insert_targets_lookup indeterminate_point transform fixedMesh
                _ 0 ∅ _ _ Hv) as Hlk.
  replace (0 + Z.of_nat i) with (Z.of_nat i) in Hlk by lia.
  rewrite Hlk. unfold closest. rewrite CastFrom_id.
  destruct (closest_scan_spec comparable_double double_lt_irrefl
              double_lt_trans double_lt_cotrans
              (TransformPoint transform v) (GetPoints fixedMesh)
              (indeterminate_point (Z.of_nat i)) nt_max)
    as [[Hnone _]|(k & f & Hfirst & Hbelow & Hscan)].
  - rewrite (Hnone j g Hg) in Hlt. discriminate.
  - exists k, f. rewrite Hscan.
    assert (Hnum : is_nan (SquaredEuclideanDistanceTo
                             f (TransformPoint transform v)) = false).
    { revert Hbelow. simpl.
      rewrite is_nan_spec, FloatAxioms.ltb_spec, SFltb_lex. tauto. }
    split; [reflexivity|]. split; [exact Hfirst|].
    split; [exact Hbelow|]. split; [exact Hnum|].
    intros j' g' Hg' Hnum'.
    apply double_not_lt_le; [exact Hnum | exact Hnum' |].
    destruct Hfirst as (_ & Hmin & _). exact (Hmin j' g' Hg').
Qed.

(** The same in exact integer arithmetic. *)
Lemma ComputeTargetPosition_first_minimizer_exact
      (indeterminate_point : Z -> Point Z)
      (s : ThinShellDemonsMetric Z) (transform : Transform Z)
      (fixedMesh movingMesh : Mesh Z) :
  m_Transform s = Some transform ->
  m_FixedMesh s = Some fixedMesh ->
  m_MovingMesh s = Some movingMesh ->
  Z.of_nat (GetNumberOfPoints movingMesh) <= INT_MAX ->
  exists s' : ThinShellDemonsMetric Z,
    ComputeTargetPosition indeterminate_point s = Returns tt s' /\
    forall (i : nat) (v : Point Z),
      GetPoints movingMesh !! i = Some v ->
      (exists (j : nat) (g : Point Z),
          GetPoints fixedMesh !! j = Some g /\
          (SquaredEuclideanDistanceTo g (TransformPoint transform v) <? nt_max)%D
          = true) ->
      exists (k : nat) (f : Point Z),
        first_minimizer comparable_exact (TransformPoint transform v)
                        (GetPoints fixedMesh) k f /\
        targetMap s' !! Z.of_nat i = Some f.
Proof.
  apply ComputeTargetPosition_first_minimizer_ordered.
  - intros a. apply Z.ltb_irrefl.
  - exact exact_lt_trans.
  - exact exact_lt_cotrans.
Qed.

(** C8, as the code has it.  The value [GetValue] returns is never
    negative.  It is [>= 0] whenever no parameter is NaN and the coordinates
    of the moving vertices and of the targets are finite; whatever the
    input, it is [>= 0] or it is NaN. *)
Theorem GetValue_never_negative (s s' : ThinShellDemonsMetric float)
        (movingMesh : Mesh float) (parameters : list float) (value : float) :
  GetValue parameters s = Returns value s' ->
  ((0 <=? value)%float = true \/ is_nan value = true) /\
  (m_MovingMesh s = Some movingMesh ->
   (forall (j : nat) (a : float), parameters !! j = Some a -> is_nan a = false) ->
   (forall (i : nat) (v : Point float),
       GetPoints movingMesh !! i = Some v -> finite_point v) ->
   (forall (k : Z) (t : Point float),
       targetMap s !! k = Some t -> finite_point t) ->
   (0 <=? value)%float = true).
Proof.
  intros Hr. split.
  - revert Hr. apply (GetValue_kept nonneg_or_nan).
    + exact nonneg_or_nan_zero.
    + exact nonneg_or_nan_square.
    + exact nonneg_or_nan_add.
  - intros Hmov Hpar Hpts Htgt.
    apply (GetValue_Pos (fun x => is_finite x = true)
             (fun x => is_nan x = false) (fun x => (0 <=? x)%float = true)
             double_add_number double_sub_number double_square_nonneg
             eq_refl double_add_nonneg s s' movingMesh parameters value);
      assumption.
Qed.

(** In exact integer arithmetic the value is [>= 0]. *)
Lemma GetValue_nonneg_exact (s s' : ThinShellDemonsMetric Z)
      (parameters : list Z) (value : Z) :
  GetValue parameters s = Returns value s' -> 0 <= value.
Proof.
  apply (GetValue_kept (fun x : Z => 0 <= x)).
  - simpl. lia.
  - exact exact_nonneg_square.
  - exact exact_nonneg_add.
Qed.


Example scenario_Initialize_double :
  Initialize never_assigned_point (configured (D:=float))
  = Returns tt initialized.
Proof. vm_compute. reflexivity. Qed.

Example scenario_Initialize_exact :
  Initialize never_assigned_point (configured (D:=Z))
  = Returns tt initialized.
Proof. vm_compute. reflexivity. Qed.

Example scenario_GetValue_double :
  GetValue [0; 0; 0]%float initialized
  = Returns 1%float
      (set_Transform (Some (SetParameters identity_transform [0; 0; 0]%float))
                     initialized).
Proof. vm_compute. reflexivity. Qed.

Example scenario_GetDerivative_double :
  GetDerivative never_assigned_double [0; 0; 0]%float [] initialized
  = Returns [2; neg_zero; neg_zero; 0; 0; 0]%float initialized.
Proof. vm_compute. reflexivity. Qed.

(** On a tie the first of the equally near fixed points is kept. *)
Example scenario_tie_keeps_first :
  ComputeTargetPosition never_assigned_point (configured_tie (D:=float))
  = Returns tt initialized_tie.
Proof. vm_compute. reflexivity. Qed.

Example scenario_Initialize_two_on_one :
  Initialize never_assigned_point
    (mkMetric (Some identity_transform) (Some fixed_A) (Some moving_2) ∅ false)
  = Returns tt (initialized_two_on_one (D:=float)).
Proof. vm_compute. reflexivity. Qed.

(** A source that fails makes [Initialize] throw, with the moving mesh as
    the failed update left it; a source that succeeds provides the points
    the targets are computed for. *)
Example scenario_Initialize_source_fails :
  Initialize never_assigned_point
    (mkMetric (Some identity_transform) (Some fixed_AB) (Some moving_unreadable)
              ∅ false)
  = Throws "Could not open movingMesh.vtk"
      (mkMetric (Some identity_transform) (Some fixed_AB)
                (Some (mkMesh [] (GetSource (moving_unreadable (D:=float)))))
                ∅ false).
Proof. vm_compute. reflexivity. Qed.

Example scenario_Initialize_source_regenerates :
  Initialize never_assigned_point
    (mkMetric (Some identity_transform) (Some fixed_AB) (Some moving_unread)
              ∅ false)
  = Returns tt
      (mkMetric (Some identity_transform) (Some fixed_AB)
                (Some (moving_read (D:=float)))
                {[ 0 := point_of_ints 0 0 0 ]} true).
Proof. vm_compute. reflexivity. Qed.

(** Finite coordinates are needed for a value [>= 0]: with a vertex at
    [+infinity] and the parameter [-infinity], none of them NaN, the
    displaced position is NaN and so is the value. *)
Example scenario_GetValue_infinite_vertex :
  GetValue [neg_infinity; 0; 0]%float vertex_at_infinity
  = Returns nan
      (set_Transform
         (Some (SetParameters identity_transform [neg_infinity; 0; 0]%float))
         vertex_at_infinity) /\
  is_nan neg_infinity = false.
Proof. split; vm_compute; reflexivity. Qed.

(** * Concrete runs *)

(** C1.  The buffer is sized from the FIXED mesh (lines 209-215).  With two
    fixed points and one moving vertex, a caller's buffer of the right
    length [3 * N_moving = 3] is replaced by one of length [6]; with one
    fixed point and two moving vertices the buffer gets length [3] and the
    second vertex's writes fall outside it. *)
Theorem GetDerivative_sized_from_fixed_mesh :
  GetNumberOfPoints (moving_1 (D:=float)) = 1%nat /\
  GetDerivative never_assigned_double [0; 0; 0]%float [5; 5; 5]%float initialized
  = Returns [2; neg_zero; neg_zero; 0; 0; 0]%float initialized /\
  GetNumberOfPoints (moving_2 (D:=float)) = 2%nat /\
  GetDerivative never_assigned_double [0; 0; 0; 0; 0; 0]%float
                [5; 5; 5; 5; 5; 5]%float initialized_two_on_one
  = Undefined.
Proof. repeat split; vm_compute; reflexivity. Qed.

(** C5, refuted as stated: with the transform unset and both meshes present
    [GetDerivative] raises nothing and returns the gradient. *)
Lemma GetDerivative_without_transform :
  m_Transform (set_Transform None (initialized (D:=float))) = None /\
  GetDerivative never_assigned_double [0; 0; 0]%float []
                (set_Transform None initialized)
  = Returns [2; neg_zero; neg_zero; 0; 0; 0]%float
            (set_Transform None initialized) /\
  (forall msg s',
      GetDerivative never_assigned_double [0; 0; 0]%float []
                    (set_Transform None initialized)
      <> Throws msg s').
Proof.
  split; [reflexivity|].
  assert (Hrun : GetDerivative never_assigned_double [0; 0; 0]%float []
                   (set_Transform None initialized)
                 = Returns [2; neg_zero; neg_zero; 0; 0; 0]%float
                     (set_Transform None initialized))
    by (vm_compute; reflexivity).
  split; [exact Hrun|].
  intros msg s'. rewrite Hrun. discriminate.
Qed.

(** C4, refuted as stated, on two inputs.  A fixed mesh without points: the
    stored target is no fixed point at all.  A fixed mesh whose only point
    lies at a squared distance that overflows to [+infinity]: that is not
    below the initial bound, so the scan assigns nothing and the
    never-assigned point is stored instead of the nearest fixed point. *)
Lemma ComputeTargetPosition_no_point_below_bound :
  (GetPoints (fixed_empty (D:=float)) = [] /\
   ComputeTargetPosition never_assigned_point (configured_empty_fixed (D:=float))
   = Returns tt initialized_empty_fixed /\
   targetMap (initialized_empty_fixed (D:=float)) !! 0
   = Some (never_assigned_point 0) /\
   (forall (k : nat) (f : Point float),
       GetPoints fixed_empty !! k = Some f ->
       targetMap initialized_empty_fixed !! 0 <> Some f)) /\
  (GetPoints fixed_far = [far_point] /\
   SquaredEuclideanDistanceTo far_point (mkPoint 0 0 0)%float = infinity /\
   (infinity <? nt_max)%D = false /\
   ComputeTargetPosition never_assigned_point configured_far
   = Returns tt initialized_far /\
   targetMap initialized_far !! 0 = Some (never_assigned_point 0) /\
   (forall (k : nat) (f : Point float),
       GetPoints fixed_far !! k = Some f ->
       targetMap initialized_far !! 0 <> Some f)).
Proof.
  split.
  - split; [reflexivity|]. split; [vm_compute; reflexivity|].
    split; [vm_compute; reflexivity|].
    intros k f Hk. discriminate.
  - split; [reflexivity|]. split; [vm_compute; reflexivity|].
    split; [vm_compute; reflexivity|]. split; [vm_compute; reflexivity|].
    assert (Hstored : targetMap initialized_far !! 0
                      = Some (never_assigned_point 0))
      by (vm_compute; reflexivity).
    split; [exact Hstored|].
    intros [|k] f Hk; simpl in Hk; [|discriminate].
    inversion Hk; subst f. rewrite Hstored. intros Heq.
    apply (f_equal (fun o => match o with
                             | Some p => (p0 p <? 8)%float
                             | None => false
                             end)) in Heq.
    vm_compute in Heq. discriminate.
Qed.

(** C8, refuted as stated: a NaN parameter makes the sum NaN, and
    [NaN >= 0] is false. *)
Lemma GetValue_nan_parameter :
  GetValue [nan; 0; 0]%float initialized
  = Returns nan
      (set_Transform (Some (SetParameters identity_transform [nan; 0; 0]%float))
                     initialized) /\
  (0 <=? nan)%float = false.
Proof. split; vm_compute; reflexivity. Qed.

(** ** The theorems applied to the scenario *)

Lemma GetDerivative_slots_witness :
  exists r : list float,
    GetDerivative never_assigned_double [0; 0; 0]%float [5; 5; 5]%float
                  initialized = Returns r initialized /\
    r !! 0%nat = Some 2%float /\
    r !! 1%nat = Some neg_zero /\
    r !! 2%nat = Some neg_zero.
Proof.
  destruct (GetDerivative_slots never_assigned_double initialized moving_1
              [0; 0; 0]%float [5; 5; 5]%float eq_refl) as [Hslots Hdefined].
  destruct (Hdefined fixed_AB eq_refl eq_refl) as [r Hr].
  - intros [|i] Hi; [vm_compute; eauto | vm_compute in Hi; lia].
  - vm_compute. discriminate.
  - vm_compute. lia.
  - exists r. split; [exact Hr|].
    exact (Hslots r initialized Hr 0%nat (point_of_ints 1 0 0)
                  (point_of_ints 0 0 0) eq_refl eq_refl).
Defined.

Lemma GetValue_sum_witness :
  GetValue [1; 2; 3; 4; 5; 6]%float initialized_two_on_one
  = Returns 303%float
      (set_Transform
         (Some (SetParameters identity_transform [1; 2; 3; 4; 5; 6]%float))
         initialized_two_on_one).
Proof.
  destruct (GetValue_sum initialized_two_on_one identity_transform fixed_A
              moving_2 [1; 2; 3; 4; 5; 6]%float
              eq_refl eq_refl eq_refl eq_refl)
    as (dists & Hrun & Hlen & Hterm).
  - intros [|[|i]] Hi; [vm_compute; eauto | vm_compute; eauto
                        | vm_compute in Hi; lia].
  - vm_compute. discriminate.
  - rewrite Hrun. f_equal.
    destruct dists as [|a [|b [|c dists]]]; try discriminate Hlen.
    pose proof (Hterm 0%nat (point_of_ints 1 0 0) (point_of_ints 0 0 0)
                  1%float 2%float 3%float
                  eq_refl eq_refl eq_refl eq_refl eq_refl) as Ha.
    pose proof (Hterm 1%nat (point_of_ints 11 0 0) (point_of_ints 0 0 0)
                  4%float 5%float 6%float
                  eq_refl eq_refl eq_refl eq_refl eq_refl) as Hb.
    injection Ha as ->. injection Hb as ->.
    vm_compute. reflexivity.
Defined.

Lemma ComputeTargetPosition_first_minimizer_witness :
  exists (s' : ThinShellDemonsMetric float) (k : nat) (f : Point float),
    ComputeTargetPosition never_assigned_point configured = Returns tt s' /\
    targetMap s' !! Z.of_nat 0 = Some f /\
    first_minimizer comparable_double
                    (TransformPoint identity_transform (point_of_ints 1 0 0))
                    (GetPoints fixed_AB) k f /\
    (SquaredEuclideanDistanceTo
       f (TransformPoint identity_transform (point_of_ints 1 0 0))
     <? nt_max)%D = true /\
    (SquaredEuclideanDistanceTo
       f (TransformPoint identity_transform (point_of_ints 1 0 0))
     <=? SquaredEuclideanDistanceTo
           (point_of_ints 10 0 0)
           (TransformPoint identity_transform (point_of_ints 1 0 0)))%float
    = true.
Proof.
  destruct (ComputeTargetPosition_first_minimizer never_assigned_point configured
              identity_transform fixed_AB moving_1 eq_refl eq_refl eq_refl)
    as (s' & Hrun & Hall).
  - vm_compute. discriminate.
  - destruct (Hall 0%nat (point_of_ints 1 0 0) eq_refl)
      as (k & f & Hlk & Hfirst & Hbelow & _ & Hleast).
    + exists 0%nat, (point_of_ints 0 0 0).
      split; [reflexivity | vm_compute; reflexivity].
    + exists s', k, f. repeat split; try assumption; try apply Hfirst.
      apply (Hleast 1%nat (point_of_ints 10 0 0) eq_refl).
      vm_compute. reflexivity.
Defined.

Lemma Initialize_unset_throws_witness :
  exists msg s',
    Initialize never_assigned_point (New (D:=float)) = Throws msg s' /\
    s' = New /\
    targetMap s' = targetMap (New (D:=float)) /\
    (m_TargetPositionComputed (New (D:=float)) = false ->
     m_TargetPositionComputed s' = false).
Proof.
  apply (Initialize_unset_throws never_assigned_point New).
  left. reflexivity.
Defined.

Lemma target_map_entries_witness :
  exists movingMesh : Mesh float,
    m_MovingMesh initialized = Some movingMesh /\
    size (targetMap (initialized (D:=float))) = GetNumberOfPoints movingMesh /\
    (forall k : Z,
        is_Some (targetMap (initialized (D:=float)) !! k)
        <-> 0 <= k < Z.of_nat (GetNumberOfPoints movingMesh)) /\
    (forall (calls : list call) (s'' : ThinShellDemonsMetric float),
        after_calls never_assigned_double calls initialized = Some s'' ->
        targetMap s'' = targetMap initialized).
Proof.
  apply (target_map_entries never_assigned_point never_assigned_double
           configured initialized).
  vm_compute. reflexivity.
Defined.

Lemma GetValue_never_negative_witness :
  GetValue [1; 2; 3; 4; 5; 6]%float initialized_two_on_one
  = Returns 303%float
      (set_Transform
         (Some (SetParameters identity_transform [1; 2; 3; 4; 5; 6]%float))
         initialized_two_on_one) /\
  (0 <=? 303)%float = true.
Proof.
  assert (Hrun : GetValue [1; 2; 3; 4; 5; 6]%float initialized_two_on_one
                 = Returns 303%float
                     (set_Transform
                        (Some (SetParameters identity_transform
                                 [1; 2; 3; 4; 5; 6]%float))
                        initialized_two_on_one))
    by (vm_compute; reflexivity).
  split; [exact Hrun|].
  apply (proj2 (GetValue_never_negative _ _ moving_2 _ _ Hrun)).
  - reflexivity.
  - intros j a Ha.
    do 6 (destruct j as [|j]; [injection Ha as <-; reflexivity|]).
    discriminate.
  - intros i v Hv.
    do 2 (destruct i as [|i];
          [injection Hv as <-; repeat split; vm_compute; reflexivity|]).
    discriminate.
  - intros k t Ht. simpl in Ht.
    apply lookup_insert_Some in Ht.
    destruct Ht as [[_ <-]|[_ Ht]];
      [repeat split; vm_compute; reflexivity|].
    apply lookup_singleton_Some in Ht. destruct Ht as [_ <-].
    repeat split; vm_compute; reflexivity.
Defined.

Lemma GetDerivative_ignores_parameters_witness :
  GetDerivative never_assigned_double [0; 0; 0]%float [] initialized
  = GetDerivative never_assigned_double [1; 2; 3]%float [] initialized.
Proof.
  apply (GetDerivative_ignores_parameters never_assigned_double initialized
           moving_1); reflexivity.
Defined.

Lemma ComputeTargetPosition_empty_fixed_mesh_witness :
  exists s' : ThinShellDemonsMetric float,
    ComputeTargetPosition never_assigned_point configured_empty_fixed
    = Returns tt s' /\
    m_TargetPositionComputed s' = true /\
    forall i : nat,
      (i < GetNumberOfPoints (moving_1 (D:=float)))%nat ->
      targetMap s' !! Z.of_nat i = Some (never_assigned_point (Z.of_nat i)).
Proof.
  apply (ComputeTargetPosition_empty_fixed_mesh never_assigned_point
           configured_empty_fixed identity_transform fixed_empty moving_1).
  - reflexivity.
  - reflexivity.
  - reflexivity.
  - reflexivity.
  - discriminate.
  - vm_compute. discriminate.
Defined.

Lemma evaluators_recheck_configuration_witness :
  ((exists msg, GetValue [] (New (D:=float)) = Throws msg New) /\
   (exists msg, GetDerivative never_assigned_double [] [] (New (D:=float))
                = Throws msg New)) /\
  ((exists msg, GetValue [0; 0; 0]%float (initialized_no_transform (D:=float))
                = Throws msg initialized_no_transform) /\
   (forall msg s',
       GetDerivative never_assigned_double [0; 0; 0]%float []
                     (initialized_no_transform (D:=float))
       <> Throws msg s')).
Proof.
  split.
  - destruct (evaluators_recheck_configuration never_assigned_double
                (New (D:=float)) [] []) as (Hvalue & Hderivative & _).
    split; [apply Hvalue | apply Hderivative]; left; reflexivity.
  - destruct (evaluators_recheck_configuration never_assigned_double
                (initialized_no_transform (D:=float)) [0; 0; 0]%float [])
      as (Hvalue & _ & Hquiet).
    split; [apply Hvalue; left; reflexivity|].
    apply Hquiet; discriminate.
Defined.

(** * Further properties: where the evaluators are defined *)

Section Domains.
Context {D : Type} `{NumericTraits D}.
Variable indeterminate_double : nat -> D.

(** What a returning loop of [GetValue] has needed of every vertex it
    visited: a target, three parameters, and indices that fit an [int]. *)
Lemma GetValue_loop_Returns_needs (parameters : list D) (points : list (Point D)) :
  forall (identifier : Z) (functionValue r : D) (s s' : ThinShellDemonsMetric D),
    0 <= identifier ->
    GetValue_loop parameters points identifier functionValue s = Returns r s' ->
    forall i : nat,
      (i < length points)%nat ->
      is_Some (targetMap s !! (identifier + Z.of_nat i)) /\
      (identifier + Z.of_nat i) * 3 + 2 <= INT_MAX /\
      (Z.to_nat ((identifier + Z.of_nat i) * 3 + 2) < length parameters)%nat.
Proof.
  induction points as [|value rest IH];
    intros identifier functionValue r s s' Hid Hr i Hi.
  - simpl in Hi. lia.
  - apply GetValue_loop_cons_Returns in Hr.
    destruct Hr as (vec & t & Hvec & Ht & Hr).
    apply read_vec_Returns in Hvec.
    destruct Hvec as (_ & Hmax & _ & _ & H2).
    destruct i as [|i].
    + replace (identifier + Z.of_nat 0) with identifier by lia.
      split; [eauto|]. split; [exact Hmax|].
      eapply lookup_lt_Some; eauto.
    + replace (identifier + Z.of_nat (S i)) with (identifier + 1 + Z.of_nat i)
        by lia.
      eapply IH; [|exact Hr|simpl in Hi; lia]. lia.
Qed.

Lemma GetDerivative_loop_Returns_needs (parameters : list D)
      (points : list (Point D)) :
  forall (identifier : Z) (derivative r : list D) (s s' : ThinShellDemonsMetric D),
    0 <= identifier ->
    GetDerivative_loop parameters points identifier derivative s = Returns r s' ->
    forall i : nat,
      (i < length points)%nat ->
      is_Some (targetMap s !! (identifier + Z.of_nat i)) /\
      (identifier + Z.of_nat i) * 3 + 2 <= INT_MAX /\
      (Z.to_nat ((identifier + Z.of_nat i) * 3 + 2) < length parameters)%nat /\
      (Z.to_nat ((identifier + Z.of_nat i) * 3 + 2) < length derivative)%nat.
Proof.
  induction points as [|value rest IH];
    intros identifier derivative r s s' Hid Hr i Hi.
  - simpl in Hi. lia.
  - apply GetDerivative_loop_cons_Returns in Hr.
    destruct Hr as (vec & t & Hvec & Ht & _ & Hlen & Hr).
    apply read_vec_Returns in Hvec.
    destruct Hvec as (_ & Hmax & _ & _ & H2).
    destruct i as [|i].
    + replace (identifier + Z.of_nat 0) with identifier by lia.
      split; [eauto|]. split; [exact Hmax|].
      split; [eapply lookup_lt_Some; eauto|exact Hlen].
    + replace (identifier + Z.of_nat (S i)) with (identifier + 1 + Z.of_nat i)
        by lia.
      destruct (IH (identifier + 1) _ r s s' ltac:(lia) Hr i
                   ltac:(simpl in Hi; lia)) as (Ht' & Hm' & Hp' & Hd').
      rewrite length_write_gradient in Hd'. auto.
Qed.

(** More moving vertices than fixed points: the buffer, sized from the
    fixed mesh, has no slots for the last moving vertices, and the writes of
    the first vertex without slots leave it. *)
Lemma GetDerivative_too_many_moving_points (s : ThinShellDemonsMetric D)
      (fixedMesh movingMesh : Mesh D) (parameters derivative : list D) :
  m_FixedMesh s = Some fixedMesh ->
  m_MovingMesh s = Some movingMesh ->
  (GetNumberOfPoints fixedMesh < GetNumberOfPoints movingMesh)%nat ->
  GetDerivative indeterminate_double parameters derivative s = Undefined.
Proof.
  intros Hfix Hmov Hmore.
  rewrite (GetDerivative_present _ fixedMesh movingMesh) by assumption.
  unfold GetNumberOfPoints in Hmore.
  destruct (reads_only_GetDerivative_loop parameters (GetPoints movingMesh) 0
              (replicate (length (GetPoints fixedMesh) * 3) ZeroValue) s)
    as [[r Hr]|Hu]; [|exact Hu].
  exfalso.
  pose proof (GetDerivative_loop_Returns_needs _ _ 0 _ _ _ _ (Z.le_refl 0) Hr
                (length (GetPoints fixedMesh)) Hmore) as (_ & _ & _ & Hlen).
  rewrite length_replicate in Hlen. lia.
Qed.

(** With the configuration present [GetValue] throws nothing; it returns a
    value exactly when there are at least [3 * N] parameters, every moving
    vertex has an entry in the target map and [3 * N - 1] fits an [int];
    otherwise its behaviour is undefined.  Neither the length of the
    parameter vector nor the targets-computed flag is checked. *)
Theorem GetValue_returns_iff (s : ThinShellDemonsMetric D)
        (transform : Transform D) (fixedMesh movingMesh : Mesh D)
        (parameters : list D) :
  m_Transform s = Some transform ->
  m_FixedMesh s = Some fixedMesh ->
  m_MovingMesh s = Some movingMesh ->
  ((exists value s', GetValue parameters s = Returns value s')
   <-> ((3 * GetNumberOfPoints movingMesh <= length parameters)%nat /\
        (forall i, (i < GetNumberOfPoints movingMesh)%nat ->
                   is_Some (targetMap s !! Z.of_nat i)) /\
        3 * Z.of_nat (GetNumberOfPoints movingMesh) <= INT_MAX + 1)) /\
  ((forall value s', GetValue parameters s <> Returns value s')
   -> GetValue parameters s = Undefined).
Proof.
  intros Htr Hfix Hmov.
  assert (Hloop : GetValue parameters s
                  = GetValue_loop parameters (GetPoints movingMesh) 0 ZeroValue
                      (set_Transform (Some (SetParameters transform parameters)) s)).
  { unfold GetValue. unfold bind at 1. unfold get at 1.
    rewrite Hfix, Hmov. unfold bind at 1.
    unfold SetTransformParameters, bind at 1, get at 1. rewrite Htr.
    reflexivity. }
  rewrite Hloop. unfold GetNumberOfPoints. split; [split|].
  - intros (value & s' & Hr).
    pose proof (GetValue_loop_Returns_needs _ _ 0 _ _ _ _ (Z.le_refl 0) Hr)
      as Hneeds.
    destruct (GetPoints movingMesh) as [|value0 rest] eqn:Hpts.
    + simpl. split; [lia|]. split; [intros i Hi; lia|].
      unfold INT_MAX. lia.
    + destruct (Hneeds (length rest) ltac:(simpl; lia)) as (_ & Hmax & Hlen).
      split; [simpl length; lia|]. split; [|simpl length; lia].
      intros i Hi. destruct (Hneeds i Hi) as (Ht & _ & _).
      simpl in Ht. replace (0 + Z.of_nat i) with (Z.of_nat i) in Ht by lia.
      exact Ht.
  - intros (Hlen & Htargets & Hmax).
    destruct (GetValue_loop_runs parameters (GetPoints movingMesh) 0 ZeroValue
                (set_Transform (Some (SetParameters transform parameters)) s))
      as (dists & Hrun & _).
    + lia.
    + lia.
    + lia.
    + intros i Hi. simpl. replace (0 + Z.of_nat i) with (Z.of_nat i) by lia.
      apply Htargets. exact Hi.
    + eauto.
  - intros Hnot.
    destruct (reads_only_GetValue_loop parameters (GetPoints movingMesh) 0
                ZeroValue
                (set_Transform (Some (SetParameters transform parameters)) s))
      as [[a Ha]|Hu]; [|exact Hu].
    exfalso. eapply Hnot. exact Ha.
Qed.

(** With both meshes present [GetDerivative] throws nothing; it returns
    exactly when there are at least [3 * N] parameters, every moving vertex
    has an entry in the target map, [3 * N - 1] fits an [int], and the moving
    mesh has no more points than the fixed mesh, whose size the buffer is
    given; otherwise its behaviour is undefined. *)
Theorem GetDerivative_returns_iff (s : ThinShellDemonsMetric D)
        (fixedMesh movingMesh : Mesh D) (parameters derivative : list D) :
  m_FixedMesh s = Some fixedMesh ->
  m_MovingMesh s = Some movingMesh ->
  ((exists r s', GetDerivative indeterminate_double parameters derivative s
                 = Returns r s')
   <-> ((3 * GetNumberOfPoints movingMesh <= length parameters)%nat /\
        (forall i, (i < GetNumberOfPoints movingMesh)%nat ->
                   is_Some (targetMap s !! Z.of_nat i)) /\
        3 * Z.of_nat (GetNumberOfPoints movingMesh) <= INT_MAX + 1 /\
        (GetNumberOfPoints movingMesh <= GetNumberOfPoints fixedMesh)%nat)) /\
  ((forall r s', GetDerivative indeterminate_double parameters derivative s
                 <> Returns r s')
   -> GetDerivative indeterminate_double parameters derivative s = Undefined).
Proof.
  intros Hfix Hmov.
  rewrite (GetDerivative_present _ fixedMesh movingMesh) by assumption.
  unfold GetNumberOfPoints. split; [split|].
  - intros (r & s' & Hr).
    pose proof (GetDerivative_loop_Returns_needs _ _ 0 _ _ _ _ (Z.le_refl 0) Hr)
      as Hneeds.
    destruct (GetPoints movingMesh) as [|value0 rest] eqn:Hpts.
    + simpl. split; [lia|]. split; [intros i Hi; lia|].
      split; [unfold INT_MAX|]; lia.
    + destruct (Hneeds (length rest) ltac:(simpl; lia))
        as (_ & Hmax & Hlen & Hdlen).
      rewrite length_replicate in Hdlen.
      split; [simpl length; lia|]. split; [|simpl length; lia].
      intros i Hi. destruct (Hneeds i Hi) as (Ht & _ & _).
      simpl in Ht. replace (0 + Z.of_nat i) with (Z.of_nat i) in Ht by lia.
      exact Ht.
  - intros (Hlen & Htargets & Hmax & Hle).
    destruct (GetDerivative_loop_runs parameters (GetPoints movingMesh) 0
                (replicate (length (GetPoints fixedMesh) * 3) ZeroValue) s)
      as [r Hr].
    + lia.
    + lia.
    + lia.
    + rewrite length_replicate. lia.
    + intros i Hi. replace (0 + Z.of_nat i) with (Z.of_nat i) by lia.
      apply Htargets. exact Hi.
    + eauto.
  - intros Hnot.
    destruct (reads_only_GetDerivative_loop parameters (GetPoints movingMesh) 0
                (replicate (length (GetPoints fixedMesh) * 3) ZeroValue) s)
      as [[a Ha]|Hu]; [|exact Hu].
    exfalso. eapply Hnot. exact Ha.
Qed.

End Domains.

(** * Further properties: what the evaluators depend on *)

Section Dependence.
Context {D : Type} `{NumericTraits D}.

Lemma reads_targetMap_only_ret {A} (a : A) :
  reads_targetMap_only (ret (S:=ThinShellDemonsMetric D) a).
Proof. intros s1 s2 _. left. exists a. split; reflexivity. Qed.

Lemma reads_targetMap_only_undefined {A} :
  reads_targetMap_only (undefined (S:=ThinShellDemonsMetric D) (A:=A)).
Proof. intros s1 s2 _. right. right. split; reflexivity. Qed.

Lemma reads_targetMap_only_bind {A B} (m : M (D:=D) A) (k : A -> M (D:=D) B) :
  reads_targetMap_only m -> (forall a, reads_targetMap_only (k a)) ->
  reads_targetMap_only (bind m k).
Proof.
  intros Hm Hk s1 s2 Hmap.
  destruct (Hm s1 s2 Hmap) as [(a & H1 & H2)|[(msg & H1 & H2)|[H1 H2]]];
    unfold bind; rewrite H1, H2.
  - apply Hk. exact Hmap.
  - right. left. exists msg. split; reflexivity.
  - right. right. split; reflexivity.
Qed.

Lemma reads_targetMap_only_int_result (z : Z) :
  reads_targetMap_only (int_result (S:=ThinShellDemonsMetric D) z).
Proof.
  unfold int_result. destruct ((INT_MIN <=? z) && (z <=? INT_MAX));
    [apply reads_targetMap_only_ret | apply reads_targetMap_only_undefined].
Qed.

Lemma reads_targetMap_only_vnl_get (v : list D) (i : Z) :
  reads_targetMap_only (vnl_get v i).
Proof.
  unfold vnl_get. destruct (i <? 0); [apply reads_targetMap_only_undefined|].
  destruct (v !! Z.to_nat i);
    [apply reads_targetMap_only_ret | apply reads_targetMap_only_undefined].
Qed.

Lemma reads_targetMap_only_vnl_put (v : list D) (i : Z) (a : D) :
  reads_targetMap_only (vnl_put v i a).
Proof.
  unfold vnl_put. destruct (i <? 0); [apply reads_targetMap_only_undefined|].
  destruct (decide (Z.to_nat i < length v)%nat);
    [apply reads_targetMap_only_ret | apply reads_targetMap_only_undefined].
Qed.

Lemma reads_targetMap_only_ElementAt (identifier : Z) :
  reads_targetMap_only (ElementAt (D:=D) identifier).
Proof.
  intros s1 s2 Hmap. unfold ElementAt, bind, get. rewrite Hmap.
  destruct (targetMap s2 !! identifier) as [t|].
  - left. exists t. split; reflexivity.
  - right. right. split; reflexivity.
Qed.

Ltac targets_only :=
  repeat first
    [ apply reads_targetMap_only_ret
    | apply reads_targetMap_only_undefined
    | apply reads_targetMap_only_int_result
    | apply reads_targetMap_only_vnl_get
    | apply reads_targetMap_only_vnl_put
    | apply reads_targetMap_only_ElementAt
    | assumption
    | apply reads_targetMap_only_bind; [|intros ?] ].

Lemma reads_targetMap_only_read_vec (parameters : list D) (identifier : Z) :
  reads_targetMap_only (read_vec parameters identifier).
Proof. unfold read_vec, int_mul, int_add. targets_only. Qed.

Lemma reads_targetMap_only_GetValue_loop (parameters : list D)
      (points : list (Point D)) :
  forall (identifier : Z) (functionValue : D),
    reads_targetMap_only
      (GetValue_loop parameters points identifier functionValue).
Proof.
  induction points as [|value rest IH]; intros identifier functionValue; simpl.
  - targets_only.
  - apply reads_targetMap_only_bind; [apply reads_targetMap_only_read_vec|].
    intros vec. unfold int_add. targets_only. apply IH.
Qed.

Lemma reads_targetMap_only_GetDerivative_loop (parameters : list D)
      (points : list (Point D)) :
  forall (identifier : Z) (derivative : list D),
    reads_targetMap_only
      (GetDerivative_loop parameters points identifier derivative).
Proof.
  induction points as [|value rest IH]; intros identifier derivative; simpl.
  - targets_only.
  - apply reads_targetMap_only_bind; [apply reads_targetMap_only_read_vec|].
    intros vec. unfold int_mul, int_add. targets_only. apply IH.
Qed.

Lemma GetDerivative_present_no_throw (indeterminate_double : nat -> D)
      (s : ThinShellDemonsMetric D) (parameters derivative : list D) :
  m_FixedMesh s <> None -> m_MovingMesh s <> None ->
  forall msg s',
    GetDerivative indeterminate_double parameters derivative s <> Throws msg s'.
Proof.
  intros Hfix Hmov msg s'.
  destruct (m_FixedMesh s) as [fixedMesh|] eqn:Hf; [|contradiction].
  destruct (m_MovingMesh s) as [movingMesh|] eqn:Hm; [|contradiction].
  rewrite (GetDerivative_present _ fixedMesh movingMesh) by assumption.
  apply reads_only_no_throw, reads_only_GetDerivative_loop.
Qed.

(** [GetDerivative] is determined by the moving mesh, the target map, the
    parameter vector and the number of points of the fixed mesh.  Two
    metrics that agree on these give the same outcome, whatever their
    transforms, their flags and the points of their fixed meshes, whatever
    the caller's buffers held and whatever a fresh allocation holds: nothing
    of the buffer that was passed in or of never-written storage reaches the
    output. *)
Theorem GetDerivative_depends_on_meshes_and_targets
        (indeterminate1 indeterminate2 : nat -> D)
        (s1 s2 : ThinShellDemonsMetric D) (fixedMesh1 fixedMesh2 : Mesh D)
        (parameters derivative1 derivative2 : list D) :
  m_FixedMesh s1 = Some fixedMesh1 ->
  m_FixedMesh s2 = Some fixedMesh2 ->
  GetNumberOfPoints fixedMesh1 = GetNumberOfPoints fixedMesh2 ->
  m_MovingMesh s1 = m_MovingMesh s2 ->
  targetMap s1 = targetMap s2 ->
  same_result (GetDerivative indeterminate1 parameters derivative1 s1)
              (GetDerivative indeterminate2 parameters derivative2 s2) s1 s2.
Proof.
  intros Hfix1 Hfix2 Hsize Hmov Hmap.
  destruct (m_MovingMesh s2) as [movingMesh|] eqn:Hmov2.
  - rewrite (GetDerivative_present _ fixedMesh1 movingMesh) by assumption.
    rewrite (GetDerivative_present _ fixedMesh2 movingMesh) by assumption.
    rewrite Hsize.
    apply reads_targetMap_only_GetDerivative_loop. exact Hmap.
  - right. left. unfold GetDerivative, bind, get, itkExceptionMacro.
    rewrite Hfix1, Hfix2, Hmov, Hmov2. eauto.
Qed.

(** [GetValue] never applies the transform and never looks at the fixed
    mesh: on two metrics that agree on the moving mesh and the target map,
    each with some transform and some fixed mesh, it returns one value, and
    all it changes is the parameters cached in each transform. *)
Theorem GetValue_bypasses_transform
        (s1 s2 : ThinShellDemonsMetric D) (transform1 transform2 : Transform D)
        (fixedMesh1 fixedMesh2 movingMesh : Mesh D) (parameters : list D) :
  m_Transform s1 = Some transform1 ->
  m_Transform s2 = Some transform2 ->
  m_FixedMesh s1 = Some fixedMesh1 ->
  m_FixedMesh s2 = Some fixedMesh2 ->
  m_MovingMesh s1 = Some movingMesh ->
  m_MovingMesh s2 = Some movingMesh ->
  targetMap s1 = targetMap s2 ->
  same_result (GetValue parameters s1) (GetValue parameters s2)
              (set_Transform (Some (SetParameters transform1 parameters)) s1)
              (set_Transform (Some (SetParameters transform2 parameters)) s2).
Proof.
  intros Htr1 Htr2 Hfix1 Hfix2 Hmov1 Hmov2 Hmap.
  assert (Hloop : forall s transform fixedMesh,
             m_Transform s = Some transform ->
             m_FixedMesh s = Some fixedMesh ->
             m_MovingMesh s = Some movingMesh ->
             GetValue parameters s
             = GetValue_loop parameters (GetPoints movingMesh) 0 ZeroValue
                 (set_Transform (Some (SetParameters transform parameters)) s)).
  { intros s transform fixedMesh Htr Hfix Hmov.
    unfold GetValue. unfold bind at 1. unfold get at 1.
    rewrite Hfix, Hmov. unfold bind at 1.
    unfold SetTransformParameters, bind at 1, get at 1. rewrite Htr.
    reflexivity. }
  rewrite (Hloop s1 transform1 fixedMesh1), (Hloop s2 transform2 fixedMesh2)
    by assumption.
  apply reads_targetMap_only_GetValue_loop. exact Hmap.
Qed.

(** [GetValueAndDerivative] gives what the two evaluators give when called
    separately on the same metric: it returns [(value, derivative)] exactly
    when [GetValue] returns [value] and [GetDerivative] returns
    [derivative], and it throws exactly what [GetValue] throws. *)
Theorem GetValueAndDerivative_separately
        (indeterminate_double : nat -> D) (s : ThinShellDemonsMetric D)
        (parameters derivative : list D) :
  (forall (value : D) (r : list D) (s' : ThinShellDemonsMetric D),
      GetValueAndDerivative indeterminate_double parameters derivative s
      = Returns (value, r) s'
      <-> GetValue parameters s = Returns value s' /\
          GetDerivative indeterminate_double parameters derivative s
          = Returns r s) /\
  (forall (msg : string) (s' : ThinShellDemonsMetric D),
      GetValueAndDerivative indeterminate_double parameters derivative s
      = Throws msg s'
      <-> GetValue parameters s = Throws msg s').
Proof.
  assert (Hsame : forall value s1,
             GetValue parameters s = Returns value s1 ->
             same_result
               (GetDerivative indeterminate_double parameters derivative s1)
               (GetDerivative indeterminate_double parameters derivative s)
               s1 s).
  { intros value s1 Hv.
    assert (Hfin : final_state (GetValue parameters s) = Some s1)
      by (rewrite Hv; reflexivity).
    apply GetValue_frame in Hfin. destruct Hfin as (Hf & Hm & Ht & _).
    revert Hv. unfold GetValue, bind at 1, get at 1, itkExceptionMacro.
    destruct (m_FixedMesh s) as [fixedMesh|] eqn:Hfix; [|discriminate].
    destruct (m_MovingMesh s) as [movingMesh|] eqn:Hmov; [|discriminate].
    intros _.
    rewrite !(GetDerivative_present _ fixedMesh movingMesh) by congruence.
    apply reads_targetMap_only_GetDerivative_loop. exact Ht. }
  assert (Hpresent : forall value s1,
             GetValue parameters s = Returns value s1 ->
             m_FixedMesh s <> None /\ m_MovingMesh s <> None).
  { intros value s1. unfold GetValue, bind, get, itkExceptionMacro.
    destruct (m_FixedMesh s); [|discriminate].
    destruct (m_MovingMesh s); [|discriminate]. split; discriminate. }
  unfold GetValueAndDerivative. split.
  - intros value r s'. split.
    + intros Hr. apply bind_Returns in Hr.
      destruct Hr as (value' & s1 & Hv & Hr).
      apply bind_Returns in Hr. destruct Hr as (r' & s2 & Hd & Hr).
      unfold ret in Hr. inversion Hr; subst value' r' s2.
      assert (s' = s1).
      { apply (GetDerivative_frame indeterminate_double parameters derivative).
        rewrite Hd. reflexivity. }
      subst s'. split; [exact Hv|].
      destruct (Hsame value s1 Hv)
        as [(a & H1 & H2)|[(msg & H1 & H2)|[H1 H2]]]; congruence.
    + intros [Hv Hd].
      rewrite (bind_of_Returns _ _ _ _ _ Hv).
      destruct (Hsame value s' Hv)
        as [(a & H1 & H2)|[(msg & H1 & H2)|[H1 H2]]]; try congruence.
      assert (a = r) by congruence. subst a.
      rewrite (bind_of_Returns _ _ _ _ _ H1). reflexivity.
  - intros msg s'. split.
    + intros Hr. apply bind_Throws in Hr.
      destruct Hr as [Hv|(value & s1 & Hv & Hr)]; [exact Hv|].
      exfalso. apply bind_Throws in Hr.
      destruct Hr as [Hd|(r & s2 & _ & Hr)]; [|discriminate].
      destruct (Hpresent value s1 Hv) as [Hf Hm].
      destruct (Hsame value s1 Hv)
        as [(a & H1 & H2)|[(msg' & H1 & H2)|[H1 H2]]]; try congruence.
      destruct (GetDerivative_present_no_throw indeterminate_double s parameters
                  derivative Hf Hm msg' s H2).
    + intros Hv. unfold bind. rewrite Hv. reflexivity.
Qed.

End Dependence.

(** * Further properties: the correspondence builder *)

Section Builder.
Context {D : Type} `{NumericTraits D}.

Lemma ComputeTargetPosition_loop_null_transform
      (indeterminate_point : Z -> Point D) (fixedMesh : Mesh D)
      (value : Point D) (rest : list (Point D)) (identifier : Z)
      (s : ThinShellDemonsMetric D) :
  m_Transform s = None ->
  ComputeTargetPosition_loop indeterminate_point fixedMesh (value :: rest)
                             identifier s
  = Undefined.
Proof.
  intros Htr. cbn [ComputeTargetPosition_loop].
  unfold bind at 1. unfold deref_Transform.
  unfold bind at 1. unfold get. rewrite Htr. reflexivity.
Qed.

(** A returning outer loop has kept its counter within [int]. *)
Lemma ComputeTargetPosition_loop_Returns_needs
      (indeterminate_point : Z -> Point D) (transform : Transform D)
      (fixedMesh : Mesh D) (points : list (Point D)) :
  forall (identifier : Z) (s s' : ThinShellDemonsMetric D) (u : unit),
    m_Transform s = Some transform ->
    ComputeTargetPosition_loop indeterminate_point fixedMesh points identifier s
    = Returns u s' ->
    points = [] \/ identifier + Z.of_nat (length points) <= INT_MAX.
Proof.
  induction points as [|value rest IH]; intros identifier s s' u Htr Hr.
  - left. reflexivity.
  - right.
    rewrite (ComputeTargetPosition_loop_cons _ transform) in Hr by exact Htr.
    apply bind_Returns in Hr. destruct Hr as (identifier' & s1 & Hi & Hr).
    apply int_result_Returns in Hi. destruct Hi as (-> & -> & Hrange).
    apply IH in Hr; [|exact Htr].
    destruct Hr as [->|Hr]; simpl length; lia.
Qed.

Lemma ComputeTargetPosition_present_outcome
      (indeterminate_point : Z -> Point D) (s : ThinShellDemonsMetric D)
      (fixedMesh movingMesh : Mesh D) :
  m_FixedMesh s = Some fixedMesh ->
  m_MovingMesh s = Some movingMesh ->
  (exists s', ComputeTargetPosition indeterminate_point s = Returns tt s') \/
  ComputeTargetPosition indeterminate_point s = Undefined.
Proof.
  intros Hfix Hmov.
  destruct (m_Transform s) as [transform|] eqn:Htr.
  - destruct (ComputeTargetPosition_cases indeterminate_point transform
                fixedMesh movingMesh s Htr Hfix Hmov) as [Hr|Hu]; eauto.
  - rewrite (ComputeTargetPosition_present _ fixedMesh movingMesh)
      by assumption.
    destruct (GetPoints movingMesh) as [|value rest] eqn:Hpts.
    + left. eexists. reflexivity.
    + right. apply bind_of_Undefined.
      apply ComputeTargetPosition_loop_null_transform. exact Htr.
Qed.

Lemma ComputeTargetPosition_present_no_throw
      (indeterminate_point : Z -> Point D) (s : ThinShellDemonsMetric D)
      (fixedMesh movingMesh : Mesh D) :
  m_FixedMesh s = Some fixedMesh ->
  m_MovingMesh s = Some movingMesh ->
  forall msg s', ComputeTargetPosition indeterminate_point s <> Throws msg s'.
Proof.
  intros Hfix Hmov msg s' Hthrows.
  destruct (ComputeTargetPosition_present_outcome indeterminate_point s
              fixedMesh movingMesh Hfix Hmov) as [(s0 & Hr)|Hu]; congruence.
Qed.

(** A returning [ComputeTargetPosition] met a transform, unless the moving
    mesh was empty, and no more moving points than an [int] counts. *)
Lemma ComputeTargetPosition_Returns_needs
      (indeterminate_point : Z -> Point D) (s s' : ThinShellDemonsMetric D)
      (fixedMesh movingMesh : Mesh D) :
  m_FixedMesh s = Some fixedMesh ->
  m_MovingMesh s = Some movingMesh ->
  ComputeTargetPosition indeterminate_point s = Returns tt s' ->
  (GetPoints movingMesh = [] \/ is_Some (m_Transform s)) /\
  Z.of_nat (GetNumberOfPoints movingMesh) <= INT_MAX.
Proof.
  intros Hfix Hmov Hr.
  rewrite (ComputeTargetPosition_present _ fixedMesh movingMesh) in Hr
    by assumption.
  unfold GetNumberOfPoints.
  apply bind_Returns in Hr. destruct Hr as (u & s1 & Hloop & _).
  destruct (m_Transform s) as [transform|] eqn:Htr.
  - apply (ComputeTargetPosition_loop_Returns_needs _ transform) in Hloop;
      [|exact Htr].
    split; [right; eauto|].
    destruct Hloop as [->|Hle]; [simpl; unfold INT_MAX|]; lia.
  - destruct (GetPoints movingMesh) as [|value rest] eqn:Hpts.
    + split; [left; reflexivity|]. simpl. unfold INT_MAX. lia.
    + rewrite ComputeTargetPosition_loop_null_transform in Hloop
        by exact Htr.
      discriminate.
Qed.

(** With both meshes present [ComputeTargetPosition] throws nothing.  It
    returns exactly when the moving mesh is empty or the transform is set,
    and the number of moving points fits the [int] counter; the transform is
    not checked here, so a non-empty moving mesh with a null transform is a
    null dereference. *)
Theorem ComputeTargetPosition_returns_iff
        (indeterminate_point : Z -> Point D) (s : ThinShellDemonsMetric D)
        (fixedMesh movingMesh : Mesh D) :
  m_FixedMesh s = Some fixedMesh ->
  m_MovingMesh s = Some movingMesh ->
  ((exists s', ComputeTargetPosition indeterminate_point s = Returns tt s')
   <-> ((GetPoints movingMesh = [] \/ is_Some (m_Transform s)) /\
        Z.of_nat (GetNumberOfPoints movingMesh) <= INT_MAX)) /\
  ((forall s', ComputeTargetPosition indeterminate_point s <> Returns tt s')
   -> ComputeTargetPosition indeterminate_point s = Undefined).
Proof.
  intros Hfix Hmov. split; [split|].
  - intros (s' & Hr).
    exact (ComputeTargetPosition_Returns_needs _ _ _ _ _ Hfix Hmov Hr).
  - intros [[Hempty|[transform Htr]] Hmax].
    + rewrite (ComputeTargetPosition_present _ fixedMesh movingMesh)
        by assumption.
      rewrite Hempty. eexists. reflexivity.
    + eexists.
      apply (ComputeTargetPosition_runs _ transform fixedMesh movingMesh);
        assumption.
  - intros Hnot.
    destruct (ComputeTargetPosition_present_outcome indeterminate_point s
                fixedMesh movingMesh Hfix Hmov) as [(s' & Hr)|Hu];
      [|exact Hu].
    exfalso. exact (Hnot s' Hr).
Qed.

(** When [ComputeTargetPosition] returns it has left the transform and the
    meshes alone and set the flag, and what it returns does not depend on
    the map and the flag it found: the map is rebuilt from empty. *)
Theorem ComputeTargetPosition_rebuilds
        (indeterminate_point : Z -> Point D) (s s' : ThinShellDemonsMetric D) :
  ComputeTargetPosition indeterminate_point s = Returns tt s' ->
  m_Transform s' = m_Transform s /\
  m_FixedMesh s' = m_FixedMesh s /\
  m_MovingMesh s' = m_MovingMesh s /\
  m_TargetPositionComputed s' = true /\
  forall (m0 : gmap Z (Point D)) (b : bool),
    ComputeTargetPosition indeterminate_point
      (set_targetMap m0 (set_TargetPositionComputed b s))
    = Returns tt s'.
Proof.
  intros Hr.
  destruct (m_FixedMesh s) as [fixedMesh|] eqn:Hfix;
    [|unfold ComputeTargetPosition, bind, get, itkExceptionMacro in Hr;
      rewrite Hfix in Hr; discriminate].
  destruct (m_MovingMesh s) as [movingMesh|] eqn:Hmov;
    [|unfold ComputeTargetPosition, bind, get, itkExceptionMacro in Hr;
      rewrite Hfix, Hmov in Hr; discriminate].
  destruct (m_Transform s) as [transform|] eqn:Htr.
  - destruct (ComputeTargetPosition_cases indeterminate_point transform
                fixedMesh movingMesh s Htr Hfix Hmov) as [Hr'|Hu];
      [|congruence].
    rewrite Hr' in Hr. inversion Hr; subst s'. clear Hr.
    repeat split; try assumption.
    intros m0 b.
    destruct (ComputeTargetPosition_cases indeterminate_point transform
                fixedMesh movingMesh
                (set_targetMap m0 (set_TargetPositionComputed b s))
                Htr Hfix Hmov) as [Hr2|Hu2].
    + rewrite Hr2. reflexivity.
    + exfalso.
      destruct (ComputeTargetPosition_Returns_needs indeterminate_point s _
                  fixedMesh movingMesh Hfix Hmov Hr') as [_ Hmax].
      rewrite (ComputeTargetPosition_runs indeterminate_point transform
                 fixedMesh movingMesh) in Hu2 by assumption.
      discriminate.
  - rewrite (ComputeTargetPosition_present _ fixedMesh movingMesh) in Hr
      by assumption.
    destruct (GetPoints movingMesh) as [|value rest] eqn:Hpts.
    + simpl in Hr. unfold bind, ret, get, put in Hr.
      inversion Hr; subst s'. clear Hr.
      repeat split; try assumption.
      intros m0 b.
      rewrite (ComputeTargetPosition_present _ fixedMesh movingMesh)
        by assumption.
      rewrite Hpts. reflexivity.
    + assert (Hu : ComputeTargetPosition_loop indeterminate_point fixedMesh
                     (value :: rest) 0 (set_targetMap ∅ s) = Undefined)
        by (apply ComputeTargetPosition_loop_null_transform; exact Htr).
      rewrite (bind_of_Undefined _ _ _ Hu) in Hr.
      discriminate.
Qed.

End Builder.

(** * Further properties: the storage the scan starts from *)

Section Storage.
Context {D : Type} `{NumericTraits D}.

(** Once some fixed point is below the bound, the candidate the scan
    started from is gone. *)
Lemma closest_scan_any_start (p : Point D) (fixedPoints : list (Point D)) :
  forall (t1 t2 : Point D) (m0 : D),
    (exists (j : nat) (g : Point D),
        fixedPoints !! j = Some g /\
        (SquaredEuclideanDistanceTo g p <? m0)%D = true) ->
    closest_scan p fixedPoints t1 m0 = closest_scan p fixedPoints t2 m0.
Proof.
  induction fixedPoints as [|f0 rest IH]; intros t1 t2 m0 (j & g & Hj & Hlt).
  - discriminate.
  - cbn [closest_scan].
    destruct (SquaredEuclideanDistanceTo f0 p <? m0)%D eqn:Hf0; [reflexivity|].
    destruct j as [|j]; simpl in Hj.
    + inversion Hj; subst. congruence.
    + apply IH. exists j, g. auto.
Qed.

Lemma insert_targets_any_storage (indeterminate1 indeterminate2 : Z -> Point D)
      (transform : Transform D) (fixedMesh : Mesh D) (points : list (Point D)) :
  (forall (i : nat) (v : Point D),
      points !! i = Some v -> has_point_below_bound transform fixedMesh v) ->
  forall (identifier : Z) (m : gmap Z (Point D)),
    insert_targets indeterminate1 transform fixedMesh points identifier m
    = insert_targets indeterminate2 transform fixedMesh points identifier m.
Proof.
  induction points as [|value rest IH]; intros Hbelow identifier m.
  - reflexivity.
  - cbn [insert_targets].
    assert (Hc : closest indeterminate1 transform fixedMesh identifier value
                 = closest indeterminate2 transform fixedMesh identifier value).
    { unfold closest. f_equal. apply closest_scan_any_start.
      rewrite CastFrom_id. exact (Hbelow 0%nat value eq_refl). }
    rewrite Hc. apply IH.
    intros i v Hv. exact (Hbelow (S i) v Hv).
Qed.

(** When every moving vertex has a fixed point below the scan's initial
    bound, [ComputeTargetPosition] does not depend on what the never
    initialised local [targetPoint] holds: every stored target was assigned
    inside the scan. *)
Theorem ComputeTargetPosition_storage_independent
        (indeterminate1 indeterminate2 : Z -> Point D)
        (s : ThinShellDemonsMetric D) (transform : Transform D)
        (fixedMesh movingMesh : Mesh D) :
  m_Transform s = Some transform ->
  m_FixedMesh s = Some fixedMesh ->
  m_MovingMesh s = Some movingMesh ->
  (forall (i : nat) (v : Point D),
      GetPoints movingMesh !! i = Some v ->
      has_point_below_bound transform fixedMesh v) ->
  ComputeTargetPosition indeterminate1 s = ComputeTargetPosition indeterminate2 s.
Proof.
  intros Htr Hfix Hmov Hbelow.
  destruct (ComputeTargetPosition_cases indeterminate1 transform fixedMesh
              movingMesh s Htr Hfix Hmov) as [Hr1|Hu1];
    destruct (ComputeTargetPosition_cases indeterminate2 transform fixedMesh
                movingMesh s Htr Hfix Hmov) as [Hr2|Hu2].
  - rewrite Hr1, Hr2. unfold targets_computed.
    rewrite (insert_targets_any_storage indeterminate1 indeterminate2
               transform fixedMesh (GetPoints movingMesh) Hbelow).
    reflexivity.
  - exfalso.
    destruct (ComputeTargetPosition_Returns_needs indeterminate1 s _ fixedMesh
                movingMesh Hfix Hmov Hr1) as [_ Hmax].
    rewrite (ComputeTargetPosition_runs indeterminate2 transform fixedMesh
               movingMesh) in Hu2 by assumption.
    discriminate.
  - exfalso.
    destruct (ComputeTargetPosition_Returns_needs indeterminate2 s _ fixedMesh
                movingMesh Hfix Hmov Hr2) as [_ Hmax].
    rewrite (ComputeTargetPosition_runs indeterminate1 transform fixedMesh
               movingMesh) in Hu1 by assumption.
    discriminate.
  - congruence.
Qed.

(** A source that has just been updated delivers the same output again. *)
Lemma UpdateSource_idempotent (m : Mesh D) :
  snd (UpdateSource m) = None ->
  UpdateSource (fst (UpdateSource m)) = (fst (UpdateSource m), None).
Proof.
  unfold UpdateSource, Update.
  destruct (GetSource m) as [[points|msg points]|] eqn:Hsrc; simpl;
    intros Hok; try discriminate.
  - reflexivity.
  - rewrite Hsrc. reflexivity.
Qed.

Lemma Initialize_Returns_bound (indeterminate_point : Z -> Point D)
      (s s' : ThinShellDemonsMetric D) (movingMesh : Mesh D) :
  m_MovingMesh s = Some movingMesh ->
  Initialize indeterminate_point s = Returns tt s' ->
  Z.of_nat (GetNumberOfPoints (fst (UpdateSource movingMesh))) <= INT_MAX.
Proof.
  intros Hmov Hr.
  destruct (Initialize_Returns _ _ _ _ Hr)
    as (transform & fixedMesh & movingMesh' & Htr & Hfix & Hmov' & Hm & Hf & _).
  rewrite Hmov in Hmov'. inversion Hmov'; subst movingMesh'.
  rewrite (Initialize_updated _ transform fixedMesh movingMesh) in Hr
    by assumption.
  exact (proj2 (ComputeTargetPosition_Returns_needs indeterminate_point
                  (sources_updated fixedMesh movingMesh s) s'
                  (fst (UpdateSource fixedMesh)) (fst (UpdateSource movingMesh))
                  eq_refl eq_refl Hr)).
Qed.

(** [Initialize] returns exactly when the transform and both meshes are
    set, neither mesh has a source whose [Update()] throws, and the moving
    mesh, as its source regenerates it, has no more points than the [int]
    counter of the outer loop can count; with all the rest in place and more
    points than that, the counter overflows. *)
Theorem Initialize_returns_iff (indeterminate_point : Z -> Point D)
        (s : ThinShellDemonsMetric D) :
  ((exists s', Initialize indeterminate_point s = Returns tt s')
   <-> (exists transform fixedMesh movingMesh,
           m_Transform s = Some transform /\
           m_FixedMesh s = Some fixedMesh /\
           m_MovingMesh s = Some movingMesh /\
           snd (UpdateSource movingMesh) = None /\
           snd (UpdateSource fixedMesh) = None /\
           Z.of_nat (GetNumberOfPoints (fst (UpdateSource movingMesh)))
           <= INT_MAX)) /\
  (forall transform fixedMesh movingMesh,
      m_Transform s = Some transform ->
      m_FixedMesh s = Some fixedMesh ->
      m_MovingMesh s = Some movingMesh ->
      snd (UpdateSource movingMesh) = None ->
      snd (UpdateSource fixedMesh) = None ->
      INT_MAX < Z.of_nat (GetNumberOfPoints (fst (UpdateSource movingMesh))) ->
      Initialize indeterminate_point s = Undefined).
Proof.
  split; [split|].
  - intros (s' & Hr).
    destruct (Initialize_Returns _ _ _ _ Hr)
      as (transform & fixedMesh & movingMesh & Htr & Hfix & Hmov & Hm & Hf & _).
    exists transform, fixedMesh, movingMesh.
    repeat split; try assumption.
    exact (Initialize_Returns_bound _ _ _ _ Hmov Hr).
  - intros (transform & fixedMesh & movingMesh
            & Htr & Hfix & Hmov & Hm & Hf & Hmax).
    rewrite (Initialize_updated _ transform fixedMesh movingMesh) by assumption.
    eexists.
    apply (ComputeTargetPosition_runs indeterminate_point transform
             (fst (UpdateSource fixedMesh)) (fst (UpdateSource movingMesh)));
      [exact Htr|reflexivity|reflexivity|exact Hmax].
  - intros transform fixedMesh movingMesh Htr Hfix Hmov Hm Hf Hmax.
    rewrite (Initialize_updated _ transform fixedMesh movingMesh) by assumption.
    destruct (ComputeTargetPosition_cases indeterminate_point transform
                (fst (UpdateSource fixedMesh)) (fst (UpdateSource movingMesh))
                (sources_updated fixedMesh movingMesh s) Htr eq_refl eq_refl)
      as [Hr|Hu]; [|exact Hu].
    exfalso.
    rewrite <- (Initialize_updated _ transform fixedMesh movingMesh) in Hr
      by assumption.
    pose proof (Initialize_Returns_bound _ _ _ _ Hmov Hr). lia.
Qed.

(** A second [Initialize] on the metric a first one returned changes
    nothing, whatever the uninitialised storage holds this time, provided
    every moving vertex has a fixed point below the scan's initial bound:
    the sources are already up to date and the scan finds the same
    targets. *)
Theorem Initialize_idempotent (indeterminate1 indeterminate2 : Z -> Point D)
        (s s' : ThinShellDemonsMetric D)
        (transform : Transform D) (fixedMesh movingMesh : Mesh D) :
  Initialize indeterminate1 s = Returns tt s' ->
  m_Transform s' = Some transform ->
  m_FixedMesh s' = Some fixedMesh ->
  m_MovingMesh s' = Some movingMesh ->
  (forall (i : nat) (v : Point D),
      GetPoints movingMesh !! i = Some v ->
      has_point_below_bound transform fixedMesh v) ->
  Initialize indeterminate2 s' = Returns tt s'.
Proof.
  intros Hinit Htr' Hfix' Hmov' Hbelow.
  destruct (Initialize_Returns _ _ _ _ Hinit)
    as (transform0 & fixedMesh0 & movingMesh0
        & Htr & Hfix & Hmov & Hm & Hf & Hs').
  pose proof (Initialize_Returns_bound _ _ _ _ Hmov Hinit) as Hmax.
  assert (Et : transform = transform0)
    by (rewrite Hs' in Htr'; simpl in Htr'; congruence).
  assert (Ef : fixedMesh = fst (UpdateSource fixedMesh0))
    by (rewrite Hs' in Hfix'; simpl in Hfix'; congruence).
  assert (Em : movingMesh = fst (UpdateSource movingMesh0))
    by (rewrite Hs' in Hmov'; simpl in Hmov'; congruence).
  subst transform fixedMesh movingMesh.
  pose proof (UpdateSource_idempotent _ Hm) as Hm2.
  pose proof (UpdateSource_idempotent _ Hf) as Hf2.
  rewrite (Initialize_updated _ transform0 (fst (UpdateSource fixedMesh0))
             (fst (UpdateSource movingMesh0)))
    by (try assumption; rewrite ?Hm2, ?Hf2; reflexivity).
  rewrite (ComputeTargetPosition_runs indeterminate2 transform0
             (fst (UpdateSource (fst (UpdateSource fixedMesh0))))
             (fst (UpdateSource (fst (UpdateSource movingMesh0)))));
    [|exact Htr'|reflexivity|reflexivity
     |rewrite Hm2; exact Hmax].
  f_equal. rewrite Hs'. unfold targets_computed, sources_updated.
  rewrite Hm2, Hf2. simpl fst.
  rewrite (insert_targets_any_storage indeterminate2 indeterminate1
             transform0 (fst (UpdateSource fixedMesh0))
             (GetPoints (fst (UpdateSource movingMesh0))) Hbelow).
  reflexivity.
Qed.

End Storage.

(** * Further properties: what the entry points throw *)

Section Throws.
Context {D : Type} `{NumericTraits D}.
Variable indeterminate_point : Z -> Point D.

(** [ComputeTargetPosition] throws exactly when a mesh is missing: the
    fixed mesh is asked for first, the message names the missing mesh, and
    the metric is left as it was. *)
Theorem ComputeTargetPosition_throws_iff (s s' : ThinShellDemonsMetric D)
        (msg : string) :
  ComputeTargetPosition indeterminate_point s = Throws msg s'
  <-> s' = s /\
      ((m_FixedMesh s = None /\
        msg = "Fixed point set has not been assigned"%string) \/
       (m_FixedMesh s <> None /\ m_MovingMesh s = None /\
        msg = "Moving point set has not been assigned"%string)).
Proof.
  destruct (m_FixedMesh s) as [fixedMesh|] eqn:Hfix.
  - destruct (m_MovingMesh s) as [movingMesh|] eqn:Hmov.
    + split.
      * intros Hthrows. exfalso.
        exact (ComputeTargetPosition_present_no_throw indeterminate_point s
                 fixedMesh movingMesh Hfix Hmov msg s' Hthrows).
      * intros [_ [[Hnone _]|(_ & Hnone & _)]]; discriminate.
    + unfold ComputeTargetPosition, bind, get, itkExceptionMacro.
      rewrite Hfix, Hmov. split.
      * intros Heq. inversion Heq; subst. split; [reflexivity|].
        right. repeat split. discriminate.
      * intros [-> [[Hnone _]|(_ & _ & ->)]]; [discriminate|reflexivity].
  - unfold ComputeTargetPosition, bind, get, itkExceptionMacro.
    rewrite Hfix. split.
    + intros Heq. inversion Heq; subst. split; [reflexivity|].
      left. split; reflexivity.
    + intros [-> [[_ ->]|(Hsome & _)]]; [reflexivity|contradiction].
Qed.

(** [Initialize] throws in exactly these cases.  The transform or a mesh
    is missing: the transform is checked first, then the moving mesh, then
    the fixed mesh, the message names the first one missing and the metric
    is left as it was.  Or everything is set and a source's [Update()]
    throws: the moving mesh's source is updated first, its exception leaves
    the call with the moving mesh as the failed update left it; the fixed
    mesh's source is updated next, and its exception finds the moving mesh
    already regenerated.  The mesh checks of [ComputeTargetPosition] never
    fire from here. *)
Theorem Initialize_throws_iff (s s' : ThinShellDemonsMetric D) (msg : string) :
  Initialize indeterminate_point s = Throws msg s'
  <-> (s' = s /\
       ((m_Transform s = None /\ msg = "Transform is not present"%string) \/
        (m_Transform s <> None /\ m_MovingMesh s = None /\
         msg = "MovingMesh is not present"%string) \/
        (m_Transform s <> None /\ m_MovingMesh s <> None /\
         m_FixedMesh s = None /\ msg = "FixedMesh is not present"%string))) \/
      (exists transform fixedMesh movingMesh,
          m_Transform s = Some transform /\
          m_FixedMesh s = Some fixedMesh /\
          m_MovingMesh s = Some movingMesh /\
          ((snd (UpdateSource movingMesh) = Some msg /\
            s' = set_MovingMesh (Some (fst (UpdateSource movingMesh))) s) \/
           (snd (UpdateSource movingMesh) = None /\
            snd (UpdateSource fixedMesh) = Some msg /\
            s' = sources_updated fixedMesh movingMesh s))).
Proof.
  destruct (m_Transform s) as [transform|] eqn:Htr.
  - destruct (m_MovingMesh s) as [movingMesh|] eqn:Hmov.
    + destruct (m_FixedMesh s) as [fixedMesh|] eqn:Hfix.
      * rewrite (Initialize_present _ transform fixedMesh movingMesh)
          by assumption.
        split.
        -- intros Hthrows. right. exists transform, fixedMesh, movingMesh.
           repeat split.
           destruct (snd (UpdateSource movingMesh)) as [msgm|] eqn:Hm.
           ++ inversion Hthrows; subst. left. split; reflexivity.
           ++ destruct (snd (UpdateSource fixedMesh)) as [msgf|] eqn:Hf.
              ** inversion Hthrows; subst. right. repeat split.
              ** exfalso.
                 exact (ComputeTargetPosition_present_no_throw
                          indeterminate_point
                          (sources_updated fixedMesh movingMesh s)
                          (fst (UpdateSource fixedMesh))
                          (fst (UpdateSource movingMesh))
                          eq_refl eq_refl msg s' Hthrows).
        -- intros [[_ [[Hnone _]|[(_ & Hnone & _)|(_ & _ & Hnone & _)]]]
                  |(transform' & fixedMesh' & movingMesh'
                    & _ & Ef & Em & Hcase)];
             try discriminate.
           inversion Ef; inversion Em; subst fixedMesh' movingMesh'.
           destruct Hcase as [[Hm ->]|(Hm & Hf & ->)].
           ++ rewrite Hm. reflexivity.
           ++ rewrite Hm, Hf. reflexivity.
      * unfold Initialize, bind, get, itkExceptionMacro.
        rewrite Htr, Hmov, Hfix. split.
        -- intros Heq. inversion Heq; subst. left. split; [reflexivity|].
           right. right. repeat split; discriminate.
        -- intros [[-> [[Hnone _]|[(_ & Hnone & _)|(_ & _ & _ & ->)]]]
                  |(transform' & fixedMesh' & movingMesh' & _ & Ef & _)];
             [discriminate|discriminate|reflexivity|discriminate].
    + unfold Initialize, bind, get, itkExceptionMacro.
      rewrite Htr, Hmov. split.
      * intros Heq. inversion Heq; subst. left. split; [reflexivity|].
        right. left. repeat split. discriminate.
      * intros [[-> [[Hnone _]|[(_ & _ & ->)|(_ & Hsome & _)]]]
                |(transform' & fixedMesh' & movingMesh' & _ & _ & Em & _)];
          [discriminate|reflexivity|contradiction|discriminate].
  - unfold Initialize, bind, get, itkExceptionMacro.
    rewrite Htr. split.
    + intros Heq. inversion Heq; subst. left. split; [reflexivity|].
      left. split; reflexivity.
    + intros [[-> [[_ ->]|[(Hsome & _)|(Hsome & _)]]]
              |(transform' & fixedMesh' & movingMesh' & Et & _)];
        [reflexivity|contradiction|contradiction|discriminate].
Qed.

End Throws.

(** * Further properties: an empty moving mesh *)

Section EmptyMovingMesh.
Context {D : Type} `{NumericTraits D}.

(** With a moving mesh of no points the loops are never entered:
    [ComputeTargetPosition] leaves an empty map and sets the flag without
    touching the transform pointer, even a null one; [GetDerivative] returns
    a buffer of [3 * (number of fixed points)] zeros; and neither looks at
    the parameters or at the fixed points. *)
Theorem empty_moving_mesh (indeterminate_point : Z -> Point D)
        (indeterminate_double : nat -> D) (s : ThinShellDemonsMetric D)
        (fixedMesh movingMesh : Mesh D) (parameters derivative : list D) :
  m_FixedMesh s = Some fixedMesh ->
  m_MovingMesh s = Some movingMesh ->
  GetPoints movingMesh = [] ->
  ComputeTargetPosition indeterminate_point s
  = Returns tt (set_TargetPositionComputed true (set_targetMap ∅ s)) /\
  GetDerivative indeterminate_double parameters derivative s
  = Returns (replicate (3 * GetNumberOfPoints fixedMesh) ZeroValue) s.
Proof.
  intros Hfix Hmov Hempty. split.
  - rewrite (ComputeTargetPosition_present _ fixedMesh movingMesh)
      by assumption.
    rewrite Hempty. reflexivity.
  - rewrite (GetDerivative_present _ fixedMesh movingMesh) by assumption.
    rewrite Hempty. simpl. unfold ret. do 2 f_equal. lia.
Qed.

End EmptyMovingMesh.

(** * Further properties: the targets of the scan, on IEEE binary64 *)

Lemma double_lt_comparable (a b : float) :
  (a <? b)%D = true -> comparable_double a.
Proof.
  unfold comparable_double. simpl.
  rewrite is_nan_spec, FloatAxioms.ltb_spec, SFltb_lex. tauto.
Qed.

(** For each moving vertex, one of two things is stored.  Either some
    fixed point lies below [NumericTraits<double>::max()]: then the target
    is a fixed point, the first nearest one, and its squared distance is
    itself below that bound and not NaN.  Or none does (the fixed mesh is
    empty, or every distance is NaN or overflows): then the scan assigns
    nothing and the map receives the local [targetPoint] as it was
    declared. *)
Theorem ComputeTargetPosition_target_or_unassigned
        (indeterminate_point : Z -> Point float)
        (s : ThinShellDemonsMetric float) (transform : Transform float)
        (fixedMesh movingMesh : Mesh float) :
  m_Transform s = Some transform ->
  m_FixedMesh s = Some fixedMesh ->
  m_MovingMesh s = Some movingMesh ->
  Z.of_nat (GetNumberOfPoints movingMesh) <= INT_MAX ->
  exists s' : ThinShellDemonsMetric float,
    ComputeTargetPosition indeterminate_point s = Returns tt s' /\
    forall (i : nat) (v : Point float),
      GetPoints movingMesh !! i = Some v ->
      (has_point_below_bound transform fixedMesh v /\
       exists (k : nat) (f : Point float),
         first_minimizer comparable_double (TransformPoint transform v)
                         (GetPoints fixedMesh) k f /\
         (SquaredEuclideanDistanceTo f (TransformPoint transform v) <? nt_max)%D
         = true /\
         comparable_double
           (SquaredEuclideanDistanceTo f (TransformPoint transform v)) /\
         targetMap s' !! Z.of_nat i = Some f)
      \/
      (~ has_point_below_bound transform fixedMesh v /\
       targetMap s' !! Z.of_nat i = Some (indeterminate_point (Z.of_nat i))).
Proof.
  intros Htr Hfix Hmov Hmax.
  exists (targets_computed indeterminate_point transform fixedMesh movingMesh s).
  split; [apply ComputeTargetPosition_runs; assumption|].
  intros i v Hv. simpl.
  pose proof (insert_targets_lookup indeterminate_point transform fixedMesh
                _ 0 ∅ _ _ Hv) as Hlk.
  replace (0 + Z.of_nat i) with (Z.of_nat i) in Hlk by lia.
  rewrite Hlk. unfold closest. rewrite CastFrom_id.
  destruct (closest_scan_spec comparable_double double_lt_irrefl
              double_lt_trans double_lt_cotrans
              (TransformPoint transform v) (GetPoints fixedMesh)
              (indeterminate_point (Z.of_nat i)) nt_max)
    as [[Hnone Hscan]|(k & f & Hfirst & Hbelow & Hscan)].
  - right. split.
    + intros (j & g & Hg & Hlt). rewrite (Hnone j g Hg) in Hlt. discriminate.
    + rewrite Hscan. reflexivity.
  - left. split.
    + exists k, f. split; [apply Hfirst|exact Hbelow].
    + exists k, f. rewrite Hscan.
      repeat split; try apply Hfirst; try exact Hbelow.
      eapply double_lt_comparable. exact Hbelow.
Qed.

(** * Concrete runs of the further properties *)

Lemma GetValue_returns_iff_witness :
  exists (value : float) (s' : ThinShellDemonsMetric float),
    GetValue [0; 0; 0]%float initialized = Returns value s'.
Proof.
  apply (proj1 (GetValue_returns_iff initialized identity_transform fixed_AB
                  moving_1 [0; 0; 0]%float eq_refl eq_refl eq_refl)).
  split; [vm_compute; lia|]. split.
  - intros [|i] Hi; [vm_compute; eauto | vm_compute in Hi; lia].
  - vm_compute. discriminate.
Defined.

Lemma GetDerivative_returns_iff_witness :
  exists (r : list float) (s' : ThinShellDemonsMetric float),
    GetDerivative never_assigned_double [0; 0; 0]%float [] initialized
    = Returns r s'.
Proof.
  apply (proj1 (GetDerivative_returns_iff never_assigned_double initialized
                  fixed_AB moving_1 [0; 0; 0]%float [] eq_refl eq_refl)).
  split; [vm_compute; lia|]. split; [|split].
  - intros [|i] Hi; [vm_compute; eauto | vm_compute in Hi; lia].
  - vm_compute. discriminate.
  - vm_compute. lia.
Defined.

Lemma GetDerivative_depends_on_meshes_and_targets_witness :
  same_result
    (GetDerivative never_assigned_double [0; 0; 0]%float [] initialized)
    (GetDerivative (fun _ => 1%float) [0; 0; 0]%float [5; 5]%float
                   initialized_no_transform)
    initialized initialized_no_transform.
Proof.
  apply (GetDerivative_depends_on_meshes_and_targets never_assigned_double
           (fun _ => 1%float) initialized initialized_no_transform
           fixed_AB fixed_CD);
    reflexivity.
Defined.

Lemma GetValue_bypasses_transform_witness :
  same_result
    (GetValue [0; 0; 0]%float initialized)
    (GetValue [0; 0; 0]%float initialized_collapsing)
    (set_Transform (Some (SetParameters identity_transform [0; 0; 0]%float))
                   initialized)
    (set_Transform (Some (SetParameters collapsing_transform [0; 0; 0]%float))
                   initialized_collapsing).
Proof.
  apply (GetValue_bypasses_transform initialized initialized_collapsing
           identity_transform collapsing_transform fixed_AB fixed_A moving_1);
    reflexivity.
Defined.

Lemma ComputeTargetPosition_returns_iff_witness :
  exists s' : ThinShellDemonsMetric float,
    ComputeTargetPosition never_assigned_point configured = Returns tt s'.
Proof.
  apply (proj1 (ComputeTargetPosition_returns_iff never_assigned_point
                  configured fixed_AB moving_1 eq_refl eq_refl)).
  split.
  - right. eexists. reflexivity.
  - vm_compute. discriminate.
Defined.

Lemma ComputeTargetPosition_rebuilds_witness :
  m_Transform (initialized (D:=float)) = m_Transform configured /\
  m_FixedMesh (initialized (D:=float)) = m_FixedMesh configured /\
  m_MovingMesh (initialized (D:=float)) = m_MovingMesh configured /\
  m_TargetPositionComputed (initialized (D:=float)) = true /\
  forall (m0 : gmap Z (Point float)) (b : bool),
    ComputeTargetPosition never_assigned_point
      (set_targetMap m0 (set_TargetPositionComputed b configured))
    = Returns tt initialized.
Proof.
  apply (ComputeTargetPosition_rebuilds never_assigned_point configured
           initialized).
  vm_compute. reflexivity.
Defined.

Lemma ComputeTargetPosition_storage_independent_witness :
  ComputeTargetPosition never_assigned_point (configured (D:=float))
  = ComputeTargetPosition (fun _ => point_of_ints 3 4 5) configured.
Proof.
  apply (ComputeTargetPosition_storage_independent never_assigned_point
           (fun _ => point_of_ints 3 4 5) configured identity_transform
           fixed_AB moving_1 eq_refl eq_refl eq_refl).
  intros [|i] v Hv; [|destruct i; discriminate].
  exists 0%nat, (point_of_ints 0 0 0).
  inversion Hv; subst v. split; [reflexivity | vm_compute; reflexivity].
Defined.

Lemma Initialize_idempotent_witness :
  Initialize (fun _ => point_of_ints 3 4 5) (initialized (D:=float))
  = Returns tt initialized.
Proof.
  apply (Initialize_idempotent never_assigned_point
           (fun _ => point_of_ints 3 4 5) configured initialized
           identity_transform fixed_AB moving_1);
    [vm_compute; reflexivity | reflexivity | reflexivity | reflexivity |].
  intros [|i] v Hv; [|destruct i; discriminate].
  exists 0%nat, (point_of_ints 0 0 0).
  inversion Hv; subst v. split; [reflexivity | vm_compute; reflexivity].
Defined.

Lemma empty_moving_mesh_witness :
  ComputeTargetPosition never_assigned_point
                        (empty_moving_no_transform (D:=float))
  = Returns tt (set_TargetPositionComputed true
                  (set_targetMap ∅ empty_moving_no_transform)) /\
  GetDerivative never_assigned_double [] [5]%float
                (empty_moving_no_transform (D:=float))
  = Returns (replicate (3 * GetNumberOfPoints (fixed_AB (D:=float))) ZeroValue)
            empty_moving_no_transform.
Proof.
  apply (empty_moving_mesh never_assigned_point never_assigned_double
           empty_moving_no_transform fixed_AB moving_empty);
    reflexivity.
Defined.

Lemma ComputeTargetPosition_target_or_unassigned_witness :
  exists s' : ThinShellDemonsMetric float,
    ComputeTargetPosition never_assigned_point configured = Returns tt s' /\
    (targetMap s' !! Z.of_nat 0 = Some (never_assigned_point 0) \/
     exists (k : nat) (f : Point float),
       GetPoints fixed_AB !! k = Some f /\
       (SquaredEuclideanDistanceTo
          f (TransformPoint identity_transform (point_of_ints 1 0 0))
        <? nt_max)%D = true /\
       targetMap s' !! Z.of_nat 0 = Some f).
Proof.
  destruct (ComputeTargetPosition_target_or_unassigned never_assigned_point
              configured identity_transform fixed_AB moving_1
              eq_refl eq_refl eq_refl) as (s' & Hrun & Hall).
  - vm_compute. discriminate.
  - exists s'. split; [exact Hrun|].
    destruct (Hall 0%nat (point_of_ints 1 0 0) eq_refl)
      as [(_ & k & f & Hfirst & Hbelow & _ & Hlk)|(_ & Hlk)].
    + right. exists k, f. split; [apply Hfirst|]. split; assumption.
    + left. exact Hlk.
Defined.

Lemma GetDerivative_length_witness :
  length [2; neg_zero; neg_zero; 0; 0; 0]%float
  = (3 * GetNumberOfPoints (fixed_AB (D:=float)))%nat /\
  forall j : nat,
    (3 * GetNumberOfPoints (moving_1 (D:=float)) <= j
     < 3 * GetNumberOfPoints (fixed_AB (D:=float)))%nat ->
    [2; neg_zero; neg_zero; 0; 0; 0]%float !! j = Some ZeroValue.
Proof.
  apply (GetDerivative_length never_assigned_double initialized initialized
           fixed_AB moving_1 [0; 0; 0]%float []);
    [reflexivity | reflexivity | vm_compute; reflexivity].
Defined.

(** C2.  The claim is about every moving vertex, but the buffer is sized
    from the fixed mesh (lines 209-215, the defect of C1).  Two moving
    vertices over one fixed point: [Initialize] returns the metric with both
    targets in place, and then [GetDerivative] has undefined behaviour for
    every parameter vector and every buffer, since the slots [3..5] of
    vertex 1 lie outside a buffer of length [3]. *)
Theorem GetDerivative_second_vertex_out_of_buffer :
  Initialize never_assigned_point
    (mkMetric (Some identity_transform) (Some fixed_A) (Some moving_2) ∅ false)
  = Returns tt (initialized_two_on_one (D:=float)) /\
  forall parameters derivative : list float,
    GetDerivative never_assigned_double parameters derivative
                  initialized_two_on_one
    = Undefined.
Proof.
  split; [vm_compute; reflexivity|].
  intros parameters derivative.
  apply (GetDerivative_too_many_moving_points never_assigned_double
           initialized_two_on_one fixed_A moving_2);
    [reflexivity | reflexivity | vm_compute; lia].
Qed.
